(** * Visualization utilities: point clouds, oriented boxes and projection

    A shallow embedding of [data/data_visualizor/visualization_utils.py]:
    the Open3D scene helpers ([_draw_points], [_draw_bboxes],
    [_draw_bboxes_ind], the [Visualizer] class) and the image overlays
    ([project_pts_on_img], [draw_lidar_bbox3d_on_img]).

    Numbers.  The arrays of the source hold binary64 values.  Here a finite
    array entry is an exact rational ([Q]): rounding and overflow of the
    machine format are not part of the model.  The one operation that turns
    finite operands into a non-finite value, division, returns an [npfloat],
    which tells a finite quotient from [inf], [-inf] and [nan].  What the
    rational model cannot express, a quotient that overflows or an input
    that is [nan] or infinite already, is settled on a second embedding of
    the perspective divide, module [B64], whose entries are binary64 values
    themselves.

    External objects.  The Open3D viewer and the OpenCV canvas are recorded
    as the list of calls made on them, newest first; the source never looks
    at what those calls return.  Open3D's rotation matrix is kept symbolic
    and its point-in-box test is a parameter of the development. *)

From Stdlib Require Import List String ZArith QArith Qround Qminmax Bool Lia Lqa.
From Stdlib Require Import Floats.
Import ListNotations.

Local Open Scope Q_scope.

(** ** Numpy scalars *)

Module Np.

(** The value of a binary64 division whose operands are finite. *)
Inductive npfloat : Type :=
| Fin (q : Q)
| PInf
| NInf
| NaN.

(** [a / b] on array entries: division by zero gives [nan] for [0 / 0]
    and a signed infinity otherwise; it raises nothing. *)
Definition div (a b : Q) : npfloat :=
  if Qeq_bool b 0 then
    if Qeq_bool a 0 then NaN
    else if Qle_bool 0 a then PInf else NInf
  else Fin (a / b).

(** [x < c] and [x >= c] for a possibly non-finite [x] and a finite
    bound [c]; every comparison with [nan] is false. *)
Definition ltb (x : npfloat) (c : Q) : bool :=
  match x with
  | Fin q => negb (Qle_bool c q)
  | NInf => true
  | PInf | NaN => false
  end.

Definition geb (x : npfloat) (c : Q) : bool :=
  match x with
  | Fin q => Qle_bool c q
  | PInf => true
  | NInf | NaN => false
  end.

(** [np.clip(x, a_min, a_max)] is [minimum(maximum(x, a_min), a_max)]. *)
Definition clip (x a_min a_max : Q) : Q := Qmin (Qmax x a_min) a_max.

(** [np.clip] on Python integers. *)
Definition clipZ (i a_min a_max : Z) : Z := Z.min (Z.max i a_min) a_max.

(** Truncation toward zero, the conversion both [int(x)] and
    [astype(int)] perform on a finite value. *)
Definition trunc (q : Q) : Z := Z.quot (Qnum q) (Zpos (Qden q)).

(** [np.round]: to the nearest integer, ties to the even one. *)
Definition round (q : Q) : Z :=
  let f := Qfloor q in
  match Qcompare (q - inject_Z f) (1 # 2) with
  | Lt => f
  | Gt => (f + 1)%Z
  | Eq => if Z.even f then f else (f + 1)%Z
  end.

End Np.

(** ** Python exceptions and the state-and-error monad *)

Inductive PyError : Type :=
| AssertionError
| NotImplementedError
| IndexError
| AttributeError
| ValueError
| OverflowError.

Inductive result (A : Type) : Type :=
| Ok (a : A)
| Raise (e : PyError).
Arguments Ok {A} a.
Arguments Raise {A} e.

(** A computation over mutable objects of type [S].  What was mutated
    before an exception stays mutated, so the state is returned in both
    cases. *)
Definition M (S A : Type) : Type := S -> S * result A.

Definition ret {S A} (a : A) : M S A := fun s => (s, Ok a).

Definition raise {S A} (e : PyError) : M S A := fun s => (s, Raise e).

Definition bind {S A B} (c : M S A) (k : A -> M S B) : M S B :=
  fun s =>
    match c s with
    | (s', Ok a) => k a s'
    | (s', Raise e) => (s', Raise e)
    end.

Definition get {S} : M S S := fun s => (s, Ok s).

Definition modify {S} (f : S -> S) : M S unit := fun s => (f s, Ok tt).

(** A pure step that can raise. *)
Definition lift {S A} (r : result A) : M S A := fun s => (s, r).

(** Run a computation on a component of the state. *)
Definition zoom {S T A} (proj : S -> T) (upd : T -> S -> S) (c : M T A) : M S A :=
  fun s => let (t', r) := c (proj s) in (upd t' s, r).

Declare Scope py_scope.
Delimit Scope py_scope with py.
Notation "x <- c ;; k" := (bind c (fun x => k))
  (at level 61, c at next level, right associativity) : py_scope.
Notation "c ;; k" := (bind c (fun _ => k))
  (at level 61, right associativity) : py_scope.
Local Open Scope py_scope.
Local Open Scope string_scope.
Local Open Scope list_scope.

(** ** Arrays of three and four entries *)

Record vec3 : Type := V3 { v0 : Q; v1 : Q; v2 : Q }.

Inductive axis : Type := A0 | A1 | A2.

Definition vget (v : vec3) (a : axis) : Q :=
  match a with A0 => v0 v | A1 => v1 v | A2 => v2 v end.

Definition vset (v : vec3) (a : axis) (q : Q) : vec3 :=
  match a with
  | A0 => V3 q (v1 v) (v2 v)
  | A1 => V3 (v0 v) q (v2 v)
  | A2 => V3 (v0 v) (v1 v) q
  end.

Definition vsub (a b : vec3) : vec3 :=
  V3 (v0 a - v0 b) (v1 a - v1 b) (v2 a - v2 b).

Definition zeros3 : vec3 := V3 0 0 0.

(** An integer subscript into an array of length three: negative
    subscripts count from the end, anything else is out of bounds. *)
Definition index3 (i : Z) : result axis :=
  match i with
  | 0%Z | (-3)%Z => Ok A0
  | 1%Z | (-2)%Z => Ok A1
  | 2%Z | (-1)%Z => Ok A2
  | _ => Raise IndexError
  end.

Record vec4 : Type := V4 { w0 : Q; w1 : Q; w2 : Q; w3 : Q }.

Definition dot4 (a b : vec4) : Q :=
  w0 a * w0 b + w1 a * w1 b + w2 a * w2 b + w3 a * w3 b.

(** A 4x4 matrix, by rows. *)
Record mat4 : Type := Mat4 { row0 : vec4; row1 : vec4; row2 : vec4; row3 : vec4 }.

(** ** Open3D objects *)

(** One row of a colour array: the channels of one point. *)
Definition color : Type := list Q.

(** The matrix Open3D builds from three Euler angles; it is only ever
    handed back to Open3D, so it stays symbolic. *)
Inductive Rotation : Type :=
| get_rotation_matrix_from_xyz (angles : vec3).

Record OrientedBoundingBox : Type := OBB {
  obb_center : vec3;
  obb_R : Rotation;
  obb_extent : vec3
}.

Record PointCloud : Type := PCD {
  pcd_points : list vec3;
  pcd_colors : list color
}.

Inductive Geometry : Type :=
| create_coordinate_frame (size : Q) (origin : vec3)
| PointCloudGeometry (pcd : PointCloud)
| LineSet (box : OrientedBoundingBox) (line_color : color).

Inductive ViewerCall : Type :=
| create_window
| set_point_size (n : Z)
| add_geometry (g : Geometry)
| update_geometry (g : Geometry)
| run
| capture_screen_image (path : string)
| destroy_window.

(** [open3d.visualization.Visualizer]: the calls made so far, newest first. *)
Definition Viewer : Type := list ViewerCall.

Definition call (c : ViewerCall) : M Viewer unit := modify (cons c).

(** The part of Open3D whose result the source branches on: whether a
    point lies within an oriented box. *)
Class Open3D : Type := {
  point_within : OrientedBoundingBox -> vec3 -> bool
}.

(** Positions, counted from [n], of the [true] entries of a mask. *)
Fixpoint mask_indices (n : nat) (mask : list bool) : list nat :=
  match mask with
  | [] => []
  | true :: rest => n :: mask_indices (S n) rest
  | false :: rest => mask_indices (S n) rest
  end.

Definition get_point_indices_within_bounding_box `{Open3D}
    (box : OrientedBoundingBox) (points : list vec3) : list nat :=
  mask_indices 0 (map (point_within box) points).

(** ** Colour arrays *)

Fixpoint set_row (i : nat) (c : color) (cs : list color) : list color :=
  match cs, i with
  | [], _ => []
  | _ :: rest, O => c :: rest
  | x :: rest, S j => x :: set_row j c rest
  end.

(** [cs[indices] = c] for a list of integer subscripts: every subscript
    is checked against the length before anything is written. *)
Definition assign_rows (cs : list color) (indices : list nat) (c : color)
    : result (list color) :=
  if forallb (fun i => (i <? List.length cs)%nat) indices
  then Ok (fold_left (fun acc i => set_row i c acc) indices cs)
  else Raise IndexError.

(** [cs[mask] = c] for a boolean mask, which must be as long as [cs]. *)
Definition assign_mask (cs : list color) (mask : list bool) (c : color)
    : result (list color) :=
  if (List.length mask =? List.length cs)%nat
  then Ok (map (fun p : bool * color => if fst p then c else snd p) (combine mask cs))
  else Raise IndexError.

(** ** Point arrays and box arrays *)

(** One row of a [N, 3+C] point array. *)
Record PointRow : Type := Row { xyz : vec3; feats : list Q }.

(** One row of a [M, 7] box array. *)
Record BoxRow : Type := Box7 { box_center : vec3; box_dim : vec3; box_yaw : Q }.

(** A [N, M] membership matrix, by rows. *)
Record Membership : Type := Memb { memb_cols : nat; memb_rows : list (list Z) }.

(** [indices[:, i].astype(bool)]. *)
Definition membership_column (ind : Membership) (i : nat) : result (list bool) :=
  if (i <? memb_cols ind)%nat
  then Ok (map (fun r => negb (Z.eqb (nth i r 0%Z) 0)) (memb_rows ind))
  else Raise IndexError.

(** ** _draw_points *)

Definition in_unit_range (cs : list color) : bool :=
  forallb (forallb (fun q => Qle_bool 0 q && Qle_bool q 1)) cs.

Definition _draw_points (points : list PointRow) (points_size : Z)
    (point_color : color) (mode : string) : M Viewer (PointCloud * list color) :=
  call (set_point_size points_size) ;;
  points_colors <-
    (if mode =? "xyz" then
       ret (repeat point_color (List.length points))
     else if mode =? "xyzrgb" then
       let points_colors := map (fun p => firstn 3 (feats p)) points in
       (* normalize to [0, 1] for open3d drawing *)
       if negb (in_unit_range points_colors)
       then ret (map (map (fun q => q / 255)) points_colors)
       else ret points_colors
     else raise NotImplementedError) ;;
  let pcd := PCD (map xyz points) points_colors in
  call (add_geometry (PointCloudGeometry pcd)) ;;
  ret (pcd, points_colors).

(** ** _draw_bboxes and _draw_bboxes_ind *)

(** What the two box-drawing loops mutate: the viewer, the colour array
    they were handed, and the point cloud (when there is one). *)
Record DrawState : Type := DS {
  ds_vis : Viewer;
  ds_points_colors : list color;
  ds_pcd : option PointCloud
}.

Definition vis_call (c : ViewerCall) : M DrawState unit :=
  modify (fun s => DS (c :: ds_vis s) (ds_points_colors s) (ds_pcd s)).

Definition set_points_colors (cs : list color) : M DrawState unit :=
  modify (fun s => DS (ds_vis s) cs (ds_pcd s)).

Fixpoint for_each {S A} (body : A -> M S unit) (l : list A) : M S unit :=
  match l with
  | [] => ret tt
  | a :: rest => body a ;; for_each body rest
  end.

(** The oriented box of one row in [_draw_bboxes]. *)
Definition _draw_bboxes_box3d (row : BoxRow) (rot_axis : Z)
    (center_mode : string) : result OrientedBoundingBox :=
  match index3 rot_axis with
  | Raise e => Raise e
  | Ok ax =>
      let center := box_center row in
      let dim := box_dim row in
      let yaw := vset zeros3 ax (box_yaw row) in
      let rot_mat := get_rotation_matrix_from_xyz yaw in
      let center :=
        if center_mode =? "lidar_bottom" then
          (* bottom center to gravity center *)
          vset center ax (vget center ax + vget dim ax / 2)
        else if center_mode =? "camera_bottom" then
          (* bottom center to gravity center *)
          vset center ax (vget center ax - vget dim ax / 2)
        else center in
      Ok (OBB center rot_mat dim)
  end.

(** Last step of both loops: [pcd.colors = points_colors] and
    [vis.update_geometry(pcd)]. *)
Definition update_points_colors : M DrawState unit :=
  s <- get ;;
  match ds_pcd s with
  | Some pcd =>
      let pcd' := PCD (pcd_points pcd) (ds_points_colors s) in
      modify (fun s => DS (update_geometry (PointCloudGeometry pcd') :: ds_vis s)
                          (ds_points_colors s) (Some pcd'))
  | None => ret tt
  end.

Definition _draw_bboxes_body `{Open3D} (bbox_color in_box_color : color)
    (rot_axis : Z) (center_mode mode : string) (row : BoxRow) : M DrawState unit :=
  box3d <- lift (_draw_bboxes_box3d row rot_axis center_mode) ;;
  (* draw bboxes on visualizer *)
  vis_call (add_geometry (LineSet box3d bbox_color)) ;;
  (* change the color of points which are in box *)
  s <- get ;;
  match ds_pcd s with
  | Some pcd =>
      if mode =? "xyz" then
        let indices := get_point_indices_within_bounding_box box3d (pcd_points pcd) in
        cs <- lift (assign_rows (ds_points_colors s) indices in_box_color) ;;
        set_points_colors cs
      else ret tt
  | None => ret tt
  end.

Definition _draw_bboxes `{Open3D} (bbox3d : list BoxRow)
    (bbox_color points_in_box_color : color) (rot_axis : Z)
    (center_mode mode : string) : M DrawState unit :=
  for_each (_draw_bboxes_body bbox_color points_in_box_color rot_axis center_mode mode)
           bbox3d ;;
  (* update points colors *)
  update_points_colors.

(** The oriented box of one row in [_draw_bboxes_ind]. *)
Definition _draw_bboxes_ind_box3d (row : BoxRow) (rot_axis : Z)
    (center_mode : string) : result OrientedBoundingBox :=
  match index3 rot_axis with
  | Raise e => Raise e
  | Ok ax =>
      let center := box_center row in
      let dim := box_dim row in
      let yaw := vset zeros3 ax (- box_yaw row) in
      let rot_mat := get_rotation_matrix_from_xyz yaw in
      let center :=
        if center_mode =? "lidar_bottom" then
          vset center ax (vget center ax + vget dim ax / 2)
        else if center_mode =? "camera_bottom" then
          vset center ax (vget center ax - vget dim ax / 2)
        else center in
      Ok (OBB center rot_mat dim)
  end.

Definition _draw_bboxes_ind_body (indices : Membership)
    (bbox_color in_box_color : color) (rot_axis : Z) (center_mode mode : string)
    (irow : nat * BoxRow) : M DrawState unit :=
  box3d <- lift (_draw_bboxes_ind_box3d (snd irow) rot_axis center_mode) ;;
  vis_call (add_geometry (LineSet box3d bbox_color)) ;;
  s <- get ;;
  match ds_pcd s with
  | Some _ =>
      if mode =? "xyz" then
        mask <- lift (membership_column indices (fst irow)) ;;
        cs <- lift (assign_mask (ds_points_colors s) mask in_box_color) ;;
        set_points_colors cs
      else ret tt
  | None => ret tt
  end.

Definition _draw_bboxes_ind (bbox3d : list BoxRow) (indices : Membership)
    (bbox_color points_in_box_color : color) (rot_axis : Z)
    (center_mode mode : string) : M DrawState unit :=
  for_each (_draw_bboxes_ind_body indices bbox_color points_in_box_color
                                  rot_axis center_mode mode)
           (combine (seq 0 (List.length bbox3d)) bbox3d) ;;
  update_points_colors.

(** ** The Visualizer class *)

(** The attributes of a [Visualizer] object.  [pcd] and [points_colors]
    are only assigned when the constructor was given points; reading
    them otherwise is an [AttributeError]. *)
Record Visualizer : Type := MkVisualizer {
  o3d_visualizer : Viewer;
  points_size : Z;
  point_color : color;
  bbox_color : color;
  points_in_box_color : color;
  rot_axis : Z;
  center_mode : string;
  mode : string;
  seg_num : Z;
  pcd : option PointCloud;
  points_colors : option (list color)
}.

Definition set_o3d_visualizer (v : Viewer) (self : Visualizer) : Visualizer :=
  MkVisualizer v (points_size self) (point_color self) (bbox_color self)
    (points_in_box_color self) (rot_axis self) (center_mode self) (mode self)
    (seg_num self) (pcd self) (points_colors self).

Definition set_seg_num (n : Z) (self : Visualizer) : Visualizer :=
  MkVisualizer (o3d_visualizer self) (points_size self) (point_color self)
    (bbox_color self) (points_in_box_color self) (rot_axis self)
    (center_mode self) (mode self) n (pcd self) (points_colors self).

Definition set_points (p : PointCloud) (cs : list color) (self : Visualizer)
    : Visualizer :=
  MkVisualizer (o3d_visualizer self) (points_size self) (point_color self)
    (bbox_color self) (points_in_box_color self) (rot_axis self)
    (center_mode self) (mode self) (seg_num self) (Some p) (Some cs).

Definition with_viewer {A} (c : M Viewer A) : M Visualizer A :=
  zoom o3d_visualizer set_o3d_visualizer c.

(** [_draw_bboxes(bbox3d, self.o3d_visualizer, self.points_colors,
    self.pcd, ...)]: the loop works on the object's own viewer, colour
    array and point cloud. *)
Definition self_draw_bboxes `{Open3D} (bbox3d : list BoxRow)
    (box_color in_box_color : color) : M Visualizer unit :=
  fun self =>
    match points_colors self, pcd self with
    | Some cs, Some p =>
        let (s, r) :=
          _draw_bboxes bbox3d box_color in_box_color (rot_axis self)
            (center_mode self) (mode self) (DS (o3d_visualizer self) cs (Some p)) in
        (MkVisualizer (ds_vis s) (points_size self) (point_color self)
           (bbox_color self) (points_in_box_color self)
           (rot_axis self) (center_mode self) (mode self) (seg_num self)
           (ds_pcd s) (Some (ds_points_colors s)), r)
    | _, _ => (self, Raise AttributeError)
    end.

Definition default_point_color : color := [1 # 2; 1 # 2; 1 # 2].

Definition Visualizer__init__ `{Open3D} (points : option (list PointRow))
    (bbox3d : option (list BoxRow)) (points_size : Z)
    (point_color bbox_color points_in_box_color : color) (rot_axis : Z)
    (center_mode mode : string) : result Visualizer :=
  if negb ((0 <=? rot_axis)%Z && (rot_axis <=? 2)%Z) then Raise AssertionError
  else
    (* init visualizer *)
    let self :=
      MkVisualizer [add_geometry (create_coordinate_frame 1 zeros3); create_window]
        points_size point_color bbox_color points_in_box_color rot_axis
        center_mode mode 0%Z None None in
    let body : M Visualizer unit :=
      (* draw points *)
      match points with
      | Some pts =>
          pc <- with_viewer (_draw_points pts points_size point_color mode) ;;
          modify (set_points (fst pc) (snd pc))
      | None => ret tt
      end ;;
      (* draw boxes *)
      match bbox3d with
      | Some boxes => self_draw_bboxes boxes bbox_color points_in_box_color
      | None => ret tt
      end in
    match body self with
    | (self', Ok _) => Ok self'
    | (_, Raise e) => Raise e
    end.

Definition add_bboxes `{Open3D} (bbox3d : list BoxRow)
    (bbox_color' points_in_box_color' : option color) : M Visualizer unit :=
  self <- get ;;
  let box_color :=
    match bbox_color' with Some c => c | None => bbox_color self end in
  let in_box_color :=
    match points_in_box_color' with
    | Some c => c
    | None => points_in_box_color self
    end in
  self_draw_bboxes bbox3d box_color in_box_color.

(** [np.array(points).max(0)] and [.min(0)]: column-wise extrema, which
    do not exist for an empty array. *)
Definition amax0 (points : list vec3) : result vec3 :=
  match points with
  | [] => Raise ValueError
  | p :: rest =>
      Ok (fold_left (fun m q => V3 (Qmax (v0 m) (v0 q)) (Qmax (v1 m) (v1 q))
                                   (Qmax (v2 m) (v2 q))) rest p)
  end.

Definition amin0 (points : list vec3) : result vec3 :=
  match points with
  | [] => Raise ValueError
  | p :: rest =>
      Ok (fold_left (fun m q => V3 (Qmin (v0 m) (v0 q)) (Qmin (v1 m) (v1 q))
                                   (Qmin (v2 m) (v2 q))) rest p)
  end.

Definition self_pcd : M Visualizer PointCloud :=
  fun self =>
    match pcd self with
    | Some p => (self, Ok p)
    | None => (self, Raise AttributeError)
    end.

Definition add_seg_mask (seg_mask_colors : list PointRow) : M Visualizer unit :=
  (* we can't draw the colors on existing points
     in case gt and pred mask would overlap
     instead we set a large offset along x-axis for each seg mask *)
  modify (fun self => set_seg_num (seg_num self + 1) self) ;;
  p <- self_pcd ;;
  hi <- lift (amax0 (pcd_points p)) ;;
  p <- self_pcd ;;
  lo <- lift (amin0 (pcd_points p)) ;;
  self <- get ;;
  let offset := v0 (vsub hi lo) * (12 # 10) * inject_Z (seg_num self) in
  (* create coordinate frame for seg *)
  with_viewer (call (add_geometry (create_coordinate_frame 1 (V3 offset 0 0)))) ;;
  let seg_points :=
    map (fun r => Row (vset (xyz r) A0 (v0 (xyz r) + offset)) (feats r))
        seg_mask_colors in
  with_viewer (_draw_points seg_points (points_size self)
                 default_point_color "xyzrgb") ;;
  ret tt.

Definition show (save_path : option string) : M Visualizer unit :=
  with_viewer (call run) ;;
  match save_path with
  | Some path => with_viewer (call (capture_screen_image path))
  | None => ret tt
  end ;;
  with_viewer (call destroy_window).

(** ** Image overlays *)

Inductive CanvasCall : Type :=
| circle (center : Z * Z) (radius : Z) (color_index : Z) (thickness : Z)
| line (pt1 pt2 : Z * Z) (line_color : list Z) (thickness : Z)
| imshow (win_name : string)
| waitKey (delay : Z).

(** The OpenCV drawing calls made so far, newest first. *)
Definition Canvas : Type := list CanvasCall.

Definition canvas_call (c : CanvasCall) : M Canvas unit := modify (cons c).

(** A row of [pts_2d] once the first two columns have been divided by
    the third. *)
Record PixelRow : Type := Pix {
  pix_u : Np.npfloat;
  pix_v : Np.npfloat;
  pix_depth : Q;
  pix_w : Q
}.

(** A row of [np.concatenate([points[:, :3], np.ones((n, 1))], axis=-1)]. *)
Definition homogeneous (p : vec3) : vec4 := V4 (v0 p) (v1 p) (v2 p) 1.

(** A row of [pts_4d @ lidar2img_rt.T]. *)
Definition matmul_T (p : vec4) (m : mat4) : vec4 :=
  V4 (dot4 p (row0 m)) (dot4 p (row1 m)) (dot4 p (row2 m)) (dot4 p (row3 m)).

(** Clip column 2, then divide columns 0 and 1 by it. *)
Definition perspective_divide (a_min a_max : Q) (r : vec4) : PixelRow :=
  let depth := Np.clip (w2 r) a_min a_max in
  Pix (Np.div (w0 r) depth) (Np.div (w1 r) depth) depth (w3 r).

(** [int(x)] raises on a value that is not finite. *)
Definition py_int (x : Np.npfloat) : result Z :=
  match x with
  | Np.Fin q => Ok (Np.trunc q)
  | Np.PInf | Np.NInf => Raise OverflowError
  | Np.NaN => Raise ValueError
  end.

(** [int(np.round(x))]. *)
Definition int_round (x : Np.npfloat) : result Z :=
  match x with
  | Np.Fin q => Ok (Np.round q)
  | Np.PInf | Np.NInf => Raise OverflowError
  | Np.NaN => Raise ValueError
  end.

(** The [pts_2d] array of [project_pts_on_img]. *)
Definition project_pts_2d (points : list PointRow) (lidar2img_rt : mat4)
    : list PixelRow :=
  map (fun p => perspective_divide (1 # 100000) 99999
                  (matmul_T (homogeneous (xyz p)) lidar2img_rt))
      points.

(** [(u < width) & (u >= 0) & (v < height) & (v >= 0)] for an image of
    shape [(height, width)]. *)
Definition fov_inds (img_shape : Z * Z) (r : PixelRow) : bool :=
  Np.ltb (pix_u r) (inject_Z (snd img_shape)) && Np.geb (pix_u r) 0
  && Np.ltb (pix_v r) (inject_Z (fst img_shape)) && Np.geb (pix_v r) 0.

(** The subscript into the 256-entry [hsv] palette:
    [np.clip(int(max_distance * 10 / depth), 0, 255)]. *)
Definition color_index (max_distance depth : Q) : result Z :=
  match py_int (Np.div (max_distance * 10) depth) with
  | Ok i => Ok (Np.clipZ i 0 255)
  | Raise e => Raise e
  end.

Definition project_pts_on_img (points : list PointRow) (img_shape : Z * Z)
    (lidar2img_rt : mat4) (max_distance : Q) (thickness : Z) : M Canvas unit :=
  let pts_2d := project_pts_2d points lidar2img_rt in
  let imgfov_pts_2d := filter (fov_inds img_shape) pts_2d in
  for_each
    (fun r =>
       let depth := pix_depth r in
       color <- lift (color_index max_distance depth) ;;
       cx <- lift (int_round (pix_u r)) ;;
       cy <- lift (int_round (pix_v r)) ;;
       canvas_call (circle (cx, cy) 1 color thickness))
    imgfov_pts_2d ;;
  canvas_call (imshow "project_pts_img") ;;
  canvas_call (waitKey 100).

(** The twelve edges of a box, as pairs of corner numbers. *)
Definition line_indices : list (nat * nat) :=
  [(0, 1); (0, 3); (0, 4); (1, 2); (1, 5); (3, 2); (3, 7);
   (4, 5); (4, 7); (2, 6); (5, 6); (6, 7)]%nat.

(** The range of a 64-bit integer and of a C [int]. *)
Definition int64_min : Z := -9223372036854775808.
Definition int64_max : Z := 9223372036854775807.

(** [astype(np.int)] on one entry, where [np.int] is the 64-bit integer:
    truncation toward zero; an entry that is not finite, or whose
    truncation does not fit 64 bits, converts to the smallest 64-bit
    integer. *)
Definition astype_int (x : Np.npfloat) : Z :=
  match x with
  | Np.Fin q =>
      let t := Np.trunc q in
      if (int64_min <=? t)%Z && (t <=? int64_max)%Z then t else int64_min
  | _ => int64_min
  end.

Definition subscript {A} (l : list A) (i : nat) : result A :=
  match nth_error l i with
  | Some a => Ok a
  | None => Raise IndexError
  end.

Definition plot_rect3d_on_img (num_rects : nat)
    (rect_corners : list (list (Np.npfloat * Np.npfloat)))
    (line_color : list Z) (thickness : Z) : M Canvas unit :=
  for_each
    (fun i =>
       row <- lift (subscript rect_corners i) ;;
       let corners := map (fun p => (astype_int (fst p), astype_int (snd p))) row in
       for_each
         (fun se : nat * nat =>
            a <- lift (subscript corners (fst se)) ;;
            b <- lift (subscript corners (snd se)) ;;
            canvas_call (line a b line_color thickness))
         line_indices)
    (seq 0 num_rects).

(** The [pts_2d] rows of one box in [draw_lidar_bbox3d_on_img]. *)
Definition lidar_pts_2d (corners : list vec3) (lidar2img_rt : mat4)
    : list PixelRow :=
  map (fun p => perspective_divide (1 # 100000) 100000
                  (matmul_T (homogeneous p) lidar2img_rt))
      corners.


(** ** The perspective divide on binary64 values *)

(** The same projection with every entry a binary64 value.  The sums of
    the matrix product are taken from left to right; the statements about
    this module hold for every row of the product, or use the identity
    matrix, for which every order of the additions gives the same row. *)
Module B64.

Record vec3 : Type := V3 { v0 : float; v1 : float; v2 : float }.

Record vec4 : Type := V4 { w0 : float; w1 : float; w2 : float; w3 : float }.

Record mat4 : Type := Mat4 { row0 : vec4; row1 : vec4; row2 : vec4; row3 : vec4 }.

Definition dot4 (a b : vec4) : float :=
  (w0 a * w0 b + w1 a * w1 b + w2 a * w2 b + w3 a * w3 b)%float.

Definition homogeneous (p : vec3) : vec4 := V4 (v0 p) (v1 p) (v2 p) 1%float.

Definition matmul_T (p : vec4) (m : mat4) : vec4 :=
  V4 (dot4 p (row0 m)) (dot4 p (row1 m)) (dot4 p (row2 m)) (dot4 p (row3 m)).

(** The binary64 value of the literal [1e-5]. *)
Definition a_min : float := 0x1.4f8b588e368f1p-17%float.

(** [np.clip] on one entry: the larger of [x] and [lo], then the smaller
    of that and [hi], where a [nan] entry stays [nan]. *)
Definition clip (x lo hi : float) : float :=
  let m := if is_nan x then x else if (lo <? x)%float then x else lo in
  if is_nan m then m else if (m <? hi)%float then m else hi.

Record PixelRow : Type := Pix {
  pix_u : float;
  pix_v : float;
  pix_depth : float;
  pix_w : float
}.

(** Clip column 2, then divide columns 0 and 1 by it. *)
Definition perspective_divide (lo hi : float) (r : vec4) : PixelRow :=
  let depth := clip (w2 r) lo hi in
  Pix (w0 r / depth)%float (w1 r / depth)%float depth (w3 r).

(** The [pts_2d] array of [project_pts_on_img]. *)
Definition project_pts_2d (points : list vec3) (lidar2img_rt : mat4) : list PixelRow :=
  map (fun p => perspective_divide a_min 99999%float
                  (matmul_T (homogeneous p) lidar2img_rt))
      points.

(** The [pts_2d] rows of one box in [draw_lidar_bbox3d_on_img]. *)
Definition lidar_pts_2d (corners : list vec3) (lidar2img_rt : mat4) : list PixelRow :=
  map (fun p => perspective_divide a_min 100000%float
                  (matmul_T (homogeneous p) lidar2img_rt))
      corners.

Definition identity4 : mat4 :=
  Mat4 (V4 1 0 0 0) (V4 0 1 0 0) (V4 0 0 1 0) (V4 0 0 0 1).

End B64.

(** ** Reference definitions used by the statements below *)

(** An instance of the Open3D interface for examples: the test Open3D
    performs on a box whose rotation is the identity. *)
Definition axis_aligned_within (box : OrientedBoundingBox) (p : vec3) : bool :=
  forallb
    (fun a => Qle_bool (vget p a - vget (obb_center box) a) (vget (obb_extent box) a / 2)
              && Qle_bool (vget (obb_center box) a - vget p a) (vget (obb_extent box) a / 2))
    [A0; A1; A2].

Definition axis_aligned : Open3D := {| point_within := axis_aligned_within |}.

Definition axis_eqb (a b : axis) : bool :=
  match a, b with
  | A0, A0 | A1, A1 | A2, A2 => true
  | _, _ => false
  end.

Definition identity4 : mat4 :=
  Mat4 (V4 1 0 0 0) (V4 0 1 0 0) (V4 0 0 1 0) (V4 0 0 0 1).

(** C2 as worded: the indexed loop would build its box around the row's
    centre as given, whatever the [center_mode]. *)
Definition uncorrected_ind_center (row : BoxRow) : vec3 := box_center row.

(** The offset of the k-th extra point group as the design text words
    it: 1.2 x (k - 1) x extent. *)
Definition claimed_seg_offset (k : Z) (extent : Q) : Q :=
  (12 # 10) * inject_Z (k - 1) * extent.

(** A scene over the two points (0,0,0) and (1,0,0), for examples. *)
Definition two_point_scene : result Visualizer :=
  @Visualizer__init__ axis_aligned
    (Some [Row (V3 0 0 0) []; Row (V3 1 0 0) []]) None 2
    default_point_color [0; 1; 0] [1; 0; 0] 2 "lidar_bottom" "xyz".

Definition two_point_cloud : PointCloud :=
  PCD [V3 0 0 0; V3 1 0 0] [default_point_color; default_point_color].

(** The object [two_point_scene] constructs. *)
Definition two_point_self : Visualizer :=
  MkVisualizer
    [add_geometry (PointCloudGeometry two_point_cloud); set_point_size 2;
     add_geometry (create_coordinate_frame 1 zeros3); create_window]
    2 default_point_color [0; 1; 0] [1; 0; 0] 2 "lidar_bottom" "xyz" 0
    (Some two_point_cloud) (Some [default_point_color; default_point_color]).

(** That scene after [show()]. *)
Definition shown_two_point_self : Visualizer := fst (show None two_point_self).

(** The same mutable objects with an older history [t] of viewer calls
    underneath. *)
Definition shift (t : Viewer) (s : DrawState) : DrawState :=
  DS (ds_vis s ++ t) (ds_points_colors s) (ds_pcd s).

Definition vshift (t : Viewer) (self : Visualizer) : Visualizer :=
  set_o3d_visualizer (o3d_visualizer self ++ t) self.

(** What the two loops leave alone when they do not recolour. *)
Definition same_colors (s s' : DrawState) : Prop :=
  ds_points_colors s' = ds_points_colors s /\ ds_pcd s' = ds_pcd s.

(** The effect of one pass of the [_draw_bboxes] loop body on the colour
    array, given the points of the cloud (if there is one). *)
Definition recolor_row `{Open3D} (ic : color) (rot_axis : Z)
    (center_mode mode : string) (points : option (list vec3)) (row : BoxRow)
    (cs : list color) : result (list color) :=
  match _draw_bboxes_box3d row rot_axis center_mode with
  | Raise e => Raise e
  | Ok box3d =>
      match points with
      | Some pts =>
          if mode =? "xyz"
          then assign_rows cs (get_point_indices_within_bounding_box box3d pts) ic
          else Ok cs
      | None => Ok cs
      end
  end.

(** The effect of the whole loop: the colour array it leaves, and how
    it ended. *)
Fixpoint recolor_rows `{Open3D} (ic : color) (rot_axis : Z)
    (center_mode mode : string) (points : option (list vec3))
    (rows : list BoxRow) (cs : list color) : list color * result unit :=
  match rows with
  | [] => (cs, Ok tt)
  | row :: rest =>
      match recolor_row ic rot_axis center_mode mode points row cs with
      | Ok cs' => recolor_rows ic rot_axis center_mode mode points rest cs'
      | Raise e => (cs, Raise e)
      end
  end.

(** The points of the cloud the loops work on, if there is one. *)
Definition points_of (s : DrawState) : option (list vec3) :=
  option_map pcd_points (ds_pcd s).

(** Colour [c] written at each subscript of [idx] in turn. *)
Definition paint (c : color) (idx : list nat) (cs : list color) : list color :=
  fold_left (fun acc i => set_row i c acc) idx cs.

(** [b] has the length of [a] and colour [ic] wherever [a] has it. *)
Definition keeps_painted (ic : color) (a b : list color) : Prop :=
  List.length b = List.length a
  /\ forall i, nth_error a i = Some ic -> nth_error b i = Some ic.

(** The palette subscript as the design text words it: round, then clamp. *)
Definition rounded_color_index (max_distance depth : Q) : Z :=
  Np.clipZ (Np.round (max_distance * 10 / depth)) 0 255.

(** Every channel of a colour array lies in [0, 1]. *)
Definition unit_range (cs : list color) : Prop :=
  Forall (Forall (fun q => 0 <= q /\ q <= 1)) cs.

(** The scene has been shown: its window was destroyed. *)
Definition closed (self : Visualizer) : Prop :=
  In destroy_window (o3d_visualizer self).

(** Two objects that differ at most in the record of viewer calls. *)
Definition same_attributes (a b : Visualizer) : Prop :=
  set_o3d_visualizer [] a = set_o3d_visualizer [] b.

(** The scene after a series of [add_seg_mask] calls. *)
Definition after_seg_masks (masks : list (list PointRow)) (self : Visualizer)
    : Visualizer :=
  fold_left (fun s m => fst (add_seg_mask m s)) masks self.

(** ** show_pts_boxes *)

(** [show_pts_boxes] opens a viewer of its own; the result is the record
    of the calls made on it and how the function ended.  When the
    assertion fails no viewer exists yet. *)
Definition show_pts_boxes `{Open3D} (points : list PointRow)
    (bbox3d : option (list BoxRow)) (show_flag : bool) (save_path : option string)
    (points_size : Z) (point_color bbox_color points_in_box_color : color)
    (rot_axis : Z) (center_mode mode : string) : Viewer * result unit :=
  if negb ((0 <=? rot_axis)%Z && (rot_axis <=? 2)%Z) then ([], Raise AssertionError)
  else
    (* init visualizer *)
    let vis := [add_geometry (create_coordinate_frame 1 zeros3); create_window] in
    (* draw points *)
    match _draw_points points points_size point_color mode vis with
    | (vis, Raise e) => (vis, Raise e)
    | (vis, Ok (pcd, points_colors)) =>
        (* draw boxes *)
        let drawn :=
          match bbox3d with
          | Some boxes =>
              _draw_bboxes boxes bbox_color points_in_box_color rot_axis
                center_mode mode (DS vis points_colors (Some pcd))
          | None => (DS vis points_colors (Some pcd), Ok tt)
          end in
        match drawn with
        | (s, Raise e) => (ds_vis s, Raise e)
        | (s, Ok _) =>
            let vis := if show_flag then run :: ds_vis s else ds_vis s in
            let vis :=
              match save_path with
              | Some path => capture_screen_image path :: vis
              | None => vis
              end in
            (destroy_window :: vis, Ok tt)
        end
    end.

(** ** _write_oriented_bbox *)

(** [np.cos] and [np.sin], whose values the source only copies into a
    matrix. *)
Class Trig : Type := {
  np_cos : Q -> Q;
  np_sin : Q -> Q
}.

(** The argument pair of [trimesh.creation.box]. *)
Record TrimeshBox : Type := TBox {
  tbox_extents : vec3;
  tbox_transform : mat4
}.

(** The 3x3 matrix of [heading2rotmat], by rows. *)
Definition heading2rotmat `{Trig} (heading_angle : Q) : vec3 * vec3 * vec3 :=
  let cosval := np_cos heading_angle in
  let sinval := np_sin heading_angle in
  (V3 cosval (- sinval) 0, V3 sinval cosval 0, V3 0 0 1).

Definition convert_oriented_box_to_trimesh_fmt `{Trig} (box : BoxRow) : TrimeshBox :=
  let ctr := box_center box in
  let lengths := box_dim box in
  let '(r0, r1, r2) := heading2rotmat (box_yaw box) in
  let trns :=
    Mat4 (V4 (v0 r0) (v1 r0) (v2 r0) (v0 ctr))
         (V4 (v0 r1) (v1 r1) (v2 r1) (v1 ctr))
         (V4 (v0 r2) (v1 r2) (v2 r2) (v2 ctr))
         (V4 0 0 0 1) in
  TBox lengths trns.

(** The boxes handed to the scene, in order; the scene is then exported
    to [out_filename] as an [obj] file. *)
Definition _write_oriented_bbox `{Trig} (scene_bbox : list BoxRow)
    : list TrimeshBox :=
  let scene_bbox :=
    if (List.length scene_bbox =? 0)%nat then [Box7 zeros3 zeros3 0] else scene_bbox in
  map convert_oriented_box_to_trimesh_fmt scene_bbox.

(** A 4x4 matrix applied to a homogeneous point. *)
Definition transform_point (m : mat4) (p : vec3) : vec4 :=
  matmul_T (homogeneous p) m.

(** An instance of [Trig] for examples: the cosine and sine of the angle
    whose tangent is 4/3, at every argument. *)
Definition three_four_five : Trig := {| np_cos := fun _ => 3 # 5; np_sin := fun _ => 4 # 5 |}.

(** ** Further reference definitions *)

(** Whether a point lies in the box [_draw_bboxes] builds for a row. *)
Definition row_contains `{Open3D} (rot_axis : Z) (center_mode : string)
    (pt : vec3) (row : BoxRow) : bool :=
  match _draw_bboxes_box3d row rot_axis center_mode with
  | Ok box3d => point_within box3d pt
  | Raise _ => false
  end.

(** Whether a row of the membership matrix is non-zero in one of its
    first [m] columns. *)
Definition member_of_some (m : nat) (row : list Z) : bool :=
  existsb (fun j => negb (Z.eqb (nth j row 0%Z) 0)) (seq 0 m).

(** The effect of the [_draw_bboxes_ind] loop on the colour array, for
    box numbers [k, k + n) and a cloud that is present. *)
Fixpoint recolor_ind_rows (indices : Membership) (ic : color) (mode : string)
    (k n : nat) (cs : list color) : list color * result unit :=
  match n with
  | O => (cs, Ok tt)
  | S n' =>
      if mode =? "xyz" then
        match membership_column indices k with
        | Raise e => (cs, Raise e)
        | Ok mask =>
            match assign_mask cs mask ic with
            | Raise e => (cs, Raise e)
            | Ok cs' => recolor_ind_rows indices ic mode (S k) n' cs'
            end
        end
      else recolor_ind_rows indices ic mode (S k) n' cs
  end.

(** What every scene built with points satisfies: a valid rotation
    axis, a supported mode, and a colour array that is the cloud's own
    and as long as the cloud. *)
Definition scene_ok (self : Visualizer) : Prop :=
  (0 <= rot_axis self <= 2)%Z
  /\ (mode self = "xyz" \/ mode self = "xyzrgb")
  /\ exists p, pcd self = Some p
       /\ points_colors self = Some (pcd_colors p)
       /\ List.length (pcd_points p) = List.length (pcd_colors p).

(** The circle [project_pts_on_img] draws for a point. *)
Definition point_circle (lidar2img_rt : mat4) (max_distance : Q) (thickness : Z)
    (p : PointRow) : CanvasCall :=
  let h := matmul_T (homogeneous (xyz p)) lidar2img_rt in
  let depth := Np.clip (w2 h) (1 # 100000) 99999 in
  circle (Np.round (w0 h / depth), Np.round (w1 h / depth)) 1
         (Np.clipZ (Np.trunc (max_distance * 10 / depth)) 0 255) thickness.

(** Whether a point passes the field-of-view test. *)
Definition point_in_fov (img_shape : Z * Z) (lidar2img_rt : mat4) (p : PointRow)
    : bool :=
  fov_inds img_shape
    (perspective_divide (1 # 100000) 99999
       (matmul_T (homogeneous (xyz p)) lidar2img_rt)).

(** The twelve segments of one box, from its corners cut to integers. *)
Definition rect_lines (line_color : list Z) (thickness : Z)
    (corners : list (Np.npfloat * Np.npfloat)) : list CanvasCall :=
  map (fun se : nat * nat =>
         let c := map (fun p => (astype_int (fst p), astype_int (snd p))) corners in
         line (nth (fst se) c (0, 0)%Z) (nth (snd se) c (0, 0)%Z) line_color thickness)
      line_indices.

(** The values a C [int], the type of the coordinates [cv2.line] takes,
    can hold. *)
Definition c_int (t : Z) : Prop := (-2147483648 <= t <= 2147483647)%Z.

(** A corner whose two coordinates are finite and, cut to integers, fit a
    C [int]. *)
Definition corner_in_c_int (p : Np.npfloat * Np.npfloat) : Prop :=
  exists x y, p = (Np.Fin x, Np.Fin y) /\ c_int (Np.trunc x) /\ c_int (Np.trunc y).

(** A drawing call whose end points, if it is a segment, fit C [int]s. *)
Definition line_in_c_int (c : CanvasCall) : Prop :=
  match c with
  | line a b _ _ => c_int (fst a) /\ c_int (snd a) /\ c_int (fst b) /\ c_int (snd b)
  | _ => True
  end.


(** What the clamp gives for a row [h] of the binary64 matrix product that
    the divide turned into [row], with upper clipping bound [hi]: the two
    pixel coordinates are the quotients by the stored depth; that divisor
    is not zero; for a depth that is not [nan] it lies between 1e-5 and
    [hi]; it is the depth itself when that lies strictly between the
    bounds and 1e-5 when the depth is at most 1e-5; and a quotient is
    [nan] only if the depth or the numerator is. *)
Definition divisor_clamped (hi : float) (h : B64.vec4) (row : B64.PixelRow) : Prop :=
  let d := B64.pix_depth row in
  B64.pix_u row = (B64.w0 h / d)%float
  /\ B64.pix_v row = (B64.w1 h / d)%float
  /\ (d =? 0)%float = false
  /\ (is_nan (B64.w2 h) = false ->
      (B64.a_min <=? d)%float = true /\ (d <=? hi)%float = true)
  /\ ((B64.a_min <? B64.w2 h)%float = true -> (B64.w2 h <? hi)%float = true ->
      d = B64.w2 h)
  /\ ((B64.w2 h <=? B64.a_min)%float = true -> d = B64.a_min)
  /\ (is_nan (B64.w2 h) = false -> is_nan (B64.w0 h) = false ->
      is_nan (B64.pix_u row) = false)
  /\ (is_nan (B64.w2 h) = false -> is_nan (B64.w1 h) = false ->
      is_nan (B64.pix_v row) = false).

(** ** Arithmetic of clipping, division and truncation *)

Lemma clip_bounds (x a_min a_max : Q) :
  a_min <= a_max -> a_min <= Np.clip x a_min a_max /\ Np.clip x a_min a_max <= a_max.
Proof.
  intros Hle. unfold Np.clip.
  destruct (Q.max_spec x a_min) as [[? Hm] | [? Hm]];
    destruct (Q.min_spec (Qmax x a_min) a_max) as [[? Hn] | [? Hn]];
    rewrite Hn; try rewrite Hm; split; lra.
Qed.

Lemma clip_below (x a_min a_max : Q) :
  a_min <= a_max -> x <= a_min -> Np.clip x a_min a_max == a_min.
Proof.
  intros Hle Hx. unfold Np.clip.
  destruct (Q.max_spec x a_min) as [[? Hm] | [? Hm]];
    destruct (Q.min_spec (Qmax x a_min) a_max) as [[? Hn] | [? Hn]];
    rewrite Hn; try rewrite Hm; lra.
Qed.

(** Above the upper bound the clip returns the bound itself, as a term. *)
Lemma clip_above (x a_min a_max : Q) :
  a_min <= a_max -> a_max < x -> Np.clip x a_min a_max = a_max.
Proof.
  intros Hle Hx. unfold Np.clip, Qmax, Qmin, GenericMinMax.gmax, GenericMinMax.gmin.
  assert (Hgt : a_min < x) by lra.
  apply Qgt_alt in Hgt. rewrite Hgt.
  apply Qgt_alt in Hx. rewrite Hx. reflexivity.
Qed.

Lemma div_finite (a d : Q) : ~ d == 0 -> Np.div a d = Np.Fin (a / d).
Proof.
  intros Hd. unfold Np.div.
  destruct (Qeq_bool d 0) eqn:E; [ | reflexivity ].
  apply Qeq_bool_iff in E. contradiction.
Qed.

Lemma trunc_nonneg (q : Q) : 0 <= q -> Np.trunc q = Qfloor q.
Proof.
  destruct q as [n d]. unfold Qle, Np.trunc, Qfloor. simpl. intros Hn.
  apply Z.quot_div_nonneg; lia.
Qed.

Lemma trunc_neg (q : Q) : q < 0 -> (Np.trunc q <= 0)%Z /\ (Qfloor q < 0)%Z.
Proof.
  destruct q as [n d]. unfold Qlt, Np.trunc, Qfloor. simpl. intros Hn. split.
  - replace n with (- (- n))%Z by lia. rewrite Z.quot_opp_l by lia.
    assert (0 <= (- n) ÷ Z.pos d)%Z by (apply Z.quot_pos; lia). lia.
  - apply Z.div_lt_upper_bound; lia.
Qed.

(** Once clamped to [0, 255], truncation toward zero and the floor give
    the same subscript. *)
Lemma clip_trunc_floor (q : Q) :
  Np.clipZ (Np.trunc q) 0 255 = Np.clipZ (Qfloor q) 0 255.
Proof.
  destruct (Qlt_le_dec q 0) as [Hneg | Hpos].
  - destruct (trunc_neg q Hneg). unfold Np.clipZ. lia.
  - rewrite trunc_nonneg by assumption. reflexivity.
Qed.

(** ** Oriented boxes: centre correction and yaw sign *)

Lemma vget_vset (v : vec3) (a b : axis) (q : Q) :
  vget (vset v a q) b = if axis_eqb b a then q else vget v b.
Proof. destruct a, b; reflexivity. Qed.

(** C5.  In [_draw_bboxes], with a valid [rot_axis], the centre of the
    oriented box is the row's centre with [dim[rot_axis] / 2] added on
    coordinate [rot_axis] for ['lidar_bottom'], subtracted for
    ['camera_bottom'], and the row's centre itself for any other
    [center_mode]; the other two coordinates never change. *)
Theorem draw_bboxes_gravity_center (row : BoxRow) (rot_axis : Z) (ax : axis)
    (center_mode : string) :
  index3 rot_axis = Ok ax ->
  exists box3d,
    _draw_bboxes_box3d row rot_axis center_mode = Ok box3d
    /\ (center_mode = "lidar_bottom" ->
        forall a, vget (obb_center box3d) a =
                  if axis_eqb a ax
                  then vget (box_center row) ax + vget (box_dim row) ax / 2
                  else vget (box_center row) a)
    /\ (center_mode = "camera_bottom" ->
        forall a, vget (obb_center box3d) a =
                  if axis_eqb a ax
                  then vget (box_center row) ax - vget (box_dim row) ax / 2
                  else vget (box_center row) a)
    /\ (center_mode <> "lidar_bottom" -> center_mode <> "camera_bottom" ->
        obb_center box3d = box_center row).
Proof.
  intros Hax. unfold _draw_bboxes_box3d. rewrite Hax.
  eexists. split; [ reflexivity | ]. cbn [obb_center].
  repeat split.
  - intros ->. cbn. intros a. apply vget_vset.
  - intros ->. cbn. intros a. apply vget_vset.
  - intros Hl Hc.
    apply String.eqb_neq in Hl. apply String.eqb_neq in Hc.
    rewrite Hl, Hc. reflexivity.
Qed.

Lemma draw_bboxes_gravity_center_witness :
  exists box3d,
    _draw_bboxes_box3d (Box7 (V3 1 2 3) (V3 4 6 8) (1 # 2)) 2 "lidar_bottom" = Ok box3d
    /\ vget (obb_center box3d) A2 = 3 + 8 / 2.
Proof.
  destruct (draw_bboxes_gravity_center (Box7 (V3 1 2 3) (V3 4 6 8) (1 # 2)) 2 A2
              "lidar_bottom" eq_refl) as [b [Hb [Hl _]]].
  exists b. split; [ exact Hb | exact (Hl eq_refl A2) ].
Defined.

(** C2, refuted as worded: for a bottom-centred row the indexed loop does
    shift the centre, here from height 0 to height 1. *)
Lemma draw_bboxes_ind_center_counterexample :
  exists box3d,
    _draw_bboxes_ind_box3d (Box7 (V3 0 0 0) (V3 2 2 2) 0) 2 "lidar_bottom" = Ok box3d
    /\ v2 (obb_center box3d) == 1
    /\ ~ v2 (obb_center box3d)
         == v2 (uncorrected_ind_center (Box7 (V3 0 0 0) (V3 2 2 2) 0)).
Proof.
  eexists. split; [ reflexivity | ]. cbn. split.
  - reflexivity.
  - intros H. discriminate H.
Qed.

(** C2, amended.  For every row, [_draw_bboxes_ind] and [_draw_bboxes]
    fail together or build boxes with the same centre (corrected by
    [center_mode] in both) and the same extent; they differ only in the
    angle about [rot_axis], [- yaw] in the indexed loop and [yaw] in the
    geometric one. *)
Theorem draw_bboxes_ind_negates_yaw_only (row : BoxRow) (rot_axis : Z)
    (center_mode : string) :
  match _draw_bboxes_box3d row rot_axis center_mode,
        _draw_bboxes_ind_box3d row rot_axis center_mode with
  | Ok geo, Ok ind =>
      obb_center ind = obb_center geo
      /\ obb_extent ind = obb_extent geo
      /\ exists ax, index3 rot_axis = Ok ax
           /\ obb_R geo = get_rotation_matrix_from_xyz (vset zeros3 ax (box_yaw row))
           /\ obb_R ind = get_rotation_matrix_from_xyz (vset zeros3 ax (- box_yaw row))
  | Raise e, Raise e' => e = e'
  | _, _ => False
  end.
Proof.
  unfold _draw_bboxes_box3d, _draw_bboxes_ind_box3d.
  destruct (index3 rot_axis) as [ax | e]; [ | reflexivity ].
  cbn. repeat split. exists ax. repeat split.
Qed.

(** ** Projection: depth clipping and the perspective divide *)

Lemma perspective_divide_finite (a_min a_max : Q) (r : vec4) :
  0 < a_min -> a_min <= a_max ->
  let row := perspective_divide a_min a_max r in
  a_min <= pix_depth row
  /\ (w2 r <= a_min -> pix_depth row == a_min)
  /\ pix_u row = Np.Fin (w0 r / pix_depth row)
  /\ pix_v row = Np.Fin (w1 r / pix_depth row).
Proof.
  intros Hpos Hle. cbn.
  destruct (clip_bounds (w2 r) a_min a_max Hle) as [Hlo _].
  repeat split.
  - exact Hlo.
  - intros Hx. apply clip_below; assumption.
  - apply div_finite. lra.
  - apply div_finite. lra.
Qed.

Lemma perspective_divide_far (a_min a_max : Q) (r : vec4) :
  0 < a_min -> a_min <= a_max -> a_max < w2 r ->
  perspective_divide a_min a_max r
  = Pix (Np.Fin (w0 r / a_max)) (Np.Fin (w1 r / a_max)) a_max (w3 r).
Proof.
  intros Hpos Hle Hfar. unfold perspective_divide.
  rewrite (clip_above (w2 r) a_min a_max Hle Hfar).
  rewrite !div_finite by lra. reflexivity.
Qed.

(** C10.  A row whose homogeneous depth exceeds the upper clipping bound
    (99999 in [project_pts_on_img], 1e5 in [draw_lidar_bbox3d_on_img])
    gets its two pixel coordinates by division by that bound, not by its
    own depth. *)
Theorem projection_depth_clamped_above (points : list PointRow)
    (corners : list vec3) (lidar2img_rt : mat4) :
  Forall2
    (fun p row =>
       let h := matmul_T (homogeneous (xyz p)) lidar2img_rt in
       99999 < w2 h ->
       row = Pix (Np.Fin (w0 h / 99999)) (Np.Fin (w1 h / 99999)) 99999 (w3 h))
    points (project_pts_2d points lidar2img_rt)
  /\ Forall2
       (fun c row =>
          let h := matmul_T (homogeneous c) lidar2img_rt in
          100000 < w2 h ->
          row = Pix (Np.Fin (w0 h / 100000)) (Np.Fin (w1 h / 100000)) 100000 (w3 h))
       corners (lidar_pts_2d corners lidar2img_rt).
Proof.
  split.
  - unfold project_pts_2d. induction points as [ | p rest IH]; constructor.
    + cbv beta zeta. intros Hfar. apply perspective_divide_far; [ lra | lra | exact Hfar ].
    + exact IH.
  - unfold lidar_pts_2d. induction corners as [ | c rest IH]; constructor.
    + cbv beta zeta. intros Hfar. apply perspective_divide_far; [ lra | lra | exact Hfar ].
    + exact IH.
Qed.

(** A point twice as far as the bound lands on pixel column 2, where
    division by its own depth would put it on column 1. *)
Example far_point_pixel_moves :
  map pix_u (project_pts_2d [Row (V3 199998 0 199998) []] identity4)
  = [Np.div 199998 99999]
  /\ Np.div 199998 99999 = Np.Fin (199998 / 99999)
  /\ 199998 / 99999 == 2
  /\ 199998 / 199998 == 1.
Proof. repeat split. Qed.

(** ** The perspective divide on binary64 values: divisor and quotient *)

Lemma b64_compare_refl (s : spec_float) :
  s <> S754_nan -> SFcompare s s = Some Eq.
Proof.
  destruct s as [b | b | | b m e]; intros Hs; try congruence.
  - reflexivity.
  - destruct b; reflexivity.
  - cbn. rewrite Z.compare_refl.
    destruct b; rewrite ?Pos.compare_cont_refl; reflexivity.
Qed.

Lemma b64_compare_antisym (x y : spec_float) :
  SFcompare y x = option_map CompOpp (SFcompare x y).
Proof.
  destruct x as [a | a | | a mx ex], y as [b | b | | b my ey]; cbn;
    try reflexivity; try (destruct a; reflexivity); try (destruct b; reflexivity);
    try (destruct a, b; reflexivity).
  assert (Hp : Pos.compare_cont Eq my mx = CompOpp (Pos.compare_cont Eq mx my))
    by (rewrite Pos.compare_cont_antisym; reflexivity).
  rewrite (Z.compare_antisym ex ey), Hp.
  destruct a, b; try reflexivity;
    destruct (Z.compare ex ey); cbn; try reflexivity;
    destruct (Pos.compare_cont Eq mx my); reflexivity.
Qed.

Lemma b64_is_nan_spec (x : float) : is_nan x = true <-> Prim2SF x = S754_nan.
Proof.
  unfold is_nan. rewrite FloatAxioms.eqb_spec. unfold SFeqb. split.
  - intros H. destruct (Prim2SF x) eqn:E; try reflexivity;
      rewrite b64_compare_refl in H by discriminate; discriminate.
  - intros ->. reflexivity.
Qed.

Lemma b64_ltb_not_nan (x y : float) :
  (x <? y)%float = true -> is_nan x = false /\ is_nan y = false.
Proof.
  rewrite FloatAxioms.ltb_spec. unfold SFltb. intros H.
  split; apply not_true_is_false; intros Hn; apply b64_is_nan_spec in Hn;
    rewrite Hn in H; [ | destruct (Prim2SF x) ]; discriminate.
Qed.

Lemma b64_ltb_leb (x y : float) : (x <? y)%float = true -> (x <=? y)%float = true.
Proof.
  rewrite FloatAxioms.ltb_spec, FloatAxioms.leb_spec. unfold SFltb, SFleb.
  destruct (SFcompare (Prim2SF x) (Prim2SF y)) as [[ | | ] | ]; congruence.
Qed.

Lemma b64_ltb_asym (x y : float) : (x <? y)%float = true -> (y <? x)%float = false.
Proof.
  rewrite !FloatAxioms.ltb_spec. unfold SFltb.
  rewrite (b64_compare_antisym (Prim2SF x) (Prim2SF y)).
  destruct (SFcompare (Prim2SF x) (Prim2SF y)) as [[ | | ] | ]; cbn; congruence.
Qed.

Lemma b64_leb_not_ltb (x y : float) :
  (x <=? y)%float = true -> (y <? x)%float = false /\ is_nan x = false.
Proof.
  rewrite FloatAxioms.leb_spec, FloatAxioms.ltb_spec. unfold SFleb, SFltb. intros H.
  split.
  - rewrite (b64_compare_antisym (Prim2SF x) (Prim2SF y)).
    destruct (SFcompare (Prim2SF x) (Prim2SF y)) as [[ | | ] | ]; cbn in *; congruence.
  - apply not_true_is_false. intros Hn. apply b64_is_nan_spec in Hn.
    rewrite Hn in H. discriminate.
Qed.

Lemma b64_leb_refl (x : float) : is_nan x = false -> (x <=? x)%float = true.
Proof.
  intros Hx. rewrite FloatAxioms.leb_spec. unfold SFleb.
  rewrite b64_compare_refl; [ reflexivity | ].
  intros Hn. apply b64_is_nan_spec in Hn. congruence.
Qed.

(** The lower bound is the binary64 value [5902958103587057 * 2^-69] ... *)
Lemma b64_a_min_spec : Prim2SF B64.a_min = S754_finite false 5902958103587057 (-69).
Proof. reflexivity. Qed.

(** ... which is the one nearest to 1e-5: they differ by at most half the
    spacing [2^-69] of the format there. *)
Example b64_a_min_nearest :
  (2 * Z.abs (5902958103587057 * 10 ^ 5 - 2 ^ 69) <= 10 ^ 5)%Z.
Proof. vm_compute. discriminate. Qed.

Lemma b64_above_a_min_nonzero (x : float) :
  (B64.a_min <? x)%float = true -> (x =? 0)%float = false.
Proof.
  rewrite FloatAxioms.ltb_spec, FloatAxioms.eqb_spec, b64_a_min_spec.
  replace (Prim2SF 0%float) with (S754_zero false) by reflexivity.
  unfold SFltb, SFeqb.
  destruct (Prim2SF x) as [b | b | | b mx ex]; cbn; try discriminate; try reflexivity.
  - destruct b; reflexivity.
  - destruct b; reflexivity.
Qed.

Lemma b64_nan_nonzero (x : float) : is_nan x = true -> (x =? 0)%float = false.
Proof.
  intros H. apply b64_is_nan_spec in H. rewrite FloatAxioms.eqb_spec, H. reflexivity.
Qed.

(** A value strictly between the lower bound and anything is finite and
    not zero. *)
Lemma b64_between_finite (z hi : float) :
  (B64.a_min <? z)%float = true -> (z <? hi)%float = true ->
  exists s m e, Prim2SF z = S754_finite s m e.
Proof.
  rewrite !FloatAxioms.ltb_spec, b64_a_min_spec. unfold SFltb.
  destruct (Prim2SF z) as [b | b | | b m e]; cbn.
  - discriminate.
  - destruct b; [ discriminate | ]. intros _.
    destruct (Prim2SF hi) as [c | [ | ] | | c mh eh]; cbn; discriminate.
  - discriminate.
  - intros _ _. exists b, m, e. reflexivity.
Qed.

(** [np.clip] with lower bound 1e-5 and a larger upper bound. *)
Lemma b64_clip_divisor (z hi : float) :
  (B64.a_min <? hi)%float = true ->
  (B64.clip z B64.a_min hi =? 0)%float = false
  /\ (is_nan z = false ->
      (B64.a_min <=? B64.clip z B64.a_min hi)%float = true
      /\ (B64.clip z B64.a_min hi <=? hi)%float = true)
  /\ ((B64.a_min <? z)%float = true -> (z <? hi)%float = true ->
      B64.clip z B64.a_min hi = z)
  /\ ((z <=? B64.a_min)%float = true -> B64.clip z B64.a_min hi = B64.a_min).
Proof.
  intros Hlohi. unfold B64.clip.
  destruct (b64_ltb_not_nan _ _ Hlohi) as [Hlo Hhi].
  destruct (is_nan z) eqn:Hz.
  - rewrite Hz. split; [ apply b64_nan_nonzero; exact Hz | ].
    split; [ discriminate | ].
    split; [ intros H; apply b64_ltb_not_nan in H; destruct H; congruence | ].
    intros H. apply b64_leb_not_ltb in H. destruct H. congruence.
  - destruct (B64.a_min <? z)%float eqn:Hlz.
    + rewrite Hz. destruct (z <? hi)%float eqn:Hzh.
      * split; [ apply b64_above_a_min_nonzero; exact Hlz | ].
        split; [ intros _; split; apply b64_ltb_leb; assumption | ].
        split; [ reflexivity | ].
        intros H. apply b64_leb_not_ltb in H. destruct H. congruence.
      * split; [ apply b64_above_a_min_nonzero; exact Hlohi | ].
        split; [ intros _; split;
                 [ apply b64_ltb_leb; exact Hlohi | apply b64_leb_refl; exact Hhi ] | ].
        split; [ discriminate | ].
        intros H. apply b64_leb_not_ltb in H. destruct H. congruence.
    + rewrite Hlo, Hlohi.
      split; [ reflexivity | ].
      split; [ intros _; split; [ reflexivity | apply b64_ltb_leb; exact Hlohi ] | ].
      split; [ discriminate | ]. reflexivity.
Qed.

Lemma b64_clip_finite (z hi : float) :
  (exists m e, Prim2SF hi = S754_finite false m e) ->
  (B64.a_min <? hi)%float = true ->
  is_nan z = false ->
  exists s m e, Prim2SF (B64.clip z B64.a_min hi) = S754_finite s m e.
Proof.
  intros [mh [eh Hhi]] Hlohi Hz. unfold B64.clip.
  destruct (b64_ltb_not_nan _ _ Hlohi) as [Hlo _].
  rewrite Hz. destruct (B64.a_min <? z)%float eqn:Hlz.
  - rewrite Hz. destruct (z <? hi)%float eqn:Hzh.
    + apply (b64_between_finite z hi); assumption.
    + exists false, mh, eh. exact Hhi.
  - rewrite Hlo, Hlohi. exists false, 5902958103587057%positive, (-69)%Z.
    exact b64_a_min_spec.
Qed.

(** Rounding a quotient of finite values never yields [nan]. *)
Lemma b64_shr_1_nonneg (mrs : shr_record) :
  (0 <= shr_m mrs)%Z -> (0 <= shr_m (shr_1 mrs))%Z.
Proof.
  destruct mrs as [m r s]. cbn [shr_m]. intros Hm. unfold shr_1.
  destruct m as [ | [p | p | ] | p]; cbn; lia.
Qed.

Lemma b64_iter_shr_1_nonneg (p : positive) (mrs : shr_record) :
  (0 <= shr_m mrs)%Z -> (0 <= shr_m (iter_pos shr_1 p mrs))%Z.
Proof.
  revert mrs. induction p as [p IH | p IH | ]; intros mrs Hm; cbn [iter_pos].
  - apply IH. apply IH. apply b64_shr_1_nonneg. exact Hm.
  - apply IH. apply IH. exact Hm.
  - apply b64_shr_1_nonneg. exact Hm.
Qed.

Lemma b64_shr_fexp_nonneg (prec emax m e : Z) (l : location) :
  (0 <= m)%Z -> (0 <= shr_m (fst (shr_fexp prec emax m e l)))%Z.
Proof.
  intros Hm. unfold shr_fexp, shr.
  assert (H0 : (0 <= shr_m (shr_record_of_loc m l))%Z).
  { unfold shr_record_of_loc. destruct l as [ | [ | | ]]; cbn; exact Hm. }
  destruct (fexp prec emax (Zdigits2 m + e) - e)%Z as [ | p | p]; cbn [fst];
    [ exact H0 | apply b64_iter_shr_1_nonneg; exact H0 | exact H0 ].
Qed.

Lemma b64_round_not_nan (prec emax : Z) (sx : bool) (mx ex : Z) (lx : location) :
  (0 <= mx)%Z -> binary_round_aux prec emax sx mx ex lx <> S754_nan.
Proof.
  intros Hm. unfold binary_round_aux.
  pose proof (b64_shr_fexp_nonneg prec emax mx ex lx Hm) as H1.
  destruct (shr_fexp prec emax mx ex lx) as [mrs' e']. cbn [fst] in H1.
  assert (H2 : (0 <= round_nearest_even (shr_m mrs') (loc_of_shr_record mrs'))%Z).
  { unfold round_nearest_even.
    destruct (loc_of_shr_record mrs') as [ | [ | | ]];
      [ | destruct (Z.even (shr_m mrs')) | | ]; lia. }
  pose proof (b64_shr_fexp_nonneg prec emax _ e' loc_Exact H2) as H3.
  destruct (shr_fexp prec emax
              (round_nearest_even (shr_m mrs') (loc_of_shr_record mrs')) e' loc_Exact)
    as [mrs'' e'']. cbn [fst] in H3.
  destruct (shr_m mrs'') as [ | m | m]; [ discriminate | | lia ].
  destruct (e'' <=? emax - prec)%Z; discriminate.
Qed.

Lemma b64_SFdiv_not_nan (prec emax : Z) (x : spec_float) (sy : bool) (my : positive)
    (ey : Z) :
  x <> S754_nan -> SFdiv prec emax x (S754_finite sy my ey) <> S754_nan.
Proof.
  intros Hx. destruct x as [sx | sx | | sx mx ex]; cbn; try discriminate; try congruence.
  unfold SFdiv_core_binary.
  set (s := (ex - ey - _)%Z).
  set (m' := match s with
             | Z.pos _ => Z.shiftl (Z.pos mx) s
             | 0%Z => Z.pos mx
             | Z.neg _ => 0%Z
             end).
  assert (Hm' : (0 <= m')%Z).
  { subst m'. destruct s; [ lia | apply Z.shiftl_nonneg; lia | lia ]. }
  pose proof (Z_div_mod m' (Z.pos my) ltac:(lia)) as Hdiv.
  destruct (Z.div_eucl m' (Z.pos my)) as [q r]. destruct Hdiv as [Heq Hr].
  apply b64_round_not_nan. nia.
Qed.

Lemma b64_div_not_nan (x d : float) :
  is_nan x = false ->
  (exists s m e, Prim2SF d = S754_finite s m e) ->
  is_nan (x / d)%float = false.
Proof.
  intros Hx [s [m [e Hd]]]. apply not_true_is_false. intros Hn.
  apply b64_is_nan_spec in Hn. rewrite FloatAxioms.div_spec, Hd in Hn.
  revert Hn. apply b64_SFdiv_not_nan.
  intros Hx'. apply b64_is_nan_spec in Hx'. congruence.
Qed.

(** One row of either projection. *)
Lemma b64_perspective_divide_clamped (hi : float) (h : B64.vec4) :
  (exists m e, Prim2SF hi = S754_finite false m e) ->
  (B64.a_min <? hi)%float = true ->
  divisor_clamped hi h (B64.perspective_divide B64.a_min hi h).
Proof.
  intros Hfin Hlohi. unfold divisor_clamped, B64.perspective_divide.
  cbn [B64.pix_u B64.pix_v B64.pix_depth].
  destruct (b64_clip_divisor (B64.w2 h) hi Hlohi) as [Hnz [Hin [Hid Hlow]]].
  split; [ reflexivity | ]. split; [ reflexivity | ].
  split; [ exact Hnz | ]. split; [ exact Hin | ].
  split; [ exact Hid | ]. split; [ exact Hlow | ].
  split; intros Hz Hx; apply b64_div_not_nan; try exact Hx;
    apply b64_clip_finite; assumption.
Qed.

(** C6.  In binary64, in both projections, every row is divided by its
    clamped depth, and that divisor is never zero.  For a homogeneous
    depth that is not [nan] the divisor lies between 1e-5 and the upper
    bound (99999 in [project_pts_on_img], 1e5 in
    [draw_lidar_bbox3d_on_img]): it is the depth itself when that lies
    strictly between the bounds and 1e-5 when the depth is at most 1e-5,
    zero and negative depths included.  A pixel coordinate is then [nan]
    only if its numerator is. *)
Theorem projection_divisor_clamped (points corners : list B64.vec3)
    (lidar2img_rt : B64.mat4) :
  Forall2
    (fun p row =>
       divisor_clamped 99999 (B64.matmul_T (B64.homogeneous p) lidar2img_rt) row)
    points (B64.project_pts_2d points lidar2img_rt)
  /\ Forall2
       (fun c row =>
          divisor_clamped 100000 (B64.matmul_T (B64.homogeneous c) lidar2img_rt) row)
       corners (B64.lidar_pts_2d corners lidar2img_rt).
Proof.
  split.
  - unfold B64.project_pts_2d. induction points as [ | p rest IH]; constructor.
    + apply b64_perspective_divide_clamped;
        [ eexists; eexists; vm_compute; reflexivity | reflexivity ].
    + exact IH.
  - unfold B64.lidar_pts_2d. induction corners as [ | c rest IH]; constructor.
    + apply b64_perspective_divide_clamped;
        [ eexists; eexists; vm_compute; reflexivity | reflexivity ].
    + exact IH.
Qed.

(** The quotient itself can leave the finite range.  Under the identity
    matrix the point [(2^1010, 0, -1)], whose depth is negative, is
    divided by 1e-5 and its first pixel coordinate overflows to [inf] in
    both projections; a point with a [nan] coordinate, as range sensors
    report for a missing return, keeps [nan] through the clamp and the
    divide. *)
Lemma projection_not_finite_counterexample :
  map B64.pix_u (B64.project_pts_2d [B64.V3 0x1p1010 0 (-1)] B64.identity4)
  = [infinity]
  /\ map B64.pix_u (B64.lidar_pts_2d [B64.V3 0x1p1010 0 (-1)] B64.identity4)
     = [infinity]
  /\ map B64.pix_depth (B64.project_pts_2d [B64.V3 0x1p1010 0 (-1)] B64.identity4)
     = [B64.a_min]
  /\ map (fun row => is_nan (B64.pix_u row))
         (B64.project_pts_2d [B64.V3 1 2 nan] B64.identity4)
     = [true]
  /\ map (fun row => is_nan (B64.pix_u row))
         (B64.lidar_pts_2d [B64.V3 1 2 nan] B64.identity4)
     = [true].
Proof. repeat split. Qed.

(** ** The palette subscript of the depth overlay *)

(** C3, refuted as worded: a point at depth 400 in view of a 1x1 image,
    with the default [max_distance] of 70, is drawn with palette entry 1
    (700 / 400 = 1.75 cut to 1), where rounding would give entry 2. *)
Lemma color_index_round_counterexample :
  project_pts_on_img [Row (V3 0 0 400) []] (1, 1)%Z identity4 70 (-1) []
  = ([waitKey 100; imshow "project_pts_img"; circle (0, 0)%Z 1 1 (-1)], Ok tt)
  /\ color_index 70 400 = Ok 1%Z
  /\ rounded_color_index 70 400 = 2%Z
  /\ color_index 70 400 <> Ok (rounded_color_index 70 400).
Proof. repeat split. discriminate. Qed.

Lemma color_index_positive_depth (max_distance depth : Q) :
  0 < depth ->
  color_index max_distance depth
  = Ok (Np.clipZ (Np.trunc (max_distance * 10 / depth)) 0 255).
Proof.
  intros Hd. unfold color_index. rewrite div_finite by lra. reflexivity.
Qed.

(** C3, amended.  For every row of [project_pts_on_img] that passes the
    field-of-view test, with clipped depth [d], the palette subscript is
    [clamp(int(max_distance * 10 / d), 0, 255)]: the quotient is cut
    toward zero, not rounded.  [int] never raises there, the subscript
    lies in 0..255, and after the clamp it equals the one the floor of
    the quotient gives. *)
Theorem color_index_truncates (points : list PointRow) (img_shape : Z * Z)
    (lidar2img_rt : mat4) (max_distance : Q) :
  Forall
    (fun row =>
       let q := max_distance * 10 / pix_depth row in
       color_index max_distance (pix_depth row) = Ok (Np.clipZ (Np.trunc q) 0 255)
       /\ Np.clipZ (Np.trunc q) 0 255 = Np.clipZ (Qfloor q) 0 255
       /\ (0 <= Np.clipZ (Np.trunc q) 0 255 <= 255)%Z)
    (filter (fov_inds img_shape) (project_pts_2d points lidar2img_rt)).
Proof.
  apply Forall_forall. intros row Hin.
  apply filter_In in Hin. destruct Hin as [Hin _].
  unfold project_pts_2d in Hin. apply in_map_iff in Hin.
  destruct Hin as [p [<- _]].
  destruct (perspective_divide_finite (1 # 100000) 99999
              (matmul_T (homogeneous (xyz p)) lidar2img_rt)) as [Hlo _];
    [ lra | lra | ].
  cbv zeta. repeat split.
  - apply color_index_positive_depth. lra.
  - apply clip_trunc_floor.
  - unfold Np.clipZ. lia.
  - unfold Np.clipZ. lia.
Qed.

(** ** Colour normalisation in _draw_points *)

Lemma in_unit_range_spec (cs : list color) :
  in_unit_range cs = true <-> unit_range cs.
Proof.
  unfold in_unit_range, unit_range. rewrite forallb_forall, Forall_forall.
  split; intros Hall row Hrow; specialize (Hall row Hrow).
  - rewrite forallb_forall in Hall. apply Forall_forall. intros q Hq.
    specialize (Hall q Hq). apply andb_true_iff in Hall.
    rewrite !Qle_bool_iff in Hall. exact Hall.
  - rewrite Forall_forall in Hall. apply forallb_forall. intros q Hq.
    apply andb_true_iff. rewrite !Qle_bool_iff. exact (Hall q Hq).
Qed.

Lemma scaled_channel_in_unit_range (q : Q) :
  0 <= q /\ q <= 255 -> 0 <= q / 255 /\ q / 255 <= 1.
Proof.
  intros [Hlo Hhi]. split.
  - apply Qle_shift_div_l; lra.
  - apply Qle_shift_div_r; lra.
Qed.

(** [_draw_points] in ['xyzrgb'] mode, with the monad unfolded. *)
Lemma draw_points_xyzrgb_eq (points : list PointRow) (points_size : Z)
    (point_color : color) (vis : Viewer) :
  _draw_points points points_size point_color "xyzrgb" vis
  = let raw := map (fun p => firstn 3 (feats p)) points in
    let cs := if negb (in_unit_range raw)
              then map (map (fun q => q / 255)) raw else raw in
    (add_geometry (PointCloudGeometry (PCD (map xyz points) cs))
       :: set_point_size points_size :: vis,
     Ok (PCD (map xyz points) cs, cs)).
Proof.
  unfold _draw_points, bind, call, modify, ret.
  change ("xyzrgb" =? "xyz") with false.
  change ("xyzrgb" =? "xyzrgb") with true.
  cbv beta iota zeta.
  destruct (negb (in_unit_range (map (fun p => firstn 3 (feats p)) points)));
    reflexivity.
Qed.

(** C7, refuted as worded: a channel of 510 is handed over as 510 / 255,
    which is 2. *)
Lemma draw_points_xyzrgb_counterexample :
  exists vis pcd,
    _draw_points [Row (V3 0 0 0) [510; 0; 0]] 2 default_point_color "xyzrgb" []
    = (add_geometry (PointCloudGeometry pcd) :: vis, Ok (pcd, pcd_colors pcd))
    /\ pcd_colors pcd = [[510 / 255; 0 / 255; 0 / 255]]
    /\ ~ unit_range (pcd_colors pcd).
Proof.
  exists [set_point_size 2], (PCD [V3 0 0 0] [[510 / 255; 0 / 255; 0 / 255]]).
  split; [ reflexivity | ]. split; [ reflexivity | ].
  cbn [pcd_colors]. intros Hall.
  inversion Hall as [ | row rest Hrow _]. subst.
  inversion Hrow as [ | q qs [_ Hq] _]. subst.
  revert Hq. unfold Qle. cbn. lia.
Qed.

(** C7, amended.  For a point array drawn in ['xyzrgb'] mode whose colour
    channels (columns 3 to 5) all lie in [0, 255], the colour array handed
    to the viewer has every channel in [0, 1]; and if some channel
    exceeds 1, that array is the input with every channel divided by
    255. *)
Theorem draw_points_xyzrgb_unit_range (points : list PointRow) (points_size : Z)
    (point_color : color) (vis : Viewer) :
  Forall (fun p => Forall (fun q => 0 <= q /\ q <= 255) (firstn 3 (feats p))) points ->
  exists pcd,
    _draw_points points points_size point_color "xyzrgb" vis
    = (add_geometry (PointCloudGeometry pcd) :: set_point_size points_size :: vis,
       Ok (pcd, pcd_colors pcd))
    /\ unit_range (pcd_colors pcd)
    /\ (Exists (fun p => Exists (fun q => 1 < q) (firstn 3 (feats p))) points ->
        pcd_colors pcd
        = map (fun p => map (fun q => q / 255) (firstn 3 (feats p))) points).
Proof.
  intros Hrange. rewrite draw_points_xyzrgb_eq. cbv zeta.
  set (raw := map (fun p => firstn 3 (feats p)) points).
  destruct (in_unit_range raw) eqn:Hunit; cbv [negb];
    [ exists (PCD (map xyz points) raw)
    | exists (PCD (map xyz points) (map (map (fun q => q / 255)) raw)) ];
    (split; [ reflexivity | ]); change (pcd_colors (PCD ?a ?b)) with b;
    subst raw.
  - apply in_unit_range_spec in Hunit. split; [ exact Hunit | ].
    intros Hbig. exfalso.
    apply Exists_exists in Hbig. destruct Hbig as [p [Hp Hq]].
    apply Exists_exists in Hq. destruct Hq as [q [Hq Hgt]].
    unfold unit_range in Hunit. rewrite Forall_forall in Hunit.
    specialize (Hunit (firstn 3 (feats p))
                  (in_map (fun p => firstn 3 (feats p)) points p Hp)).
    rewrite Forall_forall in Hunit. specialize (Hunit q Hq). lra.
  - rewrite map_map. split; [ | reflexivity ].
    unfold unit_range. apply Forall_forall. intros row Hrow.
    apply in_map_iff in Hrow. destruct Hrow as [p [<- Hp]].
    rewrite Forall_forall in Hrange. specialize (Hrange p Hp).
    apply Forall_forall. intros q Hq.
    apply in_map_iff in Hq. destruct Hq as [q0 [<- Hq0]].
    rewrite Forall_forall in Hrange.
    apply scaled_channel_in_unit_range. exact (Hrange q0 Hq0).
Qed.

Lemma draw_points_xyzrgb_unit_range_witness :
  exists pcd,
    _draw_points [Row (V3 0 0 0) [255; 0; 51]] 2 default_point_color "xyzrgb" []
    = ([add_geometry (PointCloudGeometry pcd); set_point_size 2], Ok (pcd, pcd_colors pcd))
    /\ unit_range (pcd_colors pcd).
Proof.
  destruct (draw_points_xyzrgb_unit_range [Row (V3 0 0 0) [255; 0; 51]] 2
              default_point_color [])
    as [pcd [Hrun [Hunit _]]].
  - repeat constructor; cbn; lra.
  - exists pcd. split; assumption.
Defined.

(** ** Loops over boxes *)

Lemma for_each_invariant {S A} (I : S -> Prop) (body : A -> M S unit) :
  (forall a s, I s -> I (fst (body a s))) ->
  forall l s, I s -> I (fst (for_each body l s)).
Proof.
  intros Hbody l. induction l as [ | a rest IH]; intros s Hs; cbn.
  - exact Hs.
  - unfold bind. specialize (Hbody a s Hs).
    destruct (body a s) as [s' [[] | e]]; cbn in Hbody.
    + apply IH. exact Hbody.
    + exact Hbody.
Qed.

Lemma draw_bboxes_body_skips `{Open3D} (bc ic : color) (rot_axis : Z)
    (center_mode mode : string) (row : BoxRow) (s0 s : DrawState) :
  mode <> "xyz" -> same_colors s0 s ->
  same_colors s0 (fst (_draw_bboxes_body bc ic rot_axis center_mode mode row s)).
Proof.
  intros Hmode Hs. apply String.eqb_neq in Hmode.
  unfold _draw_bboxes_body, bind, lift, vis_call, modify, get.
  destruct (_draw_bboxes_box3d row rot_axis center_mode) as [box | e]; cbn.
  - destruct Hs as [Hc Hp].
    destruct (ds_pcd s) eqn:E; [ rewrite Hmode | ]; split; cbn; congruence.
  - exact Hs.
Qed.

Lemma draw_bboxes_ind_body_skips (indices : Membership) (bc ic : color)
    (rot_axis : Z) (center_mode mode : string) (irow : nat * BoxRow)
    (s0 s : DrawState) :
  mode <> "xyz" -> same_colors s0 s ->
  same_colors s0
    (fst (_draw_bboxes_ind_body indices bc ic rot_axis center_mode mode irow s)).
Proof.
  intros Hmode Hs. apply String.eqb_neq in Hmode.
  unfold _draw_bboxes_ind_body, bind, lift, vis_call, modify, get.
  destruct (_draw_bboxes_ind_box3d (snd irow) rot_axis center_mode) as [box | e]; cbn.
  - destruct Hs as [Hc Hp].
    destruct (ds_pcd s) eqn:E; [ rewrite Hmode | ]; split; cbn; congruence.
  - exact Hs.
Qed.

Lemma update_points_colors_keeps (s0 s : DrawState) :
  same_colors s0 s ->
  ds_points_colors (fst (update_points_colors s)) = ds_points_colors s0
  /\ (forall p, ds_pcd s0 = Some p -> pcd_colors p = ds_points_colors s0 ->
      ds_pcd (fst (update_points_colors s)) = Some p).
Proof.
  intros [Hc Hp]. unfold update_points_colors, bind, get, modify, ret.
  destruct (ds_pcd s) as [q | ] eqn:Hq; cbn; (split; [ exact Hc | ]).
  - intros p Hp0 Hcol. rewrite <- Hp in Hp0. injection Hp0 as ->.
    rewrite Hc, <- Hcol. destruct p; reflexivity.
  - intros p Hp0 _. rewrite <- Hp in Hp0. discriminate Hp0.
Qed.

(** C9.  When [mode] is not ['xyz'] (so in particular for ['xyzrgb']),
    neither [_draw_bboxes] nor [_draw_bboxes_ind] writes to the colour
    array: it is the same after the call as before, and a point cloud
    whose colours were that array keeps them. *)
Theorem recolor_skipped_unless_xyz `{Open3D} (mode : string)
    (bbox3d : list BoxRow) (indices : Membership) (bc ic : color)
    (rot_axis : Z) (center_mode : string) (s : DrawState) :
  mode <> "xyz" ->
  let geo := fst (_draw_bboxes bbox3d bc ic rot_axis center_mode mode s) in
  let ind := fst (_draw_bboxes_ind bbox3d indices bc ic rot_axis center_mode mode s) in
  ds_points_colors geo = ds_points_colors s
  /\ ds_points_colors ind = ds_points_colors s
  /\ (forall p, ds_pcd s = Some p -> pcd_colors p = ds_points_colors s ->
      ds_pcd geo = Some p /\ ds_pcd ind = Some p).
Proof.
  intros Hmode geo ind.
  assert (Hgeo : same_colors s
            (fst (for_each (_draw_bboxes_body bc ic rot_axis center_mode mode)
                    bbox3d s))).
  { apply (for_each_invariant (same_colors s)).
    - intros row t Ht. apply draw_bboxes_body_skips; assumption.
    - split; reflexivity. }
  assert (Hind : same_colors s
            (fst (for_each (_draw_bboxes_ind_body indices bc ic rot_axis
                              center_mode mode)
                    (combine (seq 0 (List.length bbox3d)) bbox3d) s))).
  { apply (for_each_invariant (same_colors s)).
    - intros row t Ht. apply draw_bboxes_ind_body_skips; assumption.
    - split; reflexivity. }
  subst geo ind. unfold _draw_bboxes, _draw_bboxes_ind, bind.
  destruct (for_each (_draw_bboxes_body bc ic rot_axis center_mode mode) bbox3d s)
    as [sg [[] | eg]];
    destruct (for_each (_draw_bboxes_ind_body indices bc ic rot_axis center_mode mode)
                (combine (seq 0 (List.length bbox3d)) bbox3d) s)
      as [si [[] | ei]];
    cbn [fst] in *;
    pose proof (update_points_colors_keeps s sg Hgeo) as [Hgc Hgp];
    pose proof (update_points_colors_keeps s si Hind) as [Hic Hip];
    destruct Hgeo as [Hg1 Hg2]; destruct Hind as [Hi1 Hi2];
    repeat split; try assumption; auto; congruence.
Qed.

Lemma recolor_skipped_unless_xyz_witness :
  ds_points_colors
    (fst (@_draw_bboxes axis_aligned [Box7 (V3 0 0 0) (V3 2 2 2) 0] [0; 1; 0]
            [1; 0; 0] 2 "lidar_bottom" "xyzrgb"
            (DS [] [[51; 102; 153]] (Some (PCD [V3 0 0 0] [[51; 102; 153]])))))
  = [[51; 102; 153]].
Proof.
  exact (proj1 (@recolor_skipped_unless_xyz axis_aligned "xyzrgb"
                  [Box7 (V3 0 0 0) (V3 2 2 2) 0] (Memb 1 [[1%Z]]) [0; 1; 0]
                  [1; 0; 0] 2 "lidar_bottom"
                  (DS [] [[51; 102; 153]] (Some (PCD [V3 0 0 0] [[51; 102; 153]])))
                  ltac:(discriminate))).
Defined.

(** ** The segmentation offset *)

Lemma extrema_of_nonempty (points : list vec3) :
  points <> [] -> exists hi lo, amax0 points = Ok hi /\ amin0 points = Ok lo.
Proof.
  destruct points as [ | p rest]; [ congruence | ].
  intros _. eexists. eexists. split; reflexivity.
Qed.

(** One call of [add_seg_mask] on a scene that has a non-empty cloud. *)
Lemma add_seg_mask_step (self : Visualizer) (p : PointCloud) (hi lo : vec3)
    (mask : list PointRow) :
  pcd self = Some p -> amax0 (pcd_points p) = Ok hi -> amin0 (pcd_points p) = Ok lo ->
  let offset := v0 (vsub hi lo) * (12 # 10) * inject_Z (seg_num self + 1) in
  let seg_points :=
    map (fun r => Row (vset (xyz r) A0 (v0 (xyz r) + offset)) (feats r)) mask in
  add_seg_mask mask self
  = (set_o3d_visualizer
       (fst (_draw_points seg_points (points_size self) default_point_color "xyzrgb"
               (add_geometry (create_coordinate_frame 1 (V3 offset 0 0))
                  :: o3d_visualizer self)))
       (set_seg_num (seg_num self + 1) self),
     Ok tt).
Proof.
  intros Hp Hhi Hlo offset seg_points.
  destruct (_draw_points seg_points (points_size self) default_point_color "xyzrgb"
              (add_geometry (create_coordinate_frame 1 (V3 offset 0 0))
                 :: o3d_visualizer self)) as [vis r] eqn:Hdraw.
  assert (Hr : exists pc, r = Ok pc).
  { rewrite draw_points_xyzrgb_eq in Hdraw. cbv zeta in Hdraw.
    injection Hdraw as _ <-. eexists. reflexivity. }
  destruct Hr as [pc ->].
  subst offset seg_points. destruct self. cbn [pcd] in Hp. subst.
  cbv [add_seg_mask bind modify self_pcd lift get with_viewer zoom call ret
       set_seg_num seg_num pcd o3d_visualizer set_o3d_visualizer points_size
       mode center_mode rot_axis points_in_box_color bbox_color point_color
       points_colors fst snd] in *.
  rewrite Hhi. cbv beta iota. rewrite Hlo. cbv beta iota.
  rewrite Hdraw. reflexivity.
Qed.

Lemma after_seg_masks_attributes (p : PointCloud) (masks : list (list PointRow)) :
  pcd_points p <> [] ->
  forall self, pcd self = Some p ->
    pcd (after_seg_masks masks self) = Some p
    /\ points_size (after_seg_masks masks self) = points_size self
    /\ seg_num (after_seg_masks masks self)
       = (seg_num self + Z.of_nat (List.length masks))%Z.
Proof.
  intros Hne. destruct (extrema_of_nonempty _ Hne) as [hi [lo [Hhi Hlo]]].
  induction masks as [ | m rest IH]; intros self Hp.
  - cbn. split; [ exact Hp | ]. split; [ reflexivity | lia ].
  - change (after_seg_masks (m :: rest) self)
      with (after_seg_masks rest (fst (add_seg_mask m self))).
    rewrite (add_seg_mask_step self p hi lo m Hp Hhi Hlo). cbn [fst].
    match goal with
    | |- context [after_seg_masks rest ?s] =>
        destruct (IH s) as [H1 [H2 H3]]; [ exact Hp | ]
    end.
    rewrite H1, H2, H3. cbn [seg_num points_size set_o3d_visualizer set_seg_num].
    split; [ reflexivity | ]. split; [ reflexivity | ].
    cbn [List.length]. lia.
Qed.

(** C1, refuted as worded: on a scene whose cloud spans 1 along x, the
    first extra point group is moved by 1.2, not by 0. *)
Lemma add_seg_mask_first_offset_counterexample :
  two_point_scene = Ok two_point_self
  /\ snd (add_seg_mask [Row (V3 0 0 0) [1; 0; 0]] two_point_self) = Ok tt
  /\ firstn 3 (o3d_visualizer
                 (fst (add_seg_mask [Row (V3 0 0 0) [1; 0; 0]] two_point_self)))
     = [add_geometry (PointCloudGeometry (PCD [V3 (0 + (12 # 10)) 0 0] [[1; 0; 0]]));
        set_point_size 2;
        add_geometry (create_coordinate_frame 1 (V3 (12 # 10) 0 0))]
  /\ ~ (12 # 10) == claimed_seg_offset 1 (1 - 0).
Proof.
  split; [ reflexivity | ]. split; [ reflexivity | ].
  split; [ reflexivity | ]. intros H. discriminate H.
Qed.

(** C1, amended.  On a scene with a non-empty base cloud and a fresh
    counter, the k-th call of [add_seg_mask] (after k - 1 earlier calls
    with any masks) succeeds, leaves the counter at k, and adds a
    coordinate frame and a point group both moved along x by
    [1.2 * k * (max - min)] of the base cloud's x column: 1.2 x extent
    for the first group, 2.4 x extent for the second, 3.6 x extent for
    the third. *)
Theorem add_seg_mask_offset (self : Visualizer) (p : PointCloud)
    (masks : list (list PointRow)) (mask : list PointRow) :
  pcd self = Some p -> pcd_points p <> [] -> seg_num self = 0%Z ->
  let k := Z.of_nat (S (List.length masks)) in
  let before := after_seg_masks masks self in
  exists hi lo offset seg_colors,
    amax0 (pcd_points p) = Ok hi /\ amin0 (pcd_points p) = Ok lo
    /\ offset == (12 # 10) * inject_Z k * (v0 hi - v0 lo)
    /\ add_seg_mask mask before
       = (set_o3d_visualizer
            (add_geometry
               (PointCloudGeometry
                  (PCD (map (fun r => V3 (v0 (xyz r) + offset) (v1 (xyz r)) (v2 (xyz r)))
                            mask)
                       seg_colors))
               :: set_point_size (points_size self)
               :: add_geometry (create_coordinate_frame 1 (V3 offset 0 0))
               :: o3d_visualizer before)
            (set_seg_num k before),
          Ok tt).
Proof.
  intros Hp Hne Hseg k before.
  destruct (extrema_of_nonempty _ Hne) as [hi [lo [Hhi Hlo]]].
  destruct (after_seg_masks_attributes p masks Hne self Hp) as [Hp' [Hsize Hnum]].
  fold before in Hp', Hsize, Hnum.
  assert (Hk : (seg_num before + 1)%Z = k) by (subst k; lia).
  exists hi, lo, (v0 (vsub hi lo) * (12 # 10) * inject_Z k). eexists.
  split; [ exact Hhi | ]. split; [ exact Hlo | ]. split.
  - cbn [vsub v0]. ring.
  - rewrite (add_seg_mask_step before p hi lo mask Hp' Hhi Hlo).
    rewrite Hk, Hsize. rewrite draw_points_xyzrgb_eq. cbv zeta. cbn [fst].
    rewrite map_map. cbn [xyz vset]. reflexivity.
Qed.

Lemma add_seg_mask_offset_witness :
  exists offset,
    offset == (12 # 10) * 2 * (1 - 0)
    /\ snd (add_seg_mask [] (after_seg_masks [[]] two_point_self)) = Ok tt.
Proof.
  destruct (add_seg_mask_offset two_point_self two_point_cloud [[]] []
              eq_refl ltac:(discriminate) eq_refl)
    as [hi [lo [offset [cs [Hhi [Hlo [Hoff Hrun]]]]]]].
  exists offset. cbv in Hhi, Hlo.
  injection Hhi as <-. injection Hlo as <-.
  split; [ rewrite Hoff; reflexivity | ].
  rewrite Hrun. reflexivity.
Defined.

(** ** Calls on a scene do not depend on the viewer's history *)

Lemma draw_points_history (points : list PointRow) (points_size : Z)
    (point_color : color) (mode : string) (v t : Viewer) :
  _draw_points points points_size point_color mode (v ++ t)
  = let (a, r) := _draw_points points points_size point_color mode v in (a ++ t, r).
Proof.
  unfold _draw_points, bind, call, modify, ret, raise.
  destruct (mode =? "xyz"); [ reflexivity | ].
  destruct (mode =? "xyzrgb"); [ | reflexivity ].
  destruct (negb (in_unit_range (map (fun p => firstn 3 (feats p)) points)));
    reflexivity.
Qed.

Lemma draw_bboxes_body_history `{Open3D} (bc ic : color) (rot_axis : Z)
    (center_mode mode : string) (row : BoxRow) (s : DrawState) (t : Viewer) :
  _draw_bboxes_body bc ic rot_axis center_mode mode row (shift t s)
  = let (a, r) := _draw_bboxes_body bc ic rot_axis center_mode mode row s in
    (shift t a, r).
Proof.
  unfold _draw_bboxes_body, bind, lift, vis_call, modify, get, set_points_colors,
    ret, shift.
  destruct (_draw_bboxes_box3d row rot_axis center_mode) as [box | e];
    [ | reflexivity ].
  cbn [ds_vis ds_points_colors ds_pcd].
  destruct (ds_pcd s) as [p | ]; [ | reflexivity ].
  destruct (mode =? "xyz"); [ | reflexivity ].
  destruct (assign_rows (ds_points_colors s)
              (get_point_indices_within_bounding_box box (pcd_points p)) ic);
    reflexivity.
Qed.

Lemma for_each_history {A} (body : A -> M DrawState unit) :
  (forall a s t, body a (shift t s) = let (s', r) := body a s in (shift t s', r)) ->
  forall l s t,
    for_each body l (shift t s) = let (s', r) := for_each body l s in (shift t s', r).
Proof.
  intros Hbody l. induction l as [ | a rest IH]; intros s t.
  - reflexivity.
  - cbn [for_each]. unfold bind. rewrite Hbody.
    destruct (body a s) as [s' [[] | e]]; [ apply IH | reflexivity ].
Qed.

Lemma update_points_colors_history (s : DrawState) (t : Viewer) :
  update_points_colors (shift t s)
  = let (a, r) := update_points_colors s in (shift t a, r).
Proof.
  destruct s as [v cs [p | ]]; reflexivity.
Qed.

Lemma draw_bboxes_history `{Open3D} (bbox3d : list BoxRow) (bc ic : color)
    (rot_axis : Z) (center_mode mode : string) (s : DrawState) (t : Viewer) :
  _draw_bboxes bbox3d bc ic rot_axis center_mode mode (shift t s)
  = let (a, r) := _draw_bboxes bbox3d bc ic rot_axis center_mode mode s in
    (shift t a, r).
Proof.
  unfold _draw_bboxes, bind.
  rewrite (for_each_history _ (draw_bboxes_body_history bc ic rot_axis center_mode mode)).
  destruct (for_each (_draw_bboxes_body bc ic rot_axis center_mode mode) bbox3d s)
    as [s' [[] | e]]; [ apply update_points_colors_history | reflexivity ].
Qed.

Lemma self_draw_bboxes_history `{Open3D} (bbox3d : list BoxRow) (bc ic : color)
    (self : Visualizer) (t : Viewer) :
  self_draw_bboxes bbox3d bc ic (vshift t self)
  = let (a, r) := self_draw_bboxes bbox3d bc ic self in (vshift t a, r).
Proof.
  destruct self as [v ps pc bbc pic ra cm md sn [p | ] [cs | ]];
    try reflexivity.
  unfold self_draw_bboxes, vshift, set_o3d_visualizer.
  cbn [o3d_visualizer points_size point_color bbox_color points_in_box_color
       rot_axis center_mode mode seg_num pcd points_colors].
  change (DS (v ++ t) cs (Some p)) with (shift t (DS v cs (Some p))).
  rewrite draw_bboxes_history.
  destruct (_draw_bboxes bbox3d bc ic ra cm md (DS v cs (Some p))) as [a r].
  reflexivity.
Qed.

Lemma add_bboxes_history `{Open3D} (bbox3d : list BoxRow) (bc ic : option color)
    (self : Visualizer) (t : Viewer) :
  add_bboxes bbox3d bc ic (vshift t self)
  = let (a, r) := add_bboxes bbox3d bc ic self in (vshift t a, r).
Proof.
  unfold add_bboxes, bind, get.
  change (bbox_color (vshift t self)) with (bbox_color self).
  change (points_in_box_color (vshift t self)) with (points_in_box_color self).
  apply self_draw_bboxes_history.
Qed.

Lemma add_seg_mask_history (mask : list PointRow) (self : Visualizer) (t : Viewer) :
  add_seg_mask mask (vshift t self)
  = let (a, r) := add_seg_mask mask self in (vshift t a, r).
Proof.
  destruct self as [v ps pc bbc pic ra cm md sn [p | ] cs]; [ | reflexivity ].
  cbv [add_seg_mask bind modify self_pcd lift get with_viewer zoom call ret vshift
       set_seg_num seg_num pcd o3d_visualizer set_o3d_visualizer points_size
       mode center_mode rot_axis points_in_box_color bbox_color point_color
       points_colors fst snd].
  destruct (amax0 (pcd_points p)) as [hi | e]; [ | reflexivity ].
  destruct (amin0 (pcd_points p)) as [lo | e]; [ | reflexivity ].
  match goal with
  | |- context [_draw_points ?pts ?sz ?c ?m (?g :: v ++ t)] =>
      change (g :: v ++ t) with ((g :: v) ++ t);
      rewrite (draw_points_history pts sz c m (g :: v) t);
      destruct (_draw_points pts sz c m (g :: v)) as [a [r | e]]; reflexivity
  end.
Qed.

Lemma show_trace (save_path : option string) (self : Visualizer) :
  show save_path self
  = (set_o3d_visualizer
       (destroy_window
          :: match save_path with
             | Some path => [capture_screen_image path]
             | None => []
             end ++ run :: o3d_visualizer self)
       self,
     Ok tt).
Proof. destruct self, save_path; reflexivity. Qed.

(** A call that commutes with [vshift] behaves on any scene as on the
    scene with an empty viewer history, its calls stacked on top. *)
Lemma history_free {A} (op : M Visualizer A) :
  (forall self t, op (vshift t self) = let (a, r) := op self in (vshift t a, r)) ->
  forall self v,
    op (set_o3d_visualizer v self)
    = (vshift v (fst (op (set_o3d_visualizer [] self))),
       snd (op (set_o3d_visualizer [] self))).
Proof.
  intros Hop self v.
  replace (set_o3d_visualizer v self) with (vshift v (set_o3d_visualizer [] self))
    by (destruct self; reflexivity).
  rewrite Hop. destruct (op (set_o3d_visualizer [] self)). reflexivity.
Qed.

Lemma after_show {A} (op : M Visualizer A) (self : Visualizer)
    (save_path : option string) :
  (forall self t, op (vshift t self) = let (a, r) := op self in (vshift t a, r)) ->
  let shown := fst (show save_path self) in
  snd (op shown) = snd (op self)
  /\ same_attributes (fst (op shown)) (fst (op self))
  /\ exists calls,
       o3d_visualizer (fst (op self)) = calls ++ o3d_visualizer self
       /\ o3d_visualizer (fst (op shown)) = calls ++ o3d_visualizer shown.
Proof.
  intros Hop shown. subst shown. rewrite show_trace. cbn [fst].
  set (v := destroy_window :: _).
  pose proof (history_free op Hop self v) as Hshown.
  pose proof (history_free op Hop self (o3d_visualizer self)) as Hself.
  replace (set_o3d_visualizer (o3d_visualizer self) self) with self in Hself
    by (destruct self; reflexivity).
  rewrite Hshown, Hself.
  destruct (op (set_o3d_visualizer [] self)) as [a r].
  cbn [fst snd]. split; [ reflexivity | ]. split.
  - destruct a; reflexivity.
  - exists (o3d_visualizer a). destruct a, self; split; reflexivity.
Qed.

(** C4, refuted as worded: after [show] the scene is closed, and both
    [add_seg_mask] and [add_bboxes] still return normally; the first
    even advances the counter. *)
Lemma closed_scene_accepts_calls_counterexample :
  closed shown_two_point_self
  /\ snd (add_seg_mask [Row (V3 0 0 0) [1; 0; 0]] shown_two_point_self) = Ok tt
  /\ seg_num (fst (add_seg_mask [Row (V3 0 0 0) [1; 0; 0]] shown_two_point_self))
     = 1%Z
  /\ snd (@add_bboxes axis_aligned [Box7 (V3 0 0 0) (V3 2 2 2) 0] None None
            shown_two_point_self)
     = Ok tt.
Proof.
  split; [ left; reflexivity | ]. repeat split.
Qed.

(** C4, amended.  [show] always returns normally and leaves the scene
    closed, with every attribute but the viewer as it was.  The class
    keeps no record of that: on the closed scene [add_seg_mask] and
    [add_bboxes] return or raise exactly as they would have before
    [show], leave the same attributes behind, and make the same viewer
    calls, now on top of [destroy_window]. *)
Theorem closed_scene_accepts_calls `{Open3D} (self : Visualizer)
    (save_path : option string) (mask : list PointRow) (bbox3d : list BoxRow)
    (bc ic : option color) :
  let shown := fst (show save_path self) in
  snd (show save_path self) = Ok tt
  /\ closed shown
  /\ same_attributes shown self
  /\ (snd (add_seg_mask mask shown) = snd (add_seg_mask mask self)
      /\ same_attributes (fst (add_seg_mask mask shown)) (fst (add_seg_mask mask self))
      /\ exists calls,
           o3d_visualizer (fst (add_seg_mask mask self))
           = calls ++ o3d_visualizer self
           /\ o3d_visualizer (fst (add_seg_mask mask shown))
              = calls ++ o3d_visualizer shown)
  /\ (snd (add_bboxes bbox3d bc ic shown) = snd (add_bboxes bbox3d bc ic self)
      /\ same_attributes (fst (add_bboxes bbox3d bc ic shown))
                         (fst (add_bboxes bbox3d bc ic self))
      /\ exists calls,
           o3d_visualizer (fst (add_bboxes bbox3d bc ic self))
           = calls ++ o3d_visualizer self
           /\ o3d_visualizer (fst (add_bboxes bbox3d bc ic shown))
              = calls ++ o3d_visualizer shown).
Proof.
  intros shown. split; [ | split; [ | split; [ | split ] ] ].
  - rewrite show_trace. reflexivity.
  - subst shown. rewrite show_trace. destruct self. left. reflexivity.
  - subst shown. rewrite show_trace. destruct self. reflexivity.
  - apply (after_show (add_seg_mask mask)). apply add_seg_mask_history.
  - apply (after_show (add_bboxes bbox3d bc ic)). apply add_bboxes_history.
Qed.

(** ** Writing one colour at a list of subscripts *)

Lemma set_row_length (i : nat) (c : color) (cs : list color) :
  List.length (set_row i c cs) = List.length cs.
Proof.
  revert i. induction cs as [ | x rest IH]; intros [ | j]; cbn; try reflexivity.
  rewrite IH. reflexivity.
Qed.

Lemma nth_error_set_row_same (i : nat) (c : color) (cs : list color) :
  (i < List.length cs)%nat -> nth_error (set_row i c cs) i = Some c.
Proof.
  revert i. induction cs as [ | x rest IH]; intros [ | j] Hi; cbn in *; try lia.
  - reflexivity.
  - apply IH. lia.
Qed.

Lemma nth_error_set_row_other (i j : nat) (c : color) (cs : list color) :
  i <> j -> nth_error (set_row i c cs) j = nth_error cs j.
Proof.
  revert i j. induction cs as [ | x rest IH]; intros [ | i] [ | j] Hij; cbn;
    try reflexivity; try congruence.
  apply IH. congruence.
Qed.

Lemma set_row_fixed (i : nat) (c : color) (cs : list color) :
  nth_error cs i = Some c -> set_row i c cs = cs.
Proof.
  revert i. induction cs as [ | x rest IH]; intros [ | j] Hi; cbn in *;
    try reflexivity.
  - congruence.
  - rewrite IH by assumption. reflexivity.
Qed.

Lemma set_row_keeps (i j : nat) (c : color) (cs : list color) :
  nth_error cs j = Some c -> nth_error (set_row i c cs) j = Some c.
Proof.
  intros Hj. destruct (Nat.eq_dec i j) as [-> | Hne].
  - apply nth_error_set_row_same. apply nth_error_Some. congruence.
  - rewrite nth_error_set_row_other by assumption. exact Hj.
Qed.

Section Paint.

Variable c : color.

Lemma paint_length (idx : list nat) (cs : list color) :
  List.length (paint c idx cs) = List.length cs.
Proof.
  revert cs. induction idx as [ | i rest IH]; intros cs; cbn.
  - reflexivity.
  - unfold paint in IH. rewrite IH. apply set_row_length.
Qed.

Lemma paint_keeps (idx : list nat) (cs : list color) (j : nat) :
  nth_error cs j = Some c -> nth_error (paint c idx cs) j = Some c.
Proof.
  revert cs. induction idx as [ | i rest IH]; intros cs Hj; cbn.
  - exact Hj.
  - apply IH. apply set_row_keeps. exact Hj.
Qed.

Lemma paint_sets (idx : list nat) (cs : list color) (j : nat) :
  In j idx -> (j < List.length cs)%nat -> nth_error (paint c idx cs) j = Some c.
Proof.
  revert cs. induction idx as [ | i rest IH]; intros cs Hin Hj; cbn.
  - destruct Hin.
  - destruct (Nat.eq_dec i j) as [-> | Hne].
    + apply paint_keeps. apply nth_error_set_row_same. exact Hj.
    + destruct Hin as [-> | Hin]; [ congruence | ].
      apply IH; [ exact Hin | ]. rewrite set_row_length. exact Hj.
Qed.

Lemma paint_fixed (idx : list nat) (cs : list color) :
  (forall i, In i idx -> nth_error cs i = Some c) -> paint c idx cs = cs.
Proof.
  induction idx as [ | i rest IH]; intros Hall; cbn.
  - reflexivity.
  - rewrite set_row_fixed by (apply Hall; left; reflexivity).
    apply IH. intros j Hj. apply Hall. right. exact Hj.
Qed.

Lemma assign_rows_ok (cs cs' : list color) (idx : list nat) :
  assign_rows cs idx c = Ok cs' ->
  keeps_painted c cs cs' /\ forall i, In i idx -> nth_error cs' i = Some c.
Proof.
  unfold assign_rows.
  destruct (forallb (fun i => (i <? List.length cs)%nat) idx) eqn:Hrange;
    [ | discriminate ].
  intros [= <-]. fold (paint c idx cs). rewrite forallb_forall in Hrange.
  split; [ split | ].
  - apply paint_length.
  - intros i. apply paint_keeps.
  - intros i Hi. apply paint_sets; [ exact Hi | ].
    apply Nat.ltb_lt. apply Hrange. exact Hi.
Qed.

Lemma assign_rows_fixed (cs : list color) (idx : list nat) :
  (forall i, In i idx -> nth_error cs i = Some c) -> assign_rows cs idx c = Ok cs.
Proof.
  intros Hall. unfold assign_rows.
  assert (Hrange : forallb (fun i => (i <? List.length cs)%nat) idx = true).
  { apply forallb_forall. intros i Hi. apply Nat.ltb_lt.
    apply nth_error_Some. rewrite (Hall i Hi). discriminate. }
  rewrite Hrange. fold (paint c idx cs). rewrite paint_fixed by exact Hall.
  reflexivity.
Qed.

Lemma assign_rows_raise (cs cs' : list color) (idx : list nat) (e : PyError) :
  assign_rows cs idx c = Raise e -> List.length cs' = List.length cs ->
  assign_rows cs' idx c = Raise e.
Proof.
  unfold assign_rows. intros Hraise ->.
  destruct (forallb (fun i => (i <? List.length cs)%nat) idx);
    [ discriminate | exact Hraise ].
Qed.

End Paint.

Lemma keeps_painted_refl (ic : color) (a : list color) : keeps_painted ic a a.
Proof. split; [ reflexivity | auto ]. Qed.

Lemma keeps_painted_trans (ic : color) (a b c : list color) :
  keeps_painted ic a b -> keeps_painted ic b c -> keeps_painted ic a c.
Proof. intros [Hl1 H1] [Hl2 H2]. split; [ congruence | auto ]. Qed.

(** ** Recolouring twice *)

Section Recolor.

Context `{Open3D}.
Variables (bc ic : color) (rot_axis : Z) (center_mode mode : string).

(** The loop body, seen from the colour array. *)
Lemma draw_bboxes_body_effect (row : BoxRow) (s : DrawState) :
  let out := _draw_bboxes_body bc ic rot_axis center_mode mode row s in
  ds_pcd (fst out) = ds_pcd s
  /\ match recolor_row ic rot_axis center_mode mode (points_of s) row
             (ds_points_colors s) with
     | Ok cs => ds_points_colors (fst out) = cs /\ snd out = Ok tt
     | Raise e => ds_points_colors (fst out) = ds_points_colors s
                  /\ snd out = Raise e
     end.
Proof.
  destruct s as [v cs p].
  unfold _draw_bboxes_body, recolor_row, points_of, bind, lift, vis_call, modify,
    get, set_points_colors, ret.
  cbn [ds_pcd ds_points_colors ds_vis option_map].
  destruct (_draw_bboxes_box3d row rot_axis center_mode) as [box | e];
    [ | split; [ reflexivity | split; reflexivity ] ].
  destruct p as [p | ]; cbn [option_map fst snd ds_pcd ds_points_colors];
    [ | split; [ reflexivity | split; reflexivity ] ].
  destruct (mode =? "xyz");
    [ | split; [ reflexivity | split; reflexivity ] ].
  destruct (assign_rows cs
              (get_point_indices_within_bounding_box box (pcd_points p)) ic);
    split; try reflexivity; split; reflexivity.
Qed.

(** The whole loop, seen from the colour array. *)
Lemma draw_bboxes_loop_effect (rows : list BoxRow) (s : DrawState) :
  let out := for_each (_draw_bboxes_body bc ic rot_axis center_mode mode) rows s in
  ds_pcd (fst out) = ds_pcd s
  /\ (ds_points_colors (fst out), snd out)
     = recolor_rows ic rot_axis center_mode mode (points_of s) rows
         (ds_points_colors s).
Proof.
  revert s. induction rows as [ | row rest IH]; intros s; cbn zeta.
  - split; reflexivity.
  - cbn [for_each recolor_rows]. unfold bind.
    destruct (draw_bboxes_body_effect row s) as [Hp Hc]. cbn zeta in Hp, Hc.
    destruct (_draw_bboxes_body bc ic rot_axis center_mode mode row s)
      as [s' r]. cbn [fst snd] in Hp, Hc.
    destruct (recolor_row ic rot_axis center_mode mode (points_of s) row
                (ds_points_colors s)) as [cs | e];
      destruct Hc as [Hc ->].
    + destruct (IH s') as [Hp' Hc']. cbn zeta in Hp', Hc'.
      unfold points_of in *. rewrite Hp, Hc in *. split; assumption.
    + cbn [fst snd]. rewrite Hc. split; [ exact Hp | reflexivity ].
Qed.

Variable points : option (list vec3).

Lemma recolor_row_keeps (row : BoxRow) (cs cs' : list color) :
  recolor_row ic rot_axis center_mode mode points row cs = Ok cs' ->
  keeps_painted ic cs cs'.
Proof.
  unfold recolor_row.
  destruct (_draw_bboxes_box3d row rot_axis center_mode) as [box | e];
    [ | discriminate ].
  destruct points as [pts | ];
    [ | intros [= <-]; apply keeps_painted_refl ].
  destruct (mode =? "xyz"); [ | intros [= <-]; apply keeps_painted_refl ].
  intros Hassign. apply (assign_rows_ok ic _ _ _ Hassign).
Qed.

Lemma recolor_rows_keeps (rows : list BoxRow) (cs : list color) :
  keeps_painted ic cs
    (fst (recolor_rows ic rot_axis center_mode mode points rows cs)).
Proof.
  revert cs. induction rows as [ | row rest IH]; intros cs; cbn [recolor_rows].
  - apply keeps_painted_refl.
  - destruct (recolor_row ic rot_axis center_mode mode points row cs)
      as [cs' | e] eqn:Hrow.
    + apply (keeps_painted_trans ic cs cs'); [ | apply IH ].
      apply (recolor_row_keeps row). exact Hrow.
    + apply keeps_painted_refl.
Qed.

(** A row that has been applied changes nothing when applied again to
    an array that kept its paint; a row that raised raises again. *)
Lemma recolor_row_again (row : BoxRow) (cs t : list color) :
  match recolor_row ic rot_axis center_mode mode points row cs with
  | Ok cs' =>
      keeps_painted ic cs' t ->
      recolor_row ic rot_axis center_mode mode points row t = Ok t
  | Raise e =>
      List.length t = List.length cs ->
      recolor_row ic rot_axis center_mode mode points row t = Raise e
  end.
Proof.
  unfold recolor_row.
  destruct (_draw_bboxes_box3d row rot_axis center_mode) as [box | e];
    [ | reflexivity ].
  destruct points as [pts | ]; [ | reflexivity ].
  destruct (mode =? "xyz"); [ | reflexivity ].
  destruct (assign_rows cs (get_point_indices_within_bounding_box box pts) ic)
    as [cs' | e] eqn:Hassign.
  - intros [_ Hkeep]. apply assign_rows_fixed. intros i Hi.
    apply Hkeep. apply (assign_rows_ok ic _ _ _ Hassign). exact Hi.
  - intros Hlen. apply (assign_rows_raise ic cs); assumption.
Qed.

Lemma recolor_rows_again (rows : list BoxRow) (cs t : list color) :
  keeps_painted ic
    (fst (recolor_rows ic rot_axis center_mode mode points rows cs)) t ->
  recolor_rows ic rot_axis center_mode mode points rows t
  = (t, snd (recolor_rows ic rot_axis center_mode mode points rows cs)).
Proof.
  revert cs t. induction rows as [ | row rest IH]; intros cs t; cbn [recolor_rows].
  - reflexivity.
  - pose proof (recolor_row_again row cs t) as Hrow.
    destruct (recolor_row ic rot_axis center_mode mode points row cs)
      as [cs' | e] eqn:Hcs.
    + intros Hkeep.
      rewrite Hrow.
      * apply IH. exact Hkeep.
      * apply (keeps_painted_trans ic cs'
                 (fst (recolor_rows ic rot_axis center_mode mode points rest cs'))
                 t); [ | exact Hkeep ].
        apply recolor_rows_keeps.
    + cbn [fst snd]. intros [Hlen _]. rewrite (Hrow Hlen). reflexivity.
Qed.

End Recolor.

Lemma update_points_colors_effect (s : DrawState) :
  snd (update_points_colors s) = Ok tt
  /\ ds_points_colors (fst (update_points_colors s)) = ds_points_colors s
  /\ ds_pcd (fst (update_points_colors s))
     = option_map (fun p => PCD (pcd_points p) (ds_points_colors s)) (ds_pcd s).
Proof. destruct s as [v cs [p | ]]; repeat split. Qed.

(** [_draw_bboxes], seen from the colour array and the point cloud. *)
Lemma draw_bboxes_effect `{Open3D} (bbox3d : list BoxRow) (bc ic : color)
    (rot_axis : Z) (center_mode mode : string) (s : DrawState) :
  let out := _draw_bboxes bbox3d bc ic rot_axis center_mode mode s in
  let pure := recolor_rows ic rot_axis center_mode mode (points_of s) bbox3d
                (ds_points_colors s) in
  ds_points_colors (fst out) = fst pure
  /\ snd out = snd pure
  /\ ds_pcd (fst out)
     = match snd pure with
       | Ok _ => option_map (fun p => PCD (pcd_points p) (fst pure)) (ds_pcd s)
       | Raise _ => ds_pcd s
       end.
Proof.
  cbn zeta. unfold _draw_bboxes, bind.
  destruct (draw_bboxes_loop_effect bc ic rot_axis center_mode mode bbox3d s)
    as [Hp Hc]. cbn zeta in Hp, Hc.
  destruct (for_each (_draw_bboxes_body bc ic rot_axis center_mode mode) bbox3d s)
    as [s1 r1]. cbn [fst snd] in Hp, Hc. rewrite <- Hc. cbn [fst snd].
  destruct r1 as [[] | e].
  - destruct (update_points_colors_effect s1) as [Hr [Hcs Hpcd]].
    rewrite Hr, Hcs, Hpcd, Hp. repeat split.
  - repeat split. exact Hp.
Qed.

(** C8.  Running [_draw_bboxes] a second time with the same boxes and
    colours, on the state the first run left, ends the same way (returns,
    or raises the same error) and leaves the colour array and the point
    cloud exactly as the first run left them. *)
Theorem draw_bboxes_idempotent `{Open3D} (bbox3d : list BoxRow) (bc ic : color)
    (rot_axis : Z) (center_mode mode : string) (s : DrawState) :
  let once := _draw_bboxes bbox3d bc ic rot_axis center_mode mode s in
  let twice := _draw_bboxes bbox3d bc ic rot_axis center_mode mode (fst once) in
  ds_points_colors (fst twice) = ds_points_colors (fst once)
  /\ ds_pcd (fst twice) = ds_pcd (fst once)
  /\ snd twice = snd once.
Proof.
  intros once twice.
  destruct (draw_bboxes_effect bbox3d bc ic rot_axis center_mode mode s)
    as [Hc1 [Hr1 Hp1]].
  destruct (draw_bboxes_effect bbox3d bc ic rot_axis center_mode mode (fst once))
    as [Hc2 [Hr2 Hp2]].
  cbn zeta in *. fold once in Hc1, Hr1, Hp1. fold twice in Hc2, Hr2, Hp2.
  unfold points_of in *.
  set (pts := option_map pcd_points (ds_pcd s)) in *.
  assert (Hpts : option_map pcd_points (ds_pcd (fst once)) = pts).
  { rewrite Hp1. subst pts.
    destruct (snd (recolor_rows ic rot_axis center_mode mode
                     (option_map pcd_points (ds_pcd s)) bbox3d (ds_points_colors s)));
      destruct (ds_pcd s); reflexivity. }
  rewrite Hpts, Hc1 in Hc2, Hr2, Hp2.
  pose proof (recolor_rows_again ic rot_axis center_mode mode pts bbox3d
                (ds_points_colors s) _ (keeps_painted_refl ic _)) as Hagain.
  rewrite Hagain in Hc2, Hr2, Hp2. cbn [fst snd] in Hc2, Hr2, Hp2.
  split; [ congruence | ]. split; [ | congruence ].
  rewrite Hp2, Hp1.
  destruct (snd (recolor_rows ic rot_axis center_mode mode pts bbox3d
                   (ds_points_colors s))); [ | reflexivity ].
  destruct (ds_pcd s); reflexivity.
Qed.

(** ** _draw_bboxes returns on a well-formed scene *)

Lemma mask_indices_range (mask : list bool) (n i : nat) :
  In i (mask_indices n mask) -> (n <= i < n + List.length mask)%nat.
Proof.
  revert n. induction mask as [ | b rest IH]; intros n Hin; cbn in *.
  - destruct Hin.
  - destruct b.
    + destruct Hin as [<- | Hin]; [ lia | ]. apply IH in Hin. lia.
    + apply IH in Hin. lia.
Qed.

Lemma recolor_rows_returns `{Open3D} (ic : color) (rot_axis : Z) (ax : axis)
    (center_mode mode : string) (pts : list vec3) (rows : list BoxRow)
    (cs : list color) :
  index3 rot_axis = Ok ax -> List.length pts = List.length cs ->
  snd (recolor_rows ic rot_axis center_mode mode (Some pts) rows cs) = Ok tt.
Proof.
  intros Hax. revert cs. induction rows as [ | row rest IH]; intros cs Hlen;
    cbn [recolor_rows].
  - reflexivity.
  - unfold recolor_row, _draw_bboxes_box3d. rewrite Hax.
    destruct (mode =? "xyz"); [ | apply IH; exact Hlen ].
    match goal with
    | |- context [assign_rows cs ?idx ic] =>
        destruct (assign_rows cs idx ic) as [cs' | e] eqn:Hassign
    end.
    + apply IH. destruct (assign_rows_ok ic _ _ _ Hassign) as [[Hl _] _].
      congruence.
    + exfalso. unfold assign_rows in Hassign.
      match type of Hassign with
      | (if forallb ?f ?idx then _ else _) = _ =>
          assert (Hrange : forallb f idx = true)
      end.
      { apply forallb_forall. intros i Hi. apply Nat.ltb_lt.
        unfold get_point_indices_within_bounding_box in Hi.
        apply mask_indices_range in Hi. rewrite length_map in Hi. lia. }
      rewrite Hrange in Hassign. discriminate Hassign.
Qed.

(** With a valid [rot_axis] and a colour array as long as the cloud, as
    in every scene the constructor builds, [_draw_bboxes] returns. *)
Lemma draw_bboxes_returns `{Open3D} (bbox3d : list BoxRow) (bc ic : color)
    (rot_axis : Z) (ax : axis) (center_mode mode : string) (v : Viewer)
    (cs : list color) (p : PointCloud) :
  index3 rot_axis = Ok ax -> List.length (pcd_points p) = List.length cs ->
  snd (_draw_bboxes bbox3d bc ic rot_axis center_mode mode (DS v cs (Some p)))
  = Ok tt.
Proof.
  intros Hax Hlen.
  destruct (draw_bboxes_effect bbox3d bc ic rot_axis center_mode mode
              (DS v cs (Some p))) as [_ [Hr _]].
  cbn zeta in Hr. rewrite Hr. unfold points_of.
  cbn [ds_pcd option_map ds_points_colors].
  apply (recolor_rows_returns ic rot_axis ax); assumption.
Qed.

(** Two overlapping boxes over a three-point cloud: the first pass
    paints the two points inside, the second pass changes nothing. *)
Example draw_bboxes_twice_example :
  let boxes := [Box7 (V3 0 0 0) (V3 2 2 2) 0; Box7 (V3 1 0 0) (V3 2 2 2) 0] in
  let grey := default_point_color in
  let s := DS [] [grey; grey; grey]
              (Some (PCD [V3 0 0 0; V3 2 0 0; V3 5 5 5] [grey; grey; grey])) in
  let once :=
    @_draw_bboxes axis_aligned boxes [0; 1; 0] [1; 0; 0] 2 "gravity" "xyz" s in
  let twice :=
    @_draw_bboxes axis_aligned boxes [0; 1; 0] [1; 0; 0] 2 "gravity" "xyz" (fst once) in
  ds_points_colors (fst once) = [[1; 0; 0]; [1; 0; 0]; grey]
  /\ ds_points_colors (fst twice) = [[1; 0; 0]; [1; 0; 0]; grey]
  /\ snd once = Ok tt /\ snd twice = Ok tt.
Proof. repeat split. Qed.

(** ** _draw_points: when it returns and what it hands back *)

Lemma draw_points_valid_mode (points : list PointRow) (points_size : Z)
    (point_color : color) (mode : string) (vis : Viewer) :
  mode = "xyz" \/ mode = "xyzrgb" ->
  exists cs,
    _draw_points points points_size point_color mode vis
    = (add_geometry (PointCloudGeometry (PCD (map xyz points) cs))
         :: set_point_size points_size :: vis,
       Ok (PCD (map xyz points) cs, cs))
    /\ List.length cs = List.length points
    /\ (mode = "xyz" -> cs = repeat point_color (List.length points)).
Proof.
  intros [-> | ->].
  - exists (repeat point_color (List.length points)).
    split; [ reflexivity | ]. split; [ apply repeat_length | reflexivity ].
  - rewrite draw_points_xyzrgb_eq. cbv zeta.
    eexists. split; [ reflexivity | ]. split; [ | discriminate ].
    destruct (negb (in_unit_range (map (fun p => firstn 3 (feats p)) points)));
      rewrite ?length_map; reflexivity.
Qed.

Lemma draw_points_other_mode (points : list PointRow) (points_size : Z)
    (point_color : color) (mode : string) (vis : Viewer) :
  mode <> "xyz" -> mode <> "xyzrgb" ->
  _draw_points points points_size point_color mode vis
  = (set_point_size points_size :: vis, Raise NotImplementedError).
Proof.
  intros Hxyz Hrgb. apply String.eqb_neq in Hxyz. apply String.eqb_neq in Hrgb.
  unfold _draw_points, bind, call, modify, raise. rewrite Hxyz, Hrgb. reflexivity.
Qed.

(** X1.  Whenever [_draw_points] returns, the mode was ['xyz'] or
    ['xyzrgb'], the cloud holds the first three columns of every input
    row, the colour array returned is the cloud's own and has one row per
    input point, and the viewer received the point size and then the
    cloud. *)
Theorem draw_points_result_shape (points : list PointRow) (points_size : Z)
    (point_color : color) (mode : string) (vis vis' : Viewer)
    (cloud : PointCloud) (cs : list color) :
  _draw_points points points_size point_color mode vis = (vis', Ok (cloud, cs)) ->
  (mode = "xyz" \/ mode = "xyzrgb")
  /\ pcd_points cloud = map xyz points
  /\ pcd_colors cloud = cs
  /\ List.length cs = List.length points
  /\ vis' = add_geometry (PointCloudGeometry cloud) :: set_point_size points_size :: vis.
Proof.
  intros Hrun.
  destruct (String.eqb_spec mode "xyz") as [Hxyz | Hxyz];
    [ | destruct (String.eqb_spec mode "xyzrgb") as [Hrgb | Hrgb] ].
  - destruct (draw_points_valid_mode points points_size point_color mode vis
                (or_introl Hxyz)) as [cs0 [Heq [Hlen _]]].
    rewrite Heq in Hrun. injection Hrun as <- <- <-. auto.
  - destruct (draw_points_valid_mode points points_size point_color mode vis
                (or_intror Hrgb)) as [cs0 [Heq [Hlen _]]].
    rewrite Heq in Hrun. injection Hrun as <- <- <-. auto.
  - rewrite (draw_points_other_mode _ _ _ _ _ Hxyz Hrgb) in Hrun. discriminate Hrun.
Qed.

Lemma draw_points_result_shape_witness :
  List.length [default_point_color; default_point_color] = 2%nat.
Proof.
  exact (proj1 (proj2 (proj2 (proj2
    (draw_points_result_shape
       [Row (V3 0 0 0) []; Row (V3 1 0 0) []] 2 default_point_color "xyz" []
       [add_geometry (PointCloudGeometry two_point_cloud); set_point_size 2]
       two_point_cloud [default_point_color; default_point_color] eq_refl))))).
Defined.

(** X2.  With any other mode [_draw_points] raises
    [NotImplementedError]; by then the point size has been set on the
    viewer, and no geometry has been added. *)
Theorem draw_points_unsupported_mode (points : list PointRow) (points_size : Z)
    (point_color : color) (mode : string) (vis : Viewer) :
  mode <> "xyz" -> mode <> "xyzrgb" ->
  _draw_points points points_size point_color mode vis
  = (set_point_size points_size :: vis, Raise NotImplementedError).
Proof. apply draw_points_other_mode. Qed.

Lemma draw_points_unsupported_mode_witness :
  _draw_points [Row (V3 0 0 0) []] 2 default_point_color "rgb" []
  = ([set_point_size 2], Raise NotImplementedError).
Proof.
  apply draw_points_unsupported_mode; discriminate.
Defined.

(** ** _draw_bboxes: which points are recoloured *)

Lemma mask_indices_In (mask : list bool) (n i : nat) :
  In i (mask_indices n mask)
  <-> (n <= i)%nat /\ nth_error mask (i - n) = Some true.
Proof.
  revert n. induction mask as [ | b rest IH]; intros n; cbn [mask_indices].
  - split; [ intros [] | ]. intros [_ Hnth].
    destruct (i - n)%nat; discriminate Hnth.
  - assert (Hrest : In i (mask_indices (S n) rest)
                    <-> (n < i)%nat /\ nth_error (b :: rest) (i - n) = Some true).
    { rewrite IH. split; intros [Hle Hnth]; (split; [ lia | ]).
      - replace (i - n)%nat with (S (i - S n)) by lia. exact Hnth.
      - replace (i - n)%nat with (S (i - S n)) in Hnth by lia. exact Hnth. }
    destruct b.
    + cbn [In]. rewrite Hrest. split.
      * intros [<- | [Hlt Hnth]]; [ | split; [ lia | exact Hnth ] ].
        split; [ lia | ]. rewrite Nat.sub_diag. reflexivity.
      * intros [Hle Hnth]. destruct (Nat.eq_dec n i) as [-> | Hne];
          [ left; reflexivity | right; split; [ lia | exact Hnth ] ].
    + rewrite Hrest. split; intros [Hle Hnth]; (split; [ | exact Hnth ]).
      * lia.
      * destruct (Nat.eq_dec n i) as [-> | Hne]; [ | lia ].
        rewrite Nat.sub_diag in Hnth. discriminate Hnth.
Qed.

Lemma within_indices `{Open3D} (box : OrientedBoundingBox) (pts : list vec3)
    (i : nat) (pt : vec3) :
  nth_error pts i = Some pt ->
  In i (get_point_indices_within_bounding_box box pts) <-> point_within box pt = true.
Proof.
  intros Hpt. unfold get_point_indices_within_bounding_box.
  rewrite mask_indices_In, Nat.sub_0_r, nth_error_map, Hpt. cbn.
  split.
  - intros [_ [= ->]]. reflexivity.
  - intros ->. split; [ lia | reflexivity ].
Qed.

Lemma paint_other (c : color) (idx : list nat) (cs : list color) (i : nat) :
  ~ In i idx -> nth_error (paint c idx cs) i = nth_error cs i.
Proof.
  revert cs. induction idx as [ | j rest IH]; intros cs Hnot; cbn.
  - reflexivity.
  - fold (paint c rest (set_row j c cs)). rewrite IH.
    + apply nth_error_set_row_other. intros ->. apply Hnot. left. reflexivity.
    + intros Hin. apply Hnot. right. exact Hin.
Qed.

Lemma within_indices_range `{Open3D} (box : OrientedBoundingBox) (pts : list vec3)
    (i : nat) :
  In i (get_point_indices_within_bounding_box box pts) -> (i < List.length pts)%nat.
Proof.
  intros Hi. unfold get_point_indices_within_bounding_box in Hi.
  apply mask_indices_range in Hi. rewrite length_map in Hi. lia.
Qed.

Lemma assign_rows_in_range (c : color) (cs : list color) (idx : list nat) :
  (forall i, In i idx -> (i < List.length cs)%nat) ->
  assign_rows cs idx c = Ok (paint c idx cs).
Proof.
  intros Hrange. unfold assign_rows.
  assert (Hall : forallb (fun i => (i <? List.length cs)%nat) idx = true).
  { apply forallb_forall. intros i Hi. apply Nat.ltb_lt. apply Hrange. exact Hi. }
  rewrite Hall. reflexivity.
Qed.

Lemma recolor_rows_xyz_colors `{Open3D} (ic : color) (rot_axis : Z) (ax : axis)
    (center_mode : string) (pts : list vec3) (rows : list BoxRow) :
  index3 rot_axis = Ok ax ->
  forall cs, List.length pts = List.length cs ->
  forall i pt, nth_error pts i = Some pt ->
    nth_error (fst (recolor_rows ic rot_axis center_mode "xyz" (Some pts) rows cs)) i
    = if existsb (row_contains rot_axis center_mode pt) rows
      then Some ic else nth_error cs i.
Proof.
  intros Hax. induction rows as [ | row rest IH]; intros cs Hlen i pt Hpt.
  - reflexivity.
  - cbn [recolor_rows existsb]. unfold recolor_row, row_contains at 1.
    assert (Hbox : exists box, _draw_bboxes_box3d row rot_axis center_mode = Ok box).
    { unfold _draw_bboxes_box3d. rewrite Hax. eexists. reflexivity. }
    destruct Hbox as [box ->].
    change ("xyz" =? "xyz") with true. cbv iota.
    rewrite assign_rows_in_range.
    2:{ intros j Hj. apply within_indices_range in Hj. lia. }
    rewrite IH with (pt := pt); [ | rewrite paint_length; exact Hlen | exact Hpt ].
    destruct (point_within box pt) eqn:Hin; cbn [orb].
    + assert (Hi : nth_error
                     (paint ic (get_point_indices_within_bounding_box box pts) cs) i
                   = Some ic).
      { apply paint_sets.
        - apply (within_indices box pts i pt Hpt). exact Hin.
        - rewrite <- Hlen. apply nth_error_Some. congruence. }
      rewrite Hi. destruct (existsb _ rest); reflexivity.
    + rewrite paint_other; [ reflexivity | ].
      intros Hi. apply (within_indices box pts i pt Hpt) in Hi. congruence.
Qed.

(** X3.  In ['xyz'] mode, with a valid [rot_axis] and a colour array as
    long as the cloud, [_draw_bboxes] returns, and afterwards a point has
    the in-box colour if it lies within the box of at least one row and
    its previous colour otherwise. *)
Theorem draw_bboxes_colors `{Open3D} (bbox3d : list BoxRow) (bc ic : color)
    (rot_axis : Z) (ax : axis) (center_mode : string) (v : Viewer)
    (cs : list color) (p : PointCloud) :
  index3 rot_axis = Ok ax -> List.length (pcd_points p) = List.length cs ->
  let out := _draw_bboxes bbox3d bc ic rot_axis center_mode "xyz" (DS v cs (Some p)) in
  snd out = Ok tt
  /\ forall i pt, nth_error (pcd_points p) i = Some pt ->
       nth_error (ds_points_colors (fst out)) i
       = if existsb (row_contains rot_axis center_mode pt) bbox3d
         then Some ic else nth_error cs i.
Proof.
  intros Hax Hlen out. split.
  - apply (draw_bboxes_returns bbox3d bc ic rot_axis ax); assumption.
  - intros i pt Hpt.
    destruct (draw_bboxes_effect bbox3d bc ic rot_axis center_mode "xyz"
                (DS v cs (Some p))) as [Hc _].
    cbn zeta in Hc. fold out in Hc. rewrite Hc. unfold points_of.
    cbn [ds_pcd ds_points_colors option_map].
    apply (recolor_rows_xyz_colors ic rot_axis ax); assumption.
Qed.

Lemma draw_bboxes_colors_witness :
  nth_error
    (ds_points_colors
       (fst (@_draw_bboxes axis_aligned [Box7 (V3 0 0 0) (V3 2 2 2) 0] [0; 1; 0]
               [1; 0; 0] 2 "gravity" "xyz"
               (DS [] [default_point_color; default_point_color]
                   (Some (PCD [V3 0 0 0; V3 5 0 0]
                              [default_point_color; default_point_color]))))))
    1
  = Some default_point_color.
Proof.
  exact (proj2 (@draw_bboxes_colors axis_aligned [Box7 (V3 0 0 0) (V3 2 2 2) 0]
                  [0; 1; 0] [1; 0; 0] 2 A2 "gravity" []
                  [default_point_color; default_point_color]
                  (PCD [V3 0 0 0; V3 5 0 0] [default_point_color; default_point_color])
                  eq_refl eq_refl)
               1%nat (V3 5 0 0) eq_refl).
Defined.

(** ** _draw_bboxes: rotation axis, viewer calls and what stays fixed *)

Lemma index3_out_of_range (i : Z) :
  (i < -3 \/ 2 < i)%Z -> index3 i = Raise IndexError.
Proof.
  intros Hi. destruct i as [ | p | p]; [ lia | | ].
  - destruct p as [[q | q | ] | [q | q | ] | ]; try lia; reflexivity.
  - destruct p as [[q | q | ] | [q | q | ] | ]; try lia; reflexivity.
Qed.

(** X4.  A [rot_axis] that is no subscript of a length-three array
    (below -3 or above 2) is an [IndexError] as soon as there is one box,
    raised before anything is drawn or recoloured; with an empty box list
    the same call returns and only refreshes the cloud. *)
Theorem draw_bboxes_bad_axis `{Open3D} (bbox3d : list BoxRow) (bc ic : color)
    (rot_axis : Z) (center_mode mode : string) (s : DrawState) :
  (rot_axis < -3 \/ 2 < rot_axis)%Z ->
  _draw_bboxes bbox3d bc ic rot_axis center_mode mode s
  = match bbox3d with
    | [] => update_points_colors s
    | _ :: _ => (s, Raise IndexError)
    end.
Proof.
  intros Hbad. apply index3_out_of_range in Hbad.
  destruct bbox3d as [ | row rest].
  - unfold _draw_bboxes, bind. cbn [for_each]. unfold ret.
    reflexivity.
  - unfold _draw_bboxes, bind. cbn [for_each]. unfold bind at 1.
    unfold _draw_bboxes_body, bind, lift, _draw_bboxes_box3d. rewrite Hbad.
    reflexivity.
Qed.

Lemma draw_bboxes_bad_axis_witness :
  @_draw_bboxes axis_aligned [Box7 (V3 0 0 0) (V3 2 2 2) 0] [0; 1; 0] [1; 0; 0] 3
    "lidar_bottom" "xyz" (DS [] [] None)
  = (DS [] [] None, Raise IndexError).
Proof.
  apply (@draw_bboxes_bad_axis axis_aligned [Box7 (V3 0 0 0) (V3 2 2 2) 0]).
  right. reflexivity.
Defined.

Lemma draw_bboxes_body_vis `{Open3D} (bc ic : color) (rot_axis : Z)
    (center_mode mode : string) (row : BoxRow) (s : DrawState) :
  match _draw_bboxes_box3d row rot_axis center_mode with
  | Ok box3d =>
      ds_vis (fst (_draw_bboxes_body bc ic rot_axis center_mode mode row s))
      = add_geometry (LineSet box3d bc) :: ds_vis s
  | Raise e =>
      _draw_bboxes_body bc ic rot_axis center_mode mode row s = (s, Raise e)
  end.
Proof.
  unfold _draw_bboxes_body, bind, lift, vis_call, modify, get, set_points_colors, ret.
  destruct (_draw_bboxes_box3d row rot_axis center_mode) as [box | e];
    [ | reflexivity ].
  cbn [ds_pcd ds_points_colors ds_vis].
  destruct (ds_pcd s) as [p | ]; [ | reflexivity ].
  destruct (mode =? "xyz"); [ | reflexivity ].
  destruct (assign_rows (ds_points_colors s)
              (get_point_indices_within_bounding_box box (pcd_points p)) ic);
    reflexivity.
Qed.

Lemma draw_bboxes_loop_vis `{Open3D} (bc ic : color) (rot_axis : Z)
    (center_mode mode : string) (rows : list BoxRow) :
  forall s,
    snd (for_each (_draw_bboxes_body bc ic rot_axis center_mode mode) rows s) = Ok tt ->
    exists boxes,
      Forall2 (fun row box => _draw_bboxes_box3d row rot_axis center_mode = Ok box)
              rows boxes
      /\ ds_vis (fst (for_each (_draw_bboxes_body bc ic rot_axis center_mode mode)
                        rows s))
         = rev (map (fun box => add_geometry (LineSet box bc)) boxes) ++ ds_vis s.
Proof.
  induction rows as [ | row rest IH]; intros s Hok.
  - exists []. split; [ constructor | reflexivity ].
  - cbn [for_each] in *. unfold bind in *.
    pose proof (draw_bboxes_body_vis bc ic rot_axis center_mode mode row s) as Hvis.
    destruct (_draw_bboxes_box3d row rot_axis center_mode) as [box | e] eqn:Hbox.
    + destruct (_draw_bboxes_body bc ic rot_axis center_mode mode row s)
        as [s' [[] | e]]; [ | discriminate Hok ].
      cbn [fst] in Hvis.
      destruct (IH s' Hok) as [boxes [Hall Htrace]].
      exists (box :: boxes). split; [ constructor; assumption | ].
      rewrite Htrace, Hvis. cbn [map rev]. rewrite <- app_assoc. reflexivity.
    + rewrite Hvis in Hok. discriminate Hok.
Qed.

(** The viewer calls of a [_draw_bboxes] run that returns. *)
Lemma draw_bboxes_trace `{Open3D} (bbox3d : list BoxRow) (bc ic : color)
    (rot_axis : Z) (center_mode mode : string) (s : DrawState) :
  let out := _draw_bboxes bbox3d bc ic rot_axis center_mode mode s in
  snd out = Ok tt ->
  exists boxes,
    Forall2 (fun row box => _draw_bboxes_box3d row rot_axis center_mode = Ok box)
            bbox3d boxes
    /\ ds_vis (fst out)
       = match ds_pcd s with
         | Some p =>
             [update_geometry
                (PointCloudGeometry (PCD (pcd_points p) (ds_points_colors (fst out))))]
         | None => []
         end
         ++ rev (map (fun box => add_geometry (LineSet box bc)) boxes) ++ ds_vis s.
Proof.
  intros out Hok. subst out. unfold _draw_bboxes, bind in *.
  destruct (draw_bboxes_loop_effect bc ic rot_axis center_mode mode bbox3d s)
    as [Hpcd _]. cbn zeta in Hpcd.
  pose proof (draw_bboxes_loop_vis bc ic rot_axis center_mode mode bbox3d s) as Hloop.
  destruct (for_each (_draw_bboxes_body bc ic rot_axis center_mode mode) bbox3d s)
    as [s1 [[] | e]]; [ | discriminate Hok ].
  cbn [fst snd] in Hpcd, Hloop.
  destruct (Hloop eq_refl) as [boxes [Hall Htrace]].
  exists boxes. split; [ exact Hall | ].
  destruct s1 as [v1 cs1 p1]. cbn [ds_vis ds_pcd] in *. subst p1.
  destruct (ds_pcd s) as [p | ]; cbn; rewrite Htrace; reflexivity.
Qed.

(** X5.  When [_draw_bboxes] returns, the viewer has received exactly
    one line set per row of the box array, in row order and each in
    [bbox_color], followed (when there is a cloud) by one
    [update_geometry] of the cloud carrying the final colour array. *)
Theorem draw_bboxes_viewer_calls `{Open3D} (bbox3d : list BoxRow) (bc ic : color)
    (rot_axis : Z) (center_mode mode : string) (s : DrawState) :
  let out := _draw_bboxes bbox3d bc ic rot_axis center_mode mode s in
  snd out = Ok tt ->
  exists boxes,
    Forall2 (fun row box => _draw_bboxes_box3d row rot_axis center_mode = Ok box)
            bbox3d boxes
    /\ ds_vis (fst out)
       = match ds_pcd s with
         | Some p =>
             [update_geometry
                (PointCloudGeometry (PCD (pcd_points p) (ds_points_colors (fst out))))]
         | None => []
         end
         ++ rev (map (fun box => add_geometry (LineSet box bc)) boxes) ++ ds_vis s.
Proof. apply draw_bboxes_trace. Qed.

Lemma draw_bboxes_viewer_calls_witness :
  exists boxes,
    List.length boxes = 2%nat
    /\ ds_vis (fst (@_draw_bboxes axis_aligned
                      [Box7 (V3 0 0 0) (V3 2 2 2) 0; Box7 (V3 1 0 0) (V3 2 2 2) 0]
                      [0; 1; 0] [1; 0; 0] 2 "gravity" "xyz" (DS [] [] None)))
       = rev (map (fun box => add_geometry (LineSet box [0; 1; 0])) boxes).
Proof.
  destruct (@draw_bboxes_viewer_calls axis_aligned
              [Box7 (V3 0 0 0) (V3 2 2 2) 0; Box7 (V3 1 0 0) (V3 2 2 2) 0]
              [0; 1; 0] [1; 0; 0] 2 "gravity" "xyz" (DS [] [] None) eq_refl)
    as [boxes [Hall Htrace]].
  exists boxes. split.
  - apply Forall2_length in Hall. symmetry. exact Hall.
  - rewrite Htrace. cbn [ds_pcd ds_vis app]. apply app_nil_r.
Defined.

(** X6.  [_draw_bboxes] never touches the coordinates: whether it
    returns or raises, the cloud is present afterwards exactly when it
    was before, with the same points, and the colour array keeps its
    length. *)
Theorem draw_bboxes_keeps_points `{Open3D} (bbox3d : list BoxRow) (bc ic : color)
    (rot_axis : Z) (center_mode mode : string) (s : DrawState) :
  let out := fst (_draw_bboxes bbox3d bc ic rot_axis center_mode mode s) in
  option_map pcd_points (ds_pcd out) = option_map pcd_points (ds_pcd s)
  /\ List.length (ds_points_colors out) = List.length (ds_points_colors s).
Proof.
  intros out.
  destruct (draw_bboxes_effect bbox3d bc ic rot_axis center_mode mode s)
    as [Hc [_ Hp]].
  cbn zeta in Hc, Hp. fold out in Hc, Hp. split.
  - rewrite Hp.
    destruct (snd (recolor_rows ic rot_axis center_mode mode (points_of s) bbox3d
                     (ds_points_colors s)));
      destruct (ds_pcd s); reflexivity.
  - rewrite Hc.
    apply (recolor_rows_keeps ic rot_axis center_mode mode (points_of s) bbox3d).
Qed.

(** ** _draw_bboxes_ind: the membership matrix decides *)

Lemma draw_bboxes_ind_body_effect (indices : Membership) (bc ic : color)
    (rot_axis : Z) (ax : axis) (center_mode mode : string) (k : nat) (row : BoxRow)
    (v : Viewer) (cs : list color) (p : PointCloud) :
  index3 rot_axis = Ok ax ->
  exists v',
    _draw_bboxes_ind_body indices bc ic rot_axis center_mode mode (k, row)
      (DS v cs (Some p))
    = if mode =? "xyz" then
        match membership_column indices k with
        | Raise e => (DS v' cs (Some p), Raise e)
        | Ok mask =>
            match assign_mask cs mask ic with
            | Raise e => (DS v' cs (Some p), Raise e)
            | Ok cs' => (DS v' cs' (Some p), Ok tt)
            end
        end
      else (DS v' cs (Some p), Ok tt).
Proof.
  intros Hax.
  unfold _draw_bboxes_ind_body, bind, lift, vis_call, modify, get, set_points_colors,
    ret, _draw_bboxes_ind_box3d.
  rewrite Hax. cbn [fst snd ds_pcd ds_points_colors ds_vis].
  eexists. destruct (mode =? "xyz"); [ | reflexivity ].
  destruct (membership_column indices k) as [mask | e]; [ | reflexivity ].
  destruct (assign_mask cs mask ic); reflexivity.
Qed.

Lemma draw_bboxes_ind_loop_effect (indices : Membership) (bc ic : color)
    (rot_axis : Z) (ax : axis) (center_mode mode : string) (p : PointCloud)
    (rows : list BoxRow) :
  index3 rot_axis = Ok ax ->
  forall k v cs,
    exists v',
      for_each (_draw_bboxes_ind_body indices bc ic rot_axis center_mode mode)
        (combine (seq k (List.length rows)) rows) (DS v cs (Some p))
      = (DS v' (fst (recolor_ind_rows indices ic mode k (List.length rows) cs)) (Some p),
         snd (recolor_ind_rows indices ic mode k (List.length rows) cs)).
Proof.
  intros Hax. induction rows as [ | row rest IH]; intros k v cs.
  - exists v. reflexivity.
  - cbn [List.length seq combine for_each recolor_ind_rows]. unfold bind.
    destruct (draw_bboxes_ind_body_effect indices bc ic rot_axis ax center_mode mode
                k row v cs p Hax) as [v1 ->].
    destruct (mode =? "xyz").
    + destruct (membership_column indices k) as [mask | e];
        [ | exists v1; reflexivity ].
      destruct (assign_mask cs mask ic) as [cs' | e]; [ | exists v1; reflexivity ].
      apply IH.
    + apply IH.
Qed.

(** [_draw_bboxes_ind] on a scene with a cloud, seen from the colour
    array. *)
Lemma draw_bboxes_ind_effect (bbox3d : list BoxRow) (indices : Membership)
    (bc ic : color) (rot_axis : Z) (ax : axis) (center_mode mode : string)
    (v : Viewer) (cs : list color) (p : PointCloud) :
  index3 rot_axis = Ok ax ->
  let out := _draw_bboxes_ind bbox3d indices bc ic rot_axis center_mode mode
               (DS v cs (Some p)) in
  let pure := recolor_ind_rows indices ic mode 0 (List.length bbox3d) cs in
  ds_points_colors (fst out) = fst pure
  /\ snd out = snd pure
  /\ option_map pcd_points (ds_pcd (fst out)) = Some (pcd_points p).
Proof.
  intros Hax. cbn zeta. unfold _draw_bboxes_ind, bind.
  destruct (draw_bboxes_ind_loop_effect indices bc ic rot_axis ax center_mode mode p
              bbox3d Hax 0%nat v cs) as [v' ->].
  destruct (snd (recolor_ind_rows indices ic mode 0 (List.length bbox3d) cs))
    as [[] | e]; repeat split.
Qed.

Lemma assign_mask_ok (cs : list color) (mask : list bool) (c : color) :
  List.length mask = List.length cs ->
  exists cs',
    assign_mask cs mask c = Ok cs'
    /\ List.length cs' = List.length cs
    /\ forall i b x, nth_error mask i = Some b -> nth_error cs i = Some x ->
         nth_error cs' i = Some (if b then c else x).
Proof.
  intros Hlen. unfold assign_mask. rewrite Hlen, Nat.eqb_refl.
  eexists. split; [ reflexivity | ]. split.
  - rewrite length_map, length_combine. lia.
  - intros i b x Hb Hx. rewrite nth_error_map.
    assert (Hpair : nth_error (combine mask cs) i = Some (b, x)).
    { clear Hlen. revert i cs Hb Hx.
      induction mask as [ | m rest IH]; intros [ | i] [ | y ys] Hb Hx;
        cbn in *; try discriminate.
      - congruence.
      - apply IH; assumption. }
    rewrite Hpair. reflexivity.
Qed.

Lemma recolor_ind_rows_status (indices : Membership) (ic : color) (n : nat) :
  forall k cs,
    (k <= memb_cols indices)%nat ->
    snd (recolor_ind_rows indices ic "xyz" k n cs)
    = if (n =? 0)%nat
         || ((k + n <=? memb_cols indices)%nat
             && (List.length (memb_rows indices) =? List.length cs)%nat)
      then Ok tt else Raise IndexError.
Proof.
  induction n as [ | n IH]; intros k cs Hk.
  - reflexivity.
  - cbn [recolor_ind_rows]. change ("xyz" =? "xyz") with true. cbv iota.
    change (S n =? 0)%nat with false. cbn [orb].
    unfold membership_column.
    destruct (k <? memb_cols indices)%nat eqn:Hlt.
    + apply Nat.ltb_lt in Hlt.
      destruct (Nat.eq_dec
                  (List.length (map (fun r => negb (Z.eqb (nth k r 0%Z) 0))
                                    (memb_rows indices)))
                  (List.length cs)) as [Heq | Hne].
      * destruct (assign_mask_ok cs _ ic Heq) as [cs' [-> [Hlen _]]].
        rewrite IH by lia. rewrite Hlen.
        rewrite length_map in Heq. rewrite Heq, Nat.eqb_refl, !andb_true_r.
        destruct n as [ | n]; cbn [Nat.eqb orb].
        -- replace (k + 1 <=? memb_cols indices)%nat with true; [ reflexivity | ].
           symmetry. apply Nat.leb_le. lia.
        -- replace (S k + S n)%nat with (k + S (S n))%nat by lia. reflexivity.
      * unfold assign_mask.
        apply Nat.eqb_neq in Hne. rewrite Hne. cbn [snd].
        rewrite length_map in Hne. rewrite Hne, andb_false_r. reflexivity.
    + apply Nat.ltb_ge in Hlt. cbn [snd].
      replace (k + S n <=? memb_cols indices)%nat with false; [ reflexivity | ].
      symmetry. apply Nat.leb_gt. lia.
Qed.

(** X7.  With a valid [rot_axis], a cloud and ['xyz'] mode,
    [_draw_bboxes_ind] returns exactly when the box array is empty, or
    the membership matrix has a column for every box and a row for every
    entry of the colour array; in every other case it raises
    [IndexError]. *)
Theorem draw_bboxes_ind_returns_iff (bbox3d : list BoxRow) (indices : Membership)
    (bc ic : color) (rot_axis : Z) (ax : axis) (center_mode : string)
    (v : Viewer) (cs : list color) (p : PointCloud) :
  index3 rot_axis = Ok ax ->
  snd (_draw_bboxes_ind bbox3d indices bc ic rot_axis center_mode "xyz"
         (DS v cs (Some p)))
  = if (List.length bbox3d =? 0)%nat
       || ((List.length bbox3d <=? memb_cols indices)%nat
           && (List.length (memb_rows indices) =? List.length cs)%nat)
    then Ok tt else Raise IndexError.
Proof.
  intros Hax.
  destruct (draw_bboxes_ind_effect bbox3d indices bc ic rot_axis ax center_mode "xyz"
              v cs p Hax) as [_ [Hr _]].
  cbn zeta in Hr. rewrite Hr. rewrite recolor_ind_rows_status by lia. reflexivity.
Qed.

Lemma draw_bboxes_ind_returns_iff_witness :
  snd (_draw_bboxes_ind [Box7 (V3 0 0 0) (V3 2 2 2) 0; Box7 (V3 1 0 0) (V3 2 2 2) 0]
         (Memb 1 [[1%Z]]) [0; 1; 0] [1; 0; 0] 2 "lidar_bottom" "xyz"
         (DS [] [default_point_color] (Some (PCD [V3 0 0 0] [default_point_color]))))
  = Raise IndexError.
Proof.
  exact (draw_bboxes_ind_returns_iff
           [Box7 (V3 0 0 0) (V3 2 2 2) 0; Box7 (V3 1 0 0) (V3 2 2 2) 0]
           (Memb 1 [[1%Z]]) [0; 1; 0] [1; 0; 0] 2 A2 "lidar_bottom" []
           [default_point_color] (PCD [V3 0 0 0] [default_point_color]) eq_refl).
Defined.

Lemma recolor_ind_rows_colors (indices : Membership) (ic : color) (n : nat) :
  forall k cs,
    (k + n <= memb_cols indices)%nat ->
    List.length (memb_rows indices) = List.length cs ->
    forall i row, nth_error (memb_rows indices) i = Some row ->
      nth_error (fst (recolor_ind_rows indices ic "xyz" k n cs)) i
      = if existsb (fun j => negb (Z.eqb (nth j row 0%Z) 0)) (seq k n)
        then Some ic else nth_error cs i.
Proof.
  induction n as [ | n IH]; intros k cs Hk Hlen i row Hrow.
  - reflexivity.
  - cbn [recolor_ind_rows seq existsb]. change ("xyz" =? "xyz") with true. cbv iota.
    unfold membership_column.
    assert (Hlt : (k <? memb_cols indices)%nat = true) by (apply Nat.ltb_lt; lia).
    rewrite Hlt.
    assert (Hmask : List.length (map (fun r => negb (Z.eqb (nth k r 0%Z) 0))
                                     (memb_rows indices))
                    = List.length cs) by (rewrite length_map; exact Hlen).
    destruct (assign_mask_ok cs _ ic Hmask) as [cs' [-> [Hlen' Hnth]]].
    assert (Hx : exists x, nth_error cs i = Some x).
    { destruct (nth_error cs i) as [x | ] eqn:Hx; [ eexists; reflexivity | ].
      apply nth_error_None in Hx.
      assert (i < List.length (memb_rows indices))%nat
        by (apply nth_error_Some; congruence).
      lia. }
    destruct Hx as [x Hx].
    assert (Hi : nth_error cs' i
                 = Some (if negb (Z.eqb (nth k row 0%Z) 0) then ic else x)).
    { apply Hnth; [ | exact Hx ]. rewrite nth_error_map, Hrow. reflexivity. }
    rewrite (IH (S k) cs') with (row := row); [ | lia | congruence | exact Hrow ].
    rewrite Hi, Hx.
    destruct (negb (Z.eqb (nth k row 0%Z) 0)); cbn [orb];
      destruct (existsb _ (seq (S k) n)); reflexivity.
Qed.

(** X8.  In ['xyz'] mode, when the membership matrix has a column for
    every box and a row for every entry of the colour array,
    [_draw_bboxes_ind] gives point [i] the in-box colour if row [i] of
    the matrix is non-zero in the column of at least one box, and leaves
    its colour alone otherwise. *)
Theorem draw_bboxes_ind_colors (bbox3d : list BoxRow) (indices : Membership)
    (bc ic : color) (rot_axis : Z) (ax : axis) (center_mode : string)
    (v : Viewer) (cs : list color) (p : PointCloud) :
  index3 rot_axis = Ok ax ->
  (List.length bbox3d <= memb_cols indices)%nat ->
  List.length (memb_rows indices) = List.length cs ->
  forall i row, nth_error (memb_rows indices) i = Some row ->
    nth_error
      (ds_points_colors
         (fst (_draw_bboxes_ind bbox3d indices bc ic rot_axis center_mode "xyz"
                 (DS v cs (Some p)))))
      i
    = if member_of_some (List.length bbox3d) row then Some ic else nth_error cs i.
Proof.
  intros Hax Hcols Hrows i row Hrow.
  destruct (draw_bboxes_ind_effect bbox3d indices bc ic rot_axis ax center_mode "xyz"
              v cs p Hax) as [Hc _].
  cbn zeta in Hc. rewrite Hc. unfold member_of_some.
  apply recolor_ind_rows_colors; [ lia | exact Hrows | exact Hrow ].
Qed.

Lemma draw_bboxes_ind_colors_witness :
  nth_error
    (ds_points_colors
       (fst (_draw_bboxes_ind [Box7 (V3 0 0 0) (V3 2 2 2) 0] (Memb 1 [[0%Z]; [1%Z]])
               [0; 1; 0] [1; 0; 0] 2 "lidar_bottom" "xyz"
               (DS [] [default_point_color; default_point_color]
                   (Some (PCD [V3 0 0 0; V3 9 9 9]
                              [default_point_color; default_point_color]))))))
    1
  = Some [1; 0; 0].
Proof.
  exact (draw_bboxes_ind_colors [Box7 (V3 0 0 0) (V3 2 2 2) 0]
           (Memb 1 [[0%Z]; [1%Z]]) [0; 1; 0] [1; 0; 0] 2 A2 "lidar_bottom" []
           [default_point_color; default_point_color]
           (PCD [V3 0 0 0; V3 9 9 9] [default_point_color; default_point_color])
           eq_refl (le_n 1) eq_refl 1%nat [1%Z] eq_refl).
Defined.

(** X9.  The colours [_draw_bboxes_ind] leaves do not depend on where
    the boxes are: two box arrays of the same length give the same colour
    array and the same outcome, whatever their centres, sizes and yaws. *)
Theorem draw_bboxes_ind_ignores_geometry (boxes boxes' : list BoxRow)
    (indices : Membership) (bc ic : color) (rot_axis : Z) (ax : axis)
    (center_mode mode : string) (v : Viewer) (cs : list color) (p : PointCloud) :
  index3 rot_axis = Ok ax -> List.length boxes = List.length boxes' ->
  let out := _draw_bboxes_ind boxes indices bc ic rot_axis center_mode mode
               (DS v cs (Some p)) in
  let out' := _draw_bboxes_ind boxes' indices bc ic rot_axis center_mode mode
                (DS v cs (Some p)) in
  ds_points_colors (fst out) = ds_points_colors (fst out') /\ snd out = snd out'.
Proof.
  intros Hax Hlen.
  destruct (draw_bboxes_ind_effect boxes indices bc ic rot_axis ax center_mode mode
              v cs p Hax) as [Hc [Hr _]].
  destruct (draw_bboxes_ind_effect boxes' indices bc ic rot_axis ax center_mode mode
              v cs p Hax) as [Hc' [Hr' _]].
  cbn zeta in *. rewrite Hc, Hc', Hr, Hr', Hlen. split; reflexivity.
Qed.

Lemma draw_bboxes_ind_ignores_geometry_witness :
  ds_points_colors
    (fst (_draw_bboxes_ind [Box7 (V3 0 0 0) (V3 2 2 2) 0] (Memb 1 [[1%Z]])
            [0; 1; 0] [1; 0; 0] 2 "lidar_bottom" "xyz"
            (DS [] [default_point_color] (Some (PCD [V3 0 0 0] [default_point_color])))))
  = ds_points_colors
      (fst (_draw_bboxes_ind [Box7 (V3 50 50 50) (V3 1 1 1) (1 # 2)] (Memb 1 [[1%Z]])
              [0; 1; 0] [1; 0; 0] 2 "lidar_bottom" "xyz"
              (DS [] [default_point_color]
                  (Some (PCD [V3 0 0 0] [default_point_color]))))).
Proof.
  exact (proj1 (draw_bboxes_ind_ignores_geometry
                  [Box7 (V3 0 0 0) (V3 2 2 2) 0]
                  [Box7 (V3 50 50 50) (V3 1 1 1) (1 # 2)]
                  (Memb 1 [[1%Z]]) [0; 1; 0] [1; 0; 0] 2 A2 "lidar_bottom" "xyz" []
                  [default_point_color] (PCD [V3 0 0 0] [default_point_color])
                  eq_refl eq_refl)).
Defined.

(** ** The Visualizer class: construction and the scene invariant *)

Lemma index3_in_range (i : Z) :
  (0 <= i <= 2)%Z -> exists ax, index3 i = Ok ax.
Proof.
  intros Hi.
  assert (Hcases : i = 0%Z \/ i = 1%Z \/ i = 2%Z) by lia.
  destruct Hcases as [-> | [-> | ->]]; eexists; reflexivity.
Qed.

Lemma axis_assertion (i : Z) :
  negb ((0 <=? i)%Z && (i <=? 2)%Z) = false <-> (0 <= i <= 2)%Z.
Proof.
  rewrite negb_false_iff, andb_true_iff, !Z.leb_le. reflexivity.
Qed.

(** [_draw_bboxes] called on an object's own viewer, colours and cloud,
    when the object satisfies the scene invariant. *)
Lemma self_draw_bboxes_ok `{Open3D} (bbox3d : list BoxRow) (bc ic : color)
    (self : Visualizer) :
  scene_ok self ->
  exists v cs,
    self_draw_bboxes bbox3d bc ic self
    = (MkVisualizer v (points_size self) (point_color self) (bbox_color self)
         (points_in_box_color self) (rot_axis self) (center_mode self) (mode self)
         (seg_num self)
         (option_map (fun p => PCD (pcd_points p) cs) (pcd self)) (Some cs),
       Ok tt)
    /\ option_map (fun p => List.length (pcd_points p)) (pcd self)
       = Some (List.length cs).
Proof.
  intros [Hax [_ [p [Hp [Hcs Hlen]]]]].
  destruct (index3_in_range _ Hax) as [ax Hax'].
  unfold self_draw_bboxes. rewrite Hcs, Hp.
  pose proof (draw_bboxes_returns bbox3d bc ic (rot_axis self) ax (center_mode self)
                (mode self) (o3d_visualizer self) (pcd_colors p) p Hax' Hlen) as Hret.
  destruct (draw_bboxes_effect bbox3d bc ic (rot_axis self) (center_mode self)
              (mode self) (DS (o3d_visualizer self) (pcd_colors p) (Some p)))
    as [Hc [Hr Hpcd]].
  cbn zeta in Hc, Hr, Hpcd. cbn [ds_points_colors ds_pcd] in Hc, Hr, Hpcd.
  rewrite <- Hr, Hret in Hpcd. rewrite <- Hc in Hpcd.
  pose proof (recolor_rows_keeps ic (rot_axis self) (center_mode self) (mode self)
                (points_of (DS (o3d_visualizer self) (pcd_colors p) (Some p)))
                bbox3d (pcd_colors p)) as [Hkeep _].
  rewrite <- Hc in Hkeep. cbn [ds_points_colors] in Hkeep.
  destruct (_draw_bboxes bbox3d bc ic (rot_axis self) (center_mode self) (mode self)
              (DS (o3d_visualizer self) (pcd_colors p) (Some p))) as [s r].
  cbn [fst snd ds_pcd option_map] in *. subst r.
  exists (ds_vis s), (ds_points_colors s). split.
  - rewrite Hpcd. reflexivity.
  - rewrite Hkeep, Hlen. reflexivity.
Qed.

(** X10.  The constructor's failures: a [rot_axis] outside 0..2 fails
    the assertion; otherwise points with a mode other than ['xyz'] and
    ['xyzrgb'] raise [NotImplementedError], and boxes without points
    raise [AttributeError]. *)
Theorem visualizer_init_errors `{Open3D} (points : option (list PointRow))
    (bbox3d : option (list BoxRow)) (points_size : Z)
    (point_color bbox_color points_in_box_color : color) (rot_axis : Z)
    (center_mode mode : string) :
  let made := Visualizer__init__ points bbox3d points_size point_color bbox_color
                points_in_box_color rot_axis center_mode mode in
  (~ (0 <= rot_axis <= 2)%Z -> made = Raise AssertionError)
  /\ ((0 <= rot_axis <= 2)%Z -> points <> None -> mode <> "xyz" -> mode <> "xyzrgb" ->
      made = Raise NotImplementedError)
  /\ ((0 <= rot_axis <= 2)%Z -> points = None -> bbox3d <> None ->
      made = Raise AttributeError).
Proof.
  intros made. subst made. unfold Visualizer__init__. repeat split.
  - intros Hbad.
    destruct (negb ((0 <=? rot_axis)%Z && (rot_axis <=? 2)%Z)) eqn:Hassert;
      [ reflexivity | ].
    apply axis_assertion in Hassert. contradiction.
  - intros Hax Hpts Hxyz Hrgb. apply axis_assertion in Hax. rewrite Hax.
    destruct points as [pts | ]; [ | congruence ].
    unfold bind, with_viewer, zoom. cbn [o3d_visualizer].
    rewrite (draw_points_other_mode _ _ _ _ _ Hxyz Hrgb). reflexivity.
  - intros Hax -> Hboxes. apply axis_assertion in Hax. rewrite Hax.
    destruct bbox3d as [boxes | ]; [ reflexivity | congruence ].
Qed.

(** X11.  With a [rot_axis] in 0..2, points and a supported mode, the
    constructor returns whatever the boxes are; the new scene has a
    fresh counter, the cloud of the given points, and satisfies the
    scene invariant (its colour array is the cloud's own and as long as
    the cloud). *)
Theorem visualizer_init_scene `{Open3D} (points : list PointRow)
    (bbox3d : option (list BoxRow)) (points_size : Z)
    (point_color bbox_color points_in_box_color : color) (rot_axis : Z)
    (center_mode mode : string) :
  (0 <= rot_axis <= 2)%Z -> mode = "xyz" \/ mode = "xyzrgb" ->
  exists self,
    Visualizer__init__ (Some points) bbox3d points_size point_color bbox_color
      points_in_box_color rot_axis center_mode mode = Ok self
    /\ scene_ok self
    /\ seg_num self = 0%Z
    /\ option_map pcd_points (pcd self) = Some (map xyz points).
Proof.
  intros Hax Hmode. unfold Visualizer__init__.
  pose proof Hax as Hassert. apply axis_assertion in Hassert. rewrite Hassert.
  unfold bind at 1. unfold bind at 1. unfold with_viewer, zoom, modify.
  cbn [o3d_visualizer].
  destruct (draw_points_valid_mode points points_size point_color mode
              [add_geometry (create_coordinate_frame 1 zeros3); create_window] Hmode)
    as [cs [-> [Hlen _]]].
  cbn [fst snd]. unfold set_points, set_o3d_visualizer. cbv beta iota.
  set (self0 := MkVisualizer _ _ _ _ _ _ _ _ _ _ _).
  assert (Hok0 : scene_ok self0).
  { subst self0. split; [ exact Hax | ]. split; [ exact Hmode | ].
    eexists. split; [ reflexivity | ]. split; [ reflexivity | ].
    cbn. rewrite length_map. symmetry. exact Hlen. }
  destruct bbox3d as [boxes | ].
  - destruct (self_draw_bboxes_ok boxes bbox_color points_in_box_color self0 Hok0)
      as [v [cs' [-> Hlen']]].
    eexists. split; [ reflexivity | ]. subst self0. cbn in Hlen' |- *.
    split; [ | split; reflexivity ].
    split; [ exact Hax | ]. split; [ exact Hmode | ].
    eexists. split; [ reflexivity | ]. split; [ reflexivity | ].
    cbn. injection Hlen' as ->. reflexivity.
  - eexists. split; [ reflexivity | ].
    split; [ exact Hok0 | split; reflexivity ].
Qed.

Lemma visualizer_init_scene_witness :
  exists self, two_point_scene = Ok self /\ scene_ok self.
Proof.
  destruct (@visualizer_init_scene axis_aligned
              [Row (V3 0 0 0) []; Row (V3 1 0 0) []] None 2 default_point_color
              [0; 1; 0] [1; 0; 0] 2 "lidar_bottom" "xyz")
    as [self [Hmade [Hok _]]].
  - lia.
  - left. reflexivity.
  - exists self. split; [ exact Hmade | exact Hok ].
Defined.

(** ** The Visualizer class: what each method changes *)

Lemma add_seg_mask_attributes (mask : list PointRow) (self : Visualizer) :
  set_o3d_visualizer [] (fst (add_seg_mask mask self))
  = set_o3d_visualizer [] (set_seg_num (seg_num self + 1) self)
  /\ snd (add_seg_mask mask self)
     = match pcd self with
       | None => Raise AttributeError
       | Some p =>
           match pcd_points p with
           | [] => Raise ValueError
           | _ :: _ => Ok tt
           end
       end.
Proof.
  destruct (pcd self) as [p | ] eqn:Hp.
  - destruct (pcd_points p) as [ | q rest] eqn:Hpts.
    + destruct self as [v ps pc bbc pic ra cm md sn p' cs]. cbn [pcd] in Hp. subst p'.
      cbv [add_seg_mask bind modify self_pcd lift get with_viewer zoom call ret
           set_seg_num seg_num pcd o3d_visualizer set_o3d_visualizer points_size
           mode center_mode rot_axis points_in_box_color bbox_color point_color
           points_colors fst snd].
      rewrite Hpts. split; reflexivity.
    + assert (Hne : pcd_points p <> []) by (rewrite Hpts; discriminate).
      destruct (extrema_of_nonempty _ Hne) as [hi [lo [Hhi Hlo]]].
      rewrite (add_seg_mask_step self p hi lo mask Hp Hhi Hlo).
      cbn [fst snd]. split; [ | reflexivity ].
      destruct self; reflexivity.
  - destruct self as [v ps pc bbc pic ra cm md sn p' cs]. cbn [pcd] in Hp. subst p'.
    split; reflexivity.
Qed.

(** X12.  [add_seg_mask] advances the counter by one on every call,
    also when it raises; it never changes the cloud, the colour array or
    the settings.  It raises [AttributeError] on a scene built without
    points, [ValueError] on an empty cloud, and returns otherwise. *)
Theorem add_seg_mask_outcome (mask : list PointRow) (self : Visualizer) :
  let out := add_seg_mask mask self in
  seg_num (fst out) = (seg_num self + 1)%Z
  /\ pcd (fst out) = pcd self
  /\ points_colors (fst out) = points_colors self
  /\ (rot_axis (fst out), center_mode (fst out), mode (fst out))
     = (rot_axis self, center_mode self, mode self)
  /\ snd out
     = match pcd self with
       | None => Raise AttributeError
       | Some p =>
           match pcd_points p with
           | [] => Raise ValueError
           | _ :: _ => Ok tt
           end
       end.
Proof.
  intros out. destruct (add_seg_mask_attributes mask self) as [Hattr Hres].
  fold out in Hattr, Hres.
  destruct (fst out) as [v ps pc bbc pic ra cm md sn p cs], self.
  cbn in Hattr |- *. injection Hattr as -> -> -> -> -> -> -> -> -> ->.
  repeat split. exact Hres.
Qed.

(** X13.  The scene invariant is kept by every method: on a scene that
    satisfies it [add_bboxes] returns, changes neither the counter nor
    the coordinates of the cloud, and leaves a scene that satisfies it;
    so do [add_seg_mask] and [show]. *)
Theorem scene_invariant_kept `{Open3D} (self : Visualizer) (bbox3d : list BoxRow)
    (bc ic : option color) (mask : list PointRow) (save_path : option string) :
  scene_ok self ->
  (snd (add_bboxes bbox3d bc ic self) = Ok tt
   /\ scene_ok (fst (add_bboxes bbox3d bc ic self))
   /\ seg_num (fst (add_bboxes bbox3d bc ic self)) = seg_num self
   /\ option_map pcd_points (pcd (fst (add_bboxes bbox3d bc ic self)))
      = option_map pcd_points (pcd self))
  /\ scene_ok (fst (add_seg_mask mask self))
  /\ scene_ok (fst (show save_path self)).
Proof.
  intros Hok. split; [ | split ].
  - unfold add_bboxes, bind, get.
    match goal with
    | |- context [self_draw_bboxes bbox3d ?b ?i self] =>
        destruct (self_draw_bboxes_ok bbox3d b i self Hok) as [v [cs [-> Hlen]]]
    end.
    destruct Hok as [Hax [Hmode [p [Hp [Hcs Hl]]]]].
    cbn [fst snd seg_num pcd]. rewrite Hp in Hlen |- *. cbn in Hlen |- *.
    injection Hlen as Hlen.
    split; [ reflexivity | ]. split; [ | split; reflexivity ].
    split; [ exact Hax | ]. split; [ exact Hmode | ].
    eexists. split; [ reflexivity | ]. split; [ reflexivity | exact Hlen ].
  - destruct (add_seg_mask_attributes mask self) as [Hattr _].
    destruct Hok as [Hax [Hmode [p [Hp [Hcs Hl]]]]].
    destruct (fst (add_seg_mask mask self)) as [v ps pc bbc pic ra cm md sn p' cs].
    destruct self. cbn in *. injection Hattr as -> -> -> -> -> -> -> -> -> ->.
    split; [ exact Hax | ]. split; [ exact Hmode | ].
    exists p. auto.
  - rewrite show_trace. cbn [fst].
    destruct Hok as [Hax [Hmode [p [Hp [Hcs Hl]]]]].
    destruct self. cbn in *.
    split; [ exact Hax | ]. split; [ exact Hmode | ].
    exists p. auto.
Qed.

Lemma scene_invariant_kept_witness :
  snd (@add_bboxes axis_aligned [Box7 (V3 0 0 0) (V3 2 2 2) 0] None None two_point_self)
  = Ok tt.
Proof.
  refine (proj1 (proj1 (@scene_invariant_kept axis_aligned two_point_self
                          [Box7 (V3 0 0 0) (V3 2 2 2) 0] None None [] None _))).
  split; [ cbn; lia | ]. split; [ left; reflexivity | ].
  exists two_point_cloud. repeat split.
Defined.

(** ** The direction of the segmentation offset *)

Lemma fold_max_lower (rest : list vec3) :
  forall acc,
    v0 acc
    <= v0 (fold_left (fun m q => V3 (Qmax (v0 m) (v0 q)) (Qmax (v1 m) (v1 q))
                                    (Qmax (v2 m) (v2 q))) rest acc).
Proof.
  induction rest as [ | q rest IH]; intros acc; cbn [fold_left].
  - apply Qle_refl.
  - eapply Qle_trans; [ | apply IH ]. cbn [v0]. apply Q.le_max_l.
Qed.

Lemma fold_min_upper (rest : list vec3) :
  forall acc,
    v0 (fold_left (fun m q => V3 (Qmin (v0 m) (v0 q)) (Qmin (v1 m) (v1 q))
                                 (Qmin (v2 m) (v2 q))) rest acc)
    <= v0 acc.
Proof.
  induction rest as [ | q rest IH]; intros acc; cbn [fold_left].
  - apply Qle_refl.
  - eapply Qle_trans; [ apply IH | ]. cbn [v0]. apply Q.le_min_l.
Qed.

Lemma fold_max_constant (c : Q) (rest : list vec3) :
  (forall q, In q rest -> v0 q == c) ->
  forall acc, v0 acc == c ->
    v0 (fold_left (fun m q => V3 (Qmax (v0 m) (v0 q)) (Qmax (v1 m) (v1 q))
                                 (Qmax (v2 m) (v2 q))) rest acc) == c.
Proof.
  induction rest as [ | q rest IH]; intros Hall acc Hacc; cbn [fold_left].
  - exact Hacc.
  - apply IH.
    + intros r Hr. apply Hall. right. exact Hr.
    + cbn [v0]. rewrite Hacc, (Hall q (or_introl eq_refl)). apply Q.max_id.
Qed.

Lemma fold_min_constant (c : Q) (rest : list vec3) :
  (forall q, In q rest -> v0 q == c) ->
  forall acc, v0 acc == c ->
    v0 (fold_left (fun m q => V3 (Qmin (v0 m) (v0 q)) (Qmin (v1 m) (v1 q))
                                 (Qmin (v2 m) (v2 q))) rest acc) == c.
Proof.
  induction rest as [ | q rest IH]; intros Hall acc Hacc; cbn [fold_left].
  - exact Hacc.
  - apply IH.
    + intros r Hr. apply Hall. right. exact Hr.
    + cbn [v0]. rewrite Hacc, (Hall q (or_introl eq_refl)). apply Q.min_id.
Qed.

(** X14.  On a scene with a non-empty cloud and a counter that is not
    negative, [add_seg_mask] places its coordinate frame at
    [(offset, 0, 0)] with [offset >= 0]: groups only ever move toward
    positive x.  When every point of the cloud has the same x the offset
    is 0, so the group is drawn where its own coordinates put it. *)
Theorem add_seg_mask_offset_sign (self : Visualizer) (p : PointCloud)
    (mask : list PointRow) :
  pcd self = Some p -> pcd_points p <> [] -> (0 <= seg_num self)%Z ->
  exists offset group,
    o3d_visualizer (fst (add_seg_mask mask self))
    = add_geometry (PointCloudGeometry group)
        :: set_point_size (points_size self)
        :: add_geometry (create_coordinate_frame 1 (V3 offset 0 0))
        :: o3d_visualizer self
    /\ 0 <= offset
    /\ ((forall q, In q (pcd_points p) -> v0 q == v0 (hd zeros3 (pcd_points p))) ->
        offset == 0).
Proof.
  intros Hp Hne Hseg.
  destruct (extrema_of_nonempty _ Hne) as [hi [lo [Hhi Hlo]]].
  rewrite (add_seg_mask_step self p hi lo mask Hp Hhi Hlo). cbn [fst].
  rewrite draw_points_xyzrgb_eq. cbv zeta. cbn [fst].
  eexists. eexists. split; [ destruct self; reflexivity | ].
  destruct (pcd_points p) as [ | q rest]; [ congruence | ].
  cbn [amax0 amin0] in Hhi, Hlo. injection Hhi as <-. injection Hlo as <-.
  cbn [vsub v0 hd].
  assert (Hk : 0 <= inject_Z (seg_num self + 1)).
  { change 0 with (inject_Z 0). rewrite <- Zle_Qle. lia. }
  split.
  - pose proof (fold_max_lower rest q) as Hmax.
    pose proof (fold_min_upper rest q) as Hmin.
    apply Qmult_le_0_compat; [ | exact Hk ].
    apply Qmult_le_0_compat; lra.
  - intros Hsame.
    rewrite (fold_max_constant (v0 q) rest), (fold_min_constant (v0 q) rest);
      try reflexivity; try (intros r Hr; apply Hsame; right; exact Hr).
    ring.
Qed.

Lemma add_seg_mask_offset_sign_witness :
  exists offset group,
    o3d_visualizer (fst (add_seg_mask [] two_point_self))
    = add_geometry (PointCloudGeometry group)
        :: set_point_size 2
        :: add_geometry (create_coordinate_frame 1 (V3 offset 0 0))
        :: o3d_visualizer two_point_self
    /\ 0 <= offset.
Proof.
  destruct (add_seg_mask_offset_sign two_point_self two_point_cloud [] eq_refl
              ltac:(discriminate) ltac:(cbn; lia))
    as [offset [group [Htrace [Hpos _]]]].
  exists offset, group. split; [ exact Htrace | exact Hpos ].
Defined.

(** ** show_pts_boxes: the life of its window *)

Lemma no_destroy_in_linesets (bc : color) (boxes : list OrientedBoundingBox)
    (c : ViewerCall) :
  In c (rev (map (fun box => add_geometry (LineSet box bc)) boxes)) ->
  c <> destroy_window /\ c <> run.
Proof.
  intros Hin. apply in_rev in Hin. apply in_map_iff in Hin.
  destruct Hin as [box [<- _]]. split; discriminate.
Qed.

(** X15.  With a [rot_axis] in 0..2 and a supported mode,
    [show_pts_boxes] returns, whatever the points and boxes.  Its last
    viewer call is [destroy_window], its first [create_window]; before
    the end it runs the viewer only if asked to show and captures an
    image only if given a path, in that order; nothing before that runs
    or destroys the window. *)
Theorem show_pts_boxes_returns `{Open3D} (points : list PointRow)
    (bbox3d : option (list BoxRow)) (show_flag : bool) (save_path : option string)
    (points_size : Z) (point_color bbox_color points_in_box_color : color)
    (rot_axis : Z) (center_mode mode : string) :
  (0 <= rot_axis <= 2)%Z -> mode = "xyz" \/ mode = "xyzrgb" ->
  exists body,
    show_pts_boxes points bbox3d show_flag save_path points_size point_color
      bbox_color points_in_box_color rot_axis center_mode mode
    = (destroy_window
         :: match save_path with
            | Some path => [capture_screen_image path]
            | None => []
            end
         ++ (if show_flag then [run] else [])
         ++ body ++ [create_window],
       Ok tt)
    /\ ~ In destroy_window body /\ ~ In run body.
Proof.
  intros Hax Hmode. unfold show_pts_boxes.
  pose proof Hax as Hassert. apply axis_assertion in Hassert. rewrite Hassert.
  destruct (index3_in_range _ Hax) as [ax Hax'].
  destruct (draw_points_valid_mode points points_size point_color mode
              [add_geometry (create_coordinate_frame 1 zeros3); create_window] Hmode)
    as [cs [-> [Hlen _]]].
  set (cloud := PCD (map xyz points) cs).
  set (v1 := add_geometry (PointCloudGeometry cloud) :: _).
  destruct bbox3d as [boxes | ].
  - pose proof (draw_bboxes_returns boxes bbox_color points_in_box_color rot_axis ax
                  center_mode mode v1 cs cloud Hax') as Hret.
    pose proof (draw_bboxes_trace boxes bbox_color points_in_box_color rot_axis
                  center_mode mode (DS v1 cs (Some cloud))) as Htrace.
    cbn zeta in Htrace.
    destruct (_draw_bboxes boxes bbox_color points_in_box_color rot_axis center_mode
                mode (DS v1 cs (Some cloud))) as [s r].
    cbn [fst snd] in Hret, Htrace.
    assert (Hcloud : List.length (pcd_points cloud) = List.length cs)
      by (subst cloud; cbn; rewrite length_map; congruence).
    specialize (Hret Hcloud). subst r.
    destruct (Htrace eq_refl) as [bs [_ ->]]. cbn [ds_pcd ds_vis].
    exists ([update_geometry
               (PointCloudGeometry (PCD (pcd_points cloud) (ds_points_colors s)))]
            ++ rev (map (fun box => add_geometry (LineSet box bbox_color)) bs)
            ++ [add_geometry (PointCloudGeometry cloud); set_point_size points_size;
                add_geometry (create_coordinate_frame 1 zeros3)]).
    split.
    + subst v1. destruct show_flag, save_path; cbn [app];
        rewrite <- ?app_assoc; reflexivity.
    + split; intros Hin; cbn [app In] in Hin;
        destruct Hin as [Hin | Hin]; try discriminate Hin;
        apply in_app_or in Hin; destruct Hin as [Hin | Hin];
        try (apply no_destroy_in_linesets in Hin; destruct Hin; congruence);
        cbn [In] in Hin; repeat (destruct Hin as [Hin | Hin]; try discriminate Hin);
        exact Hin.
  - exists [add_geometry (PointCloudGeometry cloud); set_point_size points_size;
            add_geometry (create_coordinate_frame 1 zeros3)].
    split.
    + subst v1. destruct show_flag, save_path; reflexivity.
    + split; intros Hin; cbn [In] in Hin;
        repeat (destruct Hin as [Hin | Hin]; try discriminate Hin); exact Hin.
Qed.

Lemma show_pts_boxes_returns_witness :
  snd (@show_pts_boxes axis_aligned [Row (V3 0 0 0) []]
         (Some [Box7 (V3 0 0 0) (V3 2 2 2) 0]) true None 2 default_point_color
         [0; 1; 0] [1; 0; 0] 2 "lidar_bottom" "xyz")
  = Ok tt.
Proof.
  destruct (@show_pts_boxes_returns axis_aligned [Row (V3 0 0 0) []]
              (Some [Box7 (V3 0 0 0) (V3 2 2 2) 0]) true None 2 default_point_color
              [0; 1; 0] [1; 0; 0] 2 "lidar_bottom" "xyz")
    as [body [Hrun _]].
  - lia.
  - left. reflexivity.
  - rewrite Hrun. reflexivity.
Defined.

(** X16.  How [show_pts_boxes] fails.  A [rot_axis] outside 0..2 fails
    the assertion before a viewer exists.  A mode other than ['xyz'] and
    ['xyzrgb'] raises [NotImplementedError] after the window has been
    created; the window is then never destroyed. *)
Theorem show_pts_boxes_failures `{Open3D} (points : list PointRow)
    (bbox3d : option (list BoxRow)) (show_flag : bool) (save_path : option string)
    (points_size : Z) (point_color bbox_color points_in_box_color : color)
    (rot_axis : Z) (center_mode mode : string) :
  let out := show_pts_boxes points bbox3d show_flag save_path points_size
               point_color bbox_color points_in_box_color rot_axis center_mode mode in
  (~ (0 <= rot_axis <= 2)%Z -> out = ([], Raise AssertionError))
  /\ ((0 <= rot_axis <= 2)%Z -> mode <> "xyz" -> mode <> "xyzrgb" ->
      snd out = Raise NotImplementedError
      /\ In create_window (fst out) /\ ~ In destroy_window (fst out)).
Proof.
  intros out. subst out. unfold show_pts_boxes. split.
  - intros Hbad.
    destruct (negb ((0 <=? rot_axis)%Z && (rot_axis <=? 2)%Z)) eqn:Hassert;
      [ reflexivity | ].
    apply axis_assertion in Hassert. contradiction.
  - intros Hax Hxyz Hrgb. apply axis_assertion in Hax. rewrite Hax.
    rewrite (draw_points_other_mode _ _ _ _ _ Hxyz Hrgb). cbn [fst snd].
    split; [ reflexivity | ]. split.
    + right. right. left. reflexivity.
    + intros Hin. cbn [In] in Hin.
      repeat (destruct Hin as [Hin | Hin]; try discriminate Hin). exact Hin.
Qed.

(** ** project_pts_on_img: what is drawn *)





Lemma Qle_bool_false (a b : Q) : Qle_bool a b = false -> b < a.
Proof.
  intros H. apply Qnot_le_lt. intros Hle. apply Qle_bool_iff in Hle. congruence.
Qed.

Lemma round_bounds (q : Q) (w : Z) :
  0 <= q -> q < inject_Z w -> (0 <= Np.round q <= w)%Z.
Proof.
  intros Hlo Hhi.
  assert (Hf0 : (0 <= Qfloor q)%Z).
  { change 0%Z with (Qfloor 0). apply Qfloor_resp_le. exact Hlo. }
  assert (Hfw : (Qfloor q < w)%Z).
  { rewrite Zlt_Qlt. eapply Qle_lt_trans; [ apply Qfloor_le | exact Hhi ]. }
  unfold Np.round.
  destruct (Qcompare (q - inject_Z (Qfloor q)) (1 # 2));
    [ destruct (Z.even (Qfloor q)) | | ];
    lia.
Qed.

(** X18.  Every circle [project_pts_on_img] draws for a point in view
    of an image of height [h] and width [w] is centred at integer
    coordinates with [0 <= x <= w] and [0 <= y <= h], and uses a palette
    entry in 0..255.  (The upper bounds are reached: a pixel coordinate
    within half a pixel of the right or bottom edge rounds onto it.) *)
Theorem point_circle_on_image (p : PointRow) (h w : Z) (lidar2img_rt : mat4)
    (max_distance : Q) (thickness : Z) :
  point_in_fov (h, w) lidar2img_rt p = true ->
  exists x y c,
    point_circle lidar2img_rt max_distance thickness p = circle (x, y) 1 c thickness
    /\ (0 <= x <= w)%Z /\ (0 <= y <= h)%Z /\ (0 <= c <= 255)%Z.
Proof.
  intros Hfov. unfold point_circle. cbv zeta.
  eexists. eexists. eexists. split; [ reflexivity | ].
  unfold point_in_fov, fov_inds in Hfov.
  destruct (perspective_divide_finite (1 # 100000) 99999
              (matmul_T (homogeneous (xyz p)) lidar2img_rt))
    as [_ [_ [Hu Hv]]]; [ lra | lra | ].
  cbn zeta in Hu, Hv. rewrite Hu, Hv in Hfov. cbn [Np.ltb Np.geb fst snd] in Hfov.
  cbn [pix_depth perspective_divide] in Hfov.
  apply andb_true_iff in Hfov. destruct Hfov as [Hfov Hv0].
  apply andb_true_iff in Hfov. destruct Hfov as [Hfov Hvh].
  apply andb_true_iff in Hfov. destruct Hfov as [Huw Hu0].
  apply negb_true_iff in Huw. apply negb_true_iff in Hvh.
  apply Qle_bool_iff in Hu0. apply Qle_bool_iff in Hv0.
  apply Qle_bool_false in Huw. apply Qle_bool_false in Hvh.
  split; [ apply round_bounds; assumption | ].
  split; [ apply round_bounds; assumption | ].
  unfold Np.clipZ. lia.
Qed.

Lemma point_circle_on_image_witness :
  exists x y c,
    point_circle identity4 70 (-1) (Row (V3 6 0 10) []) = circle (x, y) 1 c (-1)
    /\ (0 <= x <= 1)%Z.
Proof.
  destruct (point_circle_on_image (Row (V3 6 0 10) []) 1 1 identity4 70 (-1) eq_refl)
    as [x [y [c [Heq [Hx _]]]]].
  exists x, y, c. split; [ exact Heq | exact Hx ].
Defined.

(** A pixel column of 0.6 in an image of width 1 is in view and is
    drawn at column 1, one past the last column of the image. *)
Example circle_on_right_edge :
  point_in_fov (1, 1)%Z identity4 (Row (V3 6 0 10) []) = true
  /\ point_circle identity4 70 (-1) (Row (V3 6 0 10) []) = circle (1, 0)%Z 1 70 (-1).
Proof. split; reflexivity. Qed.

(** X19.  For a [max_distance] that is not negative, the palette entry
    never grows with depth: of two positive depths the larger one gets
    the smaller or equal entry. *)
Theorem color_index_decreasing (max_distance d1 d2 : Q) :
  0 <= max_distance -> 0 < d1 -> d1 <= d2 ->
  exists i1 i2,
    color_index max_distance d1 = Ok i1 /\ color_index max_distance d2 = Ok i2
    /\ (i2 <= i1)%Z.
Proof.
  intros Hmd Hd1 Hd12.
  rewrite !color_index_positive_depth by lra.
  eexists. eexists. split; [ reflexivity | ]. split; [ reflexivity | ].
  rewrite !clip_trunc_floor.
  assert (Hq : max_distance * 10 / d2 <= max_distance * 10 / d1).
  { apply Qle_shift_div_r; [ lra | ].
    assert (Hnn : 0 <= max_distance * 10 / d1)
      by (apply Qle_shift_div_l; lra).
    assert (Heq : max_distance * 10 / d1 * d1 == max_distance * 10)
      by (field; lra).
    rewrite <- Heq at 1.
    rewrite !(Qmult_comm (max_distance * 10 / d1)).
    apply Qmult_le_compat_r; assumption. }
  apply Qfloor_resp_le in Hq. unfold Np.clipZ. lia.
Qed.

Lemma color_index_decreasing_witness :
  exists i1 i2,
    color_index 70 10 = Ok i1 /\ color_index 70 400 = Ok i2 /\ (i2 <= i1)%Z.
Proof.
  apply color_index_decreasing; [ lra | lra | ].
  unfold Qle. cbn. lia.
Defined.

(** ** plot_rect3d_on_img and draw_lidar_bbox3d_on_img: twelve segments a box *)

Lemma skipn_nth_error {A} (l : list A) (k : nat) (a : A) :
  nth_error l k = Some a -> skipn k l = a :: skipn (S k) l.
Proof.
  revert l. induction k as [ | k IH]; intros [ | x rest] Hnth; cbn in *;
    try discriminate.
  - congruence.
  - apply IH. exact Hnth.
Qed.

(** The inner loop: the twelve segments of one set of at least eight
    corners. *)
Lemma plot_rect_edges (line_color : list Z) (thickness : Z)
    (corners : list (Np.npfloat * Np.npfloat)) (canvas : Canvas) :
  (8 <= List.length corners)%nat ->
  for_each
    (fun se : nat * nat =>
       a <- lift (subscript
                    (map (fun p => (astype_int (fst p), astype_int (snd p))) corners)
                    (fst se)) ;;
       b <- lift (subscript
                    (map (fun p => (astype_int (fst p), astype_int (snd p))) corners)
                    (snd se)) ;;
       canvas_call (line a b line_color thickness))
    line_indices canvas
  = (rev (rect_lines line_color thickness corners) ++ canvas, Ok tt).
Proof.
  intros Hlen.
  destruct corners as [ | c0 [ | c1 [ | c2 [ | c3 [ | c4 [ | c5 [ | c6 [ | c7 rest]]]]]]]];
    cbn [List.length] in Hlen; try lia.
  reflexivity.
Qed.

Lemma plot_rect_loop (line_color : list Z) (thickness : Z)
    (rect_corners : list (list (Np.npfloat * Np.npfloat))) (n : nat) :
  Forall (fun corners => (8 <= List.length corners)%nat) rect_corners ->
  forall k canvas,
    (k + n <= List.length rect_corners)%nat ->
    for_each
      (fun i =>
         row <- lift (subscript rect_corners i) ;;
         let corners := map (fun p => (astype_int (fst p), astype_int (snd p))) row in
         for_each
           (fun se : nat * nat =>
              a <- lift (subscript corners (fst se)) ;;
              b <- lift (subscript corners (snd se)) ;;
              canvas_call (line a b line_color thickness))
           line_indices)
      (seq k n) canvas
    = (rev (List.concat (map (rect_lines line_color thickness)
                        (firstn n (skipn k rect_corners)))) ++ canvas,
       Ok tt).
Proof.
  intros Hall. induction n as [ | n IH]; intros k canvas Hk.
  - reflexivity.
  - cbn [seq for_each]. unfold bind at 1. unfold bind at 1, lift at 1, subscript at 1.
    destruct (nth_error rect_corners k) as [row | ] eqn:Hrow.
    2:{ apply nth_error_None in Hrow. lia. }
    assert (Hrow8 : (8 <= List.length row)%nat).
    { rewrite Forall_forall in Hall. apply Hall. eapply nth_error_In. exact Hrow. }
    cbv zeta. rewrite (plot_rect_edges line_color thickness row canvas Hrow8).
    rewrite IH by lia.
    rewrite (skipn_nth_error _ _ _ Hrow). cbn [firstn map List.concat].
    rewrite rev_app_distr, <- app_assoc. reflexivity.
Qed.

(** The segments of a [plot_rect3d_on_img] run on well-formed input. *)
Lemma plot_rect3d_on_img_lines (num_rects : nat)
    (rect_corners : list (list (Np.npfloat * Np.npfloat)))
    (line_color : list Z) (thickness : Z) (canvas : Canvas) :
  (num_rects <= List.length rect_corners)%nat ->
  Forall (fun corners => (8 <= List.length corners)%nat) rect_corners ->
  let out := plot_rect3d_on_img num_rects rect_corners line_color thickness canvas in
  out = (rev (List.concat (map (rect_lines line_color thickness)
                          (firstn num_rects rect_corners))) ++ canvas,
         Ok tt)
  /\ List.length (fst out) = (12 * num_rects + List.length canvas)%nat.
Proof.
  intros Hnum Hall out. subst out.
  assert (Heq : plot_rect3d_on_img num_rects rect_corners line_color thickness canvas
                = (rev (List.concat (map (rect_lines line_color thickness)
                                         (firstn num_rects rect_corners))) ++ canvas,
                   Ok tt)).
  { apply (plot_rect_loop line_color thickness rect_corners num_rects Hall 0%nat canvas).
    lia. }
  rewrite Heq. cbn [fst]. split; [ reflexivity | ].
  rewrite length_app, length_rev. f_equal.
  assert (Hlen : List.length (firstn num_rects rect_corners) = num_rects)
    by (apply firstn_length_le; exact Hnum).
  revert Hlen. generalize (firstn num_rects rect_corners). clear.
  intros l. revert num_rects. induction l as [ | r rest IH]; intros n Hn;
    cbn [map List.concat List.length] in *.
  - subst n. reflexivity.
  - destruct n as [ | n]; [ discriminate | ]. injection Hn as Hn.
    rewrite length_app, (IH n Hn). unfold rect_lines. rewrite length_map.
    cbn [line_indices List.length]. lia.
Qed.

Lemma astype_int_in_c_int (q : Q) :
  c_int (Np.trunc q) -> astype_int (Np.Fin q) = Np.trunc q.
Proof.
  unfold c_int, astype_int, int64_min, int64_max. intros Hq. cbv zeta.
  destruct (Z.leb_spec (-9223372036854775808) (Np.trunc q)); [ | lia ].
  destruct (Z.leb_spec (Np.trunc q) 9223372036854775807); [ reflexivity | lia ].
Qed.

Lemma corner_nth_in_c_int (corners : list (Np.npfloat * Np.npfloat)) (i : nat) :
  Forall corner_in_c_int corners ->
  let c := nth i (map (fun p => (astype_int (fst p), astype_int (snd p))) corners)
             (0, 0)%Z in
  c_int (fst c) /\ c_int (snd c).
Proof.
  intros Hall. cbv zeta.
  destruct (nth_in_or_default i
              (map (fun p => (astype_int (fst p), astype_int (snd p))) corners)
              (0, 0)%Z) as [Hin | ->].
  - apply in_map_iff in Hin. destruct Hin as [p [<- Hp]].
    rewrite Forall_forall in Hall. destruct (Hall p Hp) as [x [y [-> [Hx Hy]]]].
    cbn [fst snd]. rewrite !astype_int_in_c_int by assumption. split; assumption.
  - unfold c_int. cbn. lia.
Qed.

Lemma rect_lines_in_c_int (line_color : list Z) (thickness : Z)
    (corners : list (Np.npfloat * Np.npfloat)) :
  Forall corner_in_c_int corners ->
  Forall line_in_c_int (rect_lines line_color thickness corners).
Proof.
  intros Hall. unfold rect_lines. apply Forall_forall. intros c Hin.
  apply in_map_iff in Hin. destruct Hin as [se [<- _]]. cbv zeta.
  cbn [line_in_c_int].
  destruct (corner_nth_in_c_int corners (fst se) Hall) as [H1 H2].
  destruct (corner_nth_in_c_int corners (snd se) Hall) as [H3 H4].
  cbv zeta in H1, H2, H3, H4.
  split; [ exact H1 | split; [ exact H2 | split; [ exact H3 | exact H4 ] ] ].
Qed.

Lemma rects_lines_in_c_int (line_color : list Z) (thickness : Z)
    (rects : list (list (Np.npfloat * Np.npfloat))) :
  Forall (Forall corner_in_c_int) rects ->
  Forall line_in_c_int (List.concat (map (rect_lines line_color thickness) rects)).
Proof.
  induction 1 as [ | r rest Hr Hrest IH]; cbn [map List.concat].
  - constructor.
  - apply Forall_app. split; [ apply rect_lines_in_c_int; exact Hr | exact IH ].
Qed.

(** X20.  When there are at least [num_rects] corner sets, each has at
    least eight corners, and the coordinates of the first [num_rects] sets
    are finite and fit a C [int] once cut to integers, [plot_rect3d_on_img]
    returns and draws, for each of these sets in turn, the twelve segments
    of the edge table between its corners cut to integers:
    [12 * num_rects] segments in all, every end point within the C [int]
    range that [cv2.line] takes. *)
Theorem plot_rect3d_on_img_draws (num_rects : nat)
    (rect_corners : list (list (Np.npfloat * Np.npfloat)))
    (line_color : list Z) (thickness : Z) (canvas : Canvas) :
  (num_rects <= List.length rect_corners)%nat ->
  Forall (fun corners => (8 <= List.length corners)%nat) rect_corners ->
  Forall (Forall corner_in_c_int) (firstn num_rects rect_corners) ->
  let out := plot_rect3d_on_img num_rects rect_corners line_color thickness canvas in
  out = (rev (List.concat (map (rect_lines line_color thickness)
                          (firstn num_rects rect_corners))) ++ canvas,
         Ok tt)
  /\ List.length (fst out) = (12 * num_rects + List.length canvas)%nat
  /\ Forall line_in_c_int
       (List.concat (map (rect_lines line_color thickness)
                         (firstn num_rects rect_corners))).
Proof.
  intros Hnum Hall Hfit out.
  destruct (plot_rect3d_on_img_lines num_rects rect_corners line_color thickness
              canvas Hnum Hall) as [Heq Hlen].
  split; [ exact Heq | ]. split; [ exact Hlen | ].
  apply rects_lines_in_c_int. exact Hfit.
Qed.

Lemma plot_rect3d_on_img_draws_witness :
  List.length
    (fst (plot_rect3d_on_img 1
            [repeat (Np.Fin 3, Np.Fin (7 # 2)) 8] [0%Z; 255%Z; 0%Z] 1 []))
  = 12%nat.
Proof.
  refine (proj1 (proj2 (plot_rect3d_on_img_draws 1
                          [repeat (Np.Fin 3, Np.Fin (7 # 2)) 8]
                          [0%Z; 255%Z; 0%Z] 1 [] _ _ _))).
  - cbn. lia.
  - constructor; [ cbn; lia | constructor ].
  - repeat constructor;
      (exists 3, (7 # 2); split; [ reflexivity | split; unfold c_int; cbn; lia ]).
Defined.

(** Outside that range the conversion does not keep the value: an entry
    of [10^19] becomes the smallest 64-bit integer. *)
Example astype_int_out_of_range :
  astype_int (Np.Fin (inject_Z (10 ^ 19))) = (- 2 ^ 63)%Z.
Proof. reflexivity. Qed.





(** ** _write_oriented_bbox: what is exported *)

(** X22.  [_write_oriented_bbox] never exports an empty scene: an empty
    box array is replaced by one box of zero size at the origin, so the
    number of exported boxes is the larger of 1 and the number of rows;
    for a non-empty array the boxes keep the rows' sizes, in order. *)
Theorem write_oriented_bbox_never_empty `{Trig} (scene_bbox : list BoxRow) :
  List.length (_write_oriented_bbox scene_bbox)
  = Nat.max 1 (List.length scene_bbox)
  /\ _write_oriented_bbox []
     = [convert_oriented_box_to_trimesh_fmt (Box7 zeros3 zeros3 0)]
  /\ (scene_bbox <> [] ->
      map tbox_extents (_write_oriented_bbox scene_bbox) = map box_dim scene_bbox).
Proof.
  unfold _write_oriented_bbox. split; [ | split ].
  - destruct scene_bbox as [ | b rest]; [ reflexivity | ].
    cbn [List.length Nat.eqb]. rewrite length_map. cbn [List.length]. lia.
  - reflexivity.
  - intros Hne. destruct scene_bbox as [ | b rest]; [ congruence | ].
    cbn [List.length Nat.eqb]. rewrite map_map. reflexivity.
Qed.

(** X23.  The transform built for a box turns a point about the z axis
    by the matrix of the cosine [c] and sine [s] of the yaw, then shifts
    it to the box centre: the image has homogeneous coordinate 1, height
    [z + cz], horizontal coordinates [c x - s y + cx] and [s x + c y + cy],
    and its squared horizontal distance from the centre is [c^2 + s^2]
    times that of the point from the axis. *)
Theorem box_transform_rigid `{Trig} (box : BoxRow) (pt : vec3) :
  let c := np_cos (box_yaw box) in
  let s := np_sin (box_yaw box) in
  let q := transform_point (tbox_transform (convert_oriented_box_to_trimesh_fmt box))
             pt in
  let dx := w0 q - v0 (box_center box) in
  let dy := w1 q - v1 (box_center box) in
  w3 q == 1
  /\ w2 q == v2 pt + v2 (box_center box)
  /\ w0 q == c * v0 pt - s * v1 pt + v0 (box_center box)
  /\ w1 q == s * v0 pt + c * v1 pt + v1 (box_center box)
  /\ dx * dx + dy * dy == (c * c + s * s) * (v0 pt * v0 pt + v1 pt * v1 pt).
Proof.
  unfold transform_point, convert_oriented_box_to_trimesh_fmt, heading2rotmat,
    matmul_T, homogeneous, dot4.
  cbn [tbox_transform row0 row1 row2 row3 w0 w1 w2 w3 v0 v1 v2].
  cbv zeta. repeat split; ring.
Qed.

(** With the cosine 3/5 and the sine 4/5 the point [(7, 8, 9)] keeps its
    squared horizontal distance [7^2 + 8^2] from the axis. *)
Example box_transform_keeps_distance :
  let q := transform_point
             (tbox_transform
                (@convert_oriented_box_to_trimesh_fmt three_four_five
                   (Box7 (V3 1 2 3) (V3 4 5 6) (1 # 2))))
             (V3 7 8 9) in
  (w0 q - 1) * (w0 q - 1) + (w1 q - 2) * (w1 q - 2) == 7 * 7 + 8 * 8
  /\ w2 q == 9 + 3.
Proof. split; reflexivity. Qed.
